(** * Schema inference and dynamic filters

    A shallow embedding of [utils/data_manager.py] ([detect_column_types])
    and [utils/dynamic_filters.py] ([generate_dynamic_filters],
    [apply_filters]) of the procurement dashboard, with the properties its
    specification states about them.

    Modelling conventions.
    - A pandas DataFrame is an index (row labels), an ordered list of named
      columns and the [attrs] dictionary.  A column has one declared dtype and
      cells of that dtype only: numeric (int64/float64, cells are rationals),
      object (cells are Python [str]) or datetime64 (cells are timestamps, in
      nanoseconds since the epoch).  A missing cell (NaN, None, NaT) is [None].
      Column names are taken to be distinct, as [pd.read_csv] makes them.
    - A reader can leave cells of different Python types in one object
      series.  Module [Raw] embeds the classifier on such frames: there
      [sorted] raises on values of different types, and the call can fail.
      [text_frames_never_raise] shows that on the frames above it never does,
      and gives the schema of the typed embedding.
    - Floating point is not modelled: numbers are exact rationals.  No
      statement below depends on how a double rounds: where the code tests
      computed floats (the step of a slider), only facts that hold of doubles
      as of exact numbers are stated.
    - DataFrames are Python objects: they live in a store and are passed by
      reference, so that "the input is not modified" is a statement about the
      store.
    - The two library parsers the code relies on, [pd.to_datetime] on a string
      and [float] on a string, are parameters of the development.
    - Streamlit is an oracle: a widget call returns the user's selection, and
      every [st.*] call is recorded in a trace. *)

From Stdlib Require Import ZArith QArith String Ascii List Lia Lqa Bool.
From stdpp Require Import base option list gmap strings pretty.
Import ListNotations.
Close Scope Q_scope.

(** ** Python strings *)

Definition lower_ascii (c : ascii) : ascii :=
  let n := nat_of_ascii c in
  if (65 <=? n)%nat && (n <=? 90)%nat then ascii_of_nat (n + 32) else c.

(** [s.lower()], on ASCII names. *)
Fixpoint lower (s : string) : string :=
  match s with
  | EmptyString => EmptyString
  | String c t => String (lower_ascii c) (lower t)
  end.

(** [sub in s] *)
Fixpoint str_in (sub s : string) : bool :=
  String.prefix sub s ||
  match s with
  | EmptyString => false
  | String _ t => str_in sub t
  end.

(** [s.endswith(suf)] *)
Definition endswith (s suf : string) : bool :=
  let n := String.length s in
  let k := String.length suf in
  (k <=? n)%nat && String.eqb (substring (n - k) k s) suf.

(** [s[:-k]] for a positive literal [k] *)
Definition drop_last (k : nat) (s : string) : string :=
  substring 0 (String.length s - k) s.

(** [any(term in s for term in terms)] *)
Definition any_in (terms : list string) (s : string) : bool :=
  existsb (fun term => str_in term s) terms.

(** ** Values, columns and frames *)

(** A Python scalar held in a cell or given as a filter value: a number, a
    [str], or a pandas [Timestamp] (nanoseconds since the epoch). *)
Inductive scalar :=
| SNum (q : Q)
| SStr (s : string)
| STime (t : Z).

Inductive column :=
| NumCol (cells : list (option Q))
| ObjCol (cells : list (option string))
| TimeCol (cells : list (option Z)).

(** [pd.api.types.is_numeric_dtype(series)] *)
Definition is_numeric_dtype (c : column) : bool :=
  match c with NumCol _ => true | _ => false end.

(** The cells of a series as Python objects. *)
Definition cells_of (c : column) : list (option scalar) :=
  match c with
  | NumCol l => map (option_map SNum) l
  | ObjCol l => map (option_map SStr) l
  | TimeCol l => map (option_map STime) l
  end.

(** [len(series)] *)
Definition col_len (c : column) : nat := length (cells_of c).

(** Python [==] on scalars: values of different kinds are unequal. *)
Definition scalar_eqb (a b : scalar) : bool :=
  match a, b with
  | SNum x, SNum y => Qeq_bool x y
  | SStr x, SStr y => String.eqb x y
  | STime x, STime y => Z.eqb x y
  | _, _ => false
  end.

(** Python [<=] on scalars of one kind (the only use is [sorted] on the
    cells of one column). *)
Definition scalar_leb (a b : scalar) : bool :=
  match a, b with
  | SNum x, SNum y => Qle_bool x y
  | SStr x, SStr y => String.leb x y
  | STime x, STime y => Z.leb x y
  | _, _ => true
  end.

(** [series.dropna()], as the list of the remaining values. *)
Fixpoint dropna (l : list (option scalar)) : list scalar :=
  match l with
  | [] => []
  | None :: t => dropna t
  | Some v :: t => v :: dropna t
  end.

(** [series.isna().all()] *)
Definition isna_all (c : column) : bool :=
  forallb (fun x => match x with None => true | Some _ => false end) (cells_of c).

Definition mem_scalar (v : scalar) (l : list scalar) : bool :=
  existsb (scalar_eqb v) l.

(** Distinct values in order of first appearance; [seen] holds the values
    met so far. *)
Fixpoint unique_from (seen l : list scalar) : list scalar :=
  match l with
  | [] => []
  | v :: t =>
      if mem_scalar v seen then unique_from seen t
      else v :: unique_from (v :: seen) t
  end.

(** [series.dropna().unique().tolist()] *)
Definition unique_values_of (c : column) : list scalar :=
  unique_from [] (dropna (cells_of c)).

(** [series.nunique()]: missing cells are not counted. *)
Definition nunique (c : column) : nat := length (unique_values_of c).

(** [len(series.unique())]: a missing cell counts as one more value. *)
Definition len_unique (c : column) : nat :=
  (nunique c + if forallb (fun x => match x with None => false | Some _ => true end) (cells_of c)
               then 0 else 1)%nat.

Fixpoint insert_sorted (v : scalar) (l : list scalar) : list scalar :=
  match l with
  | [] => [v]
  | w :: t => if scalar_leb v w then v :: w :: t else w :: insert_sorted v t
  end.

(** [sorted(l)] on values of one kind. *)
Definition sorted (l : list scalar) : list scalar :=
  fold_right insert_sorted [] l.

(** [df.attrs]: the two entries the pipeline writes and reads.  [None] is
    an absent key. *)
Record Attrs := {
  column_types : option (gmap string (list string));
  unique_values : option (gmap string (list scalar))
}.

Record DataFrame := {
  index : list nat;
  series : list (string * column);
  attrs : Attrs
}.

Definition no_attrs : Attrs := {| column_types := None; unique_values := None |}.

#[global] Instance DataFrame_inhabited : Inhabited DataFrame :=
  populate {| index := []; series := []; attrs := no_attrs |}.

(** [df.empty]: some axis has length zero. *)
Definition empty (df : DataFrame) : bool :=
  match index df, series df with
  | [], _ | _, [] => true
  | _, _ => false
  end.

(** [df.columns]: the column names, in order. *)
Definition columns_of (df : DataFrame) : list string := map fst (series df).

(** [col in df.columns] and [df[col]] *)
Fixpoint find_col (cols : list (string * column)) (col : string) : option column :=
  match cols with
  | [] => None
  | (name, c) :: t => if String.eqb name col then Some c else find_col t col
  end.

(** [dict.get(key, [])] *)
Definition get_list {A} (d : gmap string (list A)) (key : string) : list A :=
  default [] (d !! key).

(** A reference to a DataFrame is its position in the store of objects;
    the store only grows (objects are never freed). *)
Abbreviation loc := nat (only parsing).
Abbreviation store := (list DataFrame) (only parsing).

(** ** Column classification: [detect_column_types] *)

Definition id_terms : list string := ["id"; "code"; "number"; "no."; "key"].
Definition money_terms : list string :=
  ["amount"; "price"; "cost"; "value"; "spend"; "budget"; "revenue"].
Definition date_terms : list string :=
  ["date"; "day"; "month"; "year"; "time"; "period"; "quarter"].

(** The six lists a column name can be appended to. *)
Inductive kind := Identifier | Numeric | Monetary | Date | Categorical | Text.

Definition kind_eqb (a b : kind) : bool :=
  match a, b with
  | Identifier, Identifier | Numeric, Numeric | Monetary, Monetary
  | Date, Date | Categorical, Categorical | Text, Text => true
  | _, _ => false
  end.

(** [l.append(col)] when [k] is the list's kind [mine]. *)
Definition append_if (k mine : kind) (col : string) (l : list string) : list string :=
  if kind_eqb k mine then l ++ [col] else l.

(** The local lists of [detect_column_types]. *)
Record detected := {
  numeric_cols : list string;
  date_cols : list string;
  monetary_cols : list string;
  categorical_cols : list string;
  id_cols : list string;
  text_cols : list string;
  uniq : gmap string (list scalar)
}.

(** The list of one kind. *)
Definition cols_of_kind (k : kind) (d : detected) : list string :=
  match k with
  | Identifier => id_cols d
  | Numeric => numeric_cols d
  | Monetary => monetary_cols d
  | Date => date_cols d
  | Categorical => categorical_cols d
  | Text => text_cols d
  end.

(** The key of a kind in [df.attrs['column_types']]. *)
Definition kind_key (k : kind) : string :=
  match k with
  | Identifier => "id"
  | Numeric => "numeric"
  | Monetary => "monetary"
  | Date => "date"
  | Categorical => "categorical"
  | Text => "text"
  end.

Definition detected_init : detected :=
  {| numeric_cols := []; date_cols := []; monetary_cols := [];
     categorical_cols := []; id_cols := []; text_cols := []; uniq := ∅ |}.

(** [n_unique <= 50 or (n_unique / n_total <= 0.2 and n_unique <= 100)].
    The quotient is only evaluated when [n_unique > 50], hence
    [n_total > 50]: the division is never by zero.  The condition is the same
    on doubles and on exact quotients: rounding is monotone, so a quotient of
    at most one fifth rounds to at most the double [0.2], and a quotient
    above one fifth with [n_unique <= 100] exceeds it by more than the
    rounding error. *)
Definition is_categorical (n_unique n_total : nat) : bool :=
  (n_unique <=? 50)%nat ||
  (Qle_bool (inject_Z (Z.of_nat n_unique) / inject_Z (Z.of_nat n_total)) (2 # 10)
   && (n_unique <=? 100)%nat).

Section Pipeline.

(** [pd.to_datetime] on one string: the timestamp, or [None] when pandas
    raises. *)
Variable parse_datetime : string -> option Z.

(** [float] on one string: the float ([None] is [nan]), or [None] for
    [ValueError]. *)
Variable parse_float : string -> option (option Q).

(** [pd.to_datetime(series)] returns (its value is discarded by the
    caller): every non-missing string parses. *)
Definition to_datetime_ok (c : column) : bool :=
  match c with
  | NumCol _ => true
  | TimeCol _ => true
  | ObjCol l =>
      forallb (fun x => match x with
                        | None => true
                        | Some s => bool_decide (is_Some (parse_datetime s))
                        end) l
  end.

(** The branch the loop body takes for one column: the list it appends
    the name to, or [None] for [continue] on an all-missing column. *)
Definition classify (col : string) (c : column) : option kind :=
  if isna_all c then None
  else if any_in id_terms (lower col) then Some Identifier
  else if is_numeric_dtype c then
    if any_in money_terms (lower col) then Some Monetary else Some Numeric
  else if any_in date_terms (lower col) && to_datetime_ok c then Some Date
  else if is_categorical (nunique c) (length (dropna (cells_of c))) then Some Categorical
  else Some Text.

(** One iteration of [for col in df.columns], on the lists built so far. *)
Definition detect_step (acc : detected) (entry : string * column) : detected :=
  let '(col, c) := entry in
  match classify col c with
  | None => acc
  | Some k =>
      {| numeric_cols := append_if k Numeric col (numeric_cols acc);
         date_cols := append_if k Date col (date_cols acc);
         monetary_cols := append_if k Monetary col (monetary_cols acc);
         categorical_cols := append_if k Categorical col (categorical_cols acc);
         id_cols := append_if k Identifier col (id_cols acc);
         text_cols := append_if k Text col (text_cols acc);
         uniq := match k with
                 | Categorical => <[col := sorted (unique_values_of c)]> (uniq acc)
                 | _ => uniq acc
                 end |}
  end.

Definition detect_loop (df : DataFrame) : detected :=
  fold_left detect_step (series df) detected_init.

(** The dictionary stored under [df.attrs['column_types']]. *)
Definition column_types_dict (d : detected) : gmap string (list string) :=
  <["text" := text_cols d]>
  (<["id" := id_cols d]>
  (<["categorical" := categorical_cols d]>
  (<["monetary" := monetary_cols d]>
  (<["date" := date_cols d]>
  (<["numeric" := numeric_cols d]> ∅))))).

(** The frame after [detect_column_types(df)]: only [attrs] is written. *)
Definition detect_column_types_frame (df : DataFrame) : DataFrame :=
  let d := detect_loop df in
  {| index := index df;
     series := series df;
     attrs := {| column_types := Some (column_types_dict d);
                 unique_values := Some (uniq d) |} |}.

(** ** The store of DataFrame objects *)

(** The exceptions that escape the modelled functions. *)
Inductive exn :=
| KeyError (key : string)
| TypeError.

Inductive outcome (A : Type) :=
| Ok (a : A)
| Raise (e : exn).
#[global] Arguments Ok {A} a.
#[global] Arguments Raise {A} e.

(** Computations that read and allocate objects and may raise. *)
Definition M (A : Type) : Type := store -> outcome A * store.

Definition ret {A} (a : A) : M A := fun h => (Ok a, h).

Definition bind {A B} (m : M A) (k : A -> M B) : M B :=
  fun h => match m h with
           | (Ok a, h') => k a h'
           | (Raise e, h') => (Raise e, h')
           end.

#[global] Instance M_ret : MRet M := @ret.
#[global] Instance M_bind : MBind M := fun A B k m => bind m k.

Definition lift {A} (r : outcome A) : M A := fun h => (r, h).

(** Reading through a reference; a live reference always points into the
    store. *)
Definition deref (l : loc) : M DataFrame := fun h => (Ok (h !!! l), h).

(** A new object. *)
Definition new (df : DataFrame) : M loc := fun h => (Ok (length h), h ++ [df]).

(** [detect_column_types(df)]: returns [None], writes [df.attrs] in place.
    On the frames of this section, whose object series hold text only, no
    statement of the function raises: the one that can, [sorted] outside the
    [try], gets values of one type ([Raw.detect_column_types] and
    [text_frames_never_raise]). *)
Definition detect_column_types (df : loc) : M unit :=
  fun h => (Ok tt, <[df := detect_column_types_frame (h !!! df)]> h).

(** ** Filtering: [apply_filters] *)

(** Elementwise test of the cells of a series; a missing cell fails every
    comparison. *)
Definition cmp_cells {A} (test : A -> bool) (l : list (option A)) : list bool :=
  map (fun x => match x with None => false | Some a => test a end) l.

Inductive ord_op := Ge | Le.

(** [cell >= bound] or [cell <= bound] *)
Definition ord_test {A} (leb : A -> A -> bool) (op : ord_op) (bound cell : A) : bool :=
  match op with
  | Ge => leb bound cell
  | Le => leb cell bound
  end.

Definition all_missing {A} (l : list (option A)) : bool :=
  forallb (fun x => match x with None => true | Some _ => false end) l.

(** [series >= value] and [series <= value].  A numeric or datetime series
    refuses a value of another kind by its dtype; an object series compares
    cell by cell and raises at the first [str] met.  A datetime series parses
    a string value first. *)
Definition series_ord (op : ord_op) (c : column) (value : scalar) : outcome (list bool) :=
  match c, value with
  | NumCol l, SNum q => Ok (cmp_cells (ord_test Qle_bool op q) l)
  | NumCol _, _ => Raise TypeError
  | ObjCol l, SStr s => Ok (cmp_cells (ord_test String.leb op s) l)
  | ObjCol l, _ => if all_missing l then Ok (map (fun _ => false) l) else Raise TypeError
  | TimeCol l, STime t => Ok (cmp_cells (ord_test Z.leb op t) l)
  | TimeCol l, SStr s =>
      match parse_datetime s with
      | Some t => Ok (cmp_cells (ord_test Z.leb op t) l)
      | None => Raise TypeError
      end
  | TimeCol _, SNum _ => Raise TypeError
  end.

(** [series == value]: never raises; values of another kind are unequal. *)
Definition series_eq (c : column) (value : scalar) : list bool :=
  match c, value with
  | NumCol l, SNum q => cmp_cells (Qeq_bool q) l
  | ObjCol l, SStr s => cmp_cells (String.eqb s) l
  | TimeCol l, STime t => cmp_cells (Z.eqb t) l
  | TimeCol l, SStr s =>
      match parse_datetime s with
      | Some t => cmp_cells (Z.eqb t) l
      | None => map (fun _ => false) l
      end
  | _, _ => map (fun _ => false) (cells_of c)
  end.

(** The rows of [l] at which the mask holds. *)
Fixpoint mask_rows {A} (mask : list bool) (l : list A) : list A :=
  match mask, l with
  | b :: mask', x :: l' => if b then x :: mask_rows mask' l' else mask_rows mask' l'
  | _, _ => []
  end.

Definition mask_col (mask : list bool) (c : column) : column :=
  match c with
  | NumCol l => NumCol (mask_rows mask l)
  | ObjCol l => ObjCol (mask_rows mask l)
  | TimeCol l => TimeCol (mask_rows mask l)
  end.

(** [df[mask]]: the frame made of the selected rows. *)
Definition select_rows (mask : list bool) (df : DataFrame) : DataFrame :=
  {| index := mask_rows mask (index df);
     series := map (fun entry => (fst entry, mask_col mask (snd entry))) (series df);
     attrs := attrs df |}.

(** [df[col]] *)
Definition getitem (df : DataFrame) (col : string) : outcome column :=
  match find_col (series df) col with
  | Some c => Ok c
  | None => Raise (KeyError col)
  end.

(** [filtered_data = filtered_data[filtered_data[col] >= value]] (or [<=]) *)
Definition filter_ord (op : ord_op) (filtered_data : loc) (col : string) (value : scalar) : M loc :=
  df ← deref filtered_data;
  c ← lift (getitem df col);
  mask ← lift (series_ord op c value);
  new (select_rows mask df).

(** [filtered_data = filtered_data[filtered_data[key] == value]] *)
Definition filter_eq (filtered_data : loc) (key : string) (value : scalar) : M loc :=
  df ← deref filtered_data;
  c ← lift (getitem df key);
  new (select_rows (series_eq c value) df).

(** The body of [for key, value in filters.items()]. *)
Definition filter_step (filtered_data : loc) (item : string * scalar) : M loc :=
  let '(key, value) := item in
  if endswith key "_min" then filter_ord Ge filtered_data (drop_last 4 key) value
  else if endswith key "_max" then filter_ord Le filtered_data (drop_last 4 key) value
  else if endswith key "_start" then filter_ord Ge filtered_data (drop_last 6 key) value
  else if endswith key "_end" then filter_ord Le filtered_data (drop_last 4 key) value
  else filter_eq filtered_data key value.

Fixpoint filter_loop (items : list (string * scalar)) (filtered_data : loc) : M loc :=
  match items with
  | [] => ret filtered_data
  | item :: rest =>
      filtered_data' ← filter_step filtered_data item;
      filter_loop rest filtered_data'
  end.

(** [apply_filters(data, filters)].  [data] is a reference or [None];
    [filters] is the dictionary in insertion order. *)
Definition apply_filters (data : option loc) (filters : list (string * scalar)) : M (option loc) :=
  match filters, data with
  | [], _ => ret data
  | _, None => ret data
  | _, Some l =>
      df ← deref l;
      if empty df then ret data
      else
        filtered_data ← new df;
        result ← filter_loop filters filtered_data;
        ret (Some result)
  end.

(** ** Filter synthesis: [generate_dynamic_filters] *)

(** What reaches Streamlit.  The three widgets are the filter
    specifications: a select box is an enum-choice filter, a date input and
    a slider are range filters.  The text of a caught exception, which
    [st.error] appends to its message, is not modelled. *)
Inductive event :=
| Selectbox (label : string) (options : list scalar) (key : string)
| DateInput (label : string) (value : Z * Z) (min_value max_value : Z) (key : string)
| Slider (label : string) (min_value max_value : option Q)
         (value : option Q * option Q) (step : option Q) (key : string)
| StWrite (text : string)
| StError (text : string).

(** The user's answers: what each widget call returns.  [st.date_input]
    returns a tuple of up to two dates (day numbers). *)
Record Streamlit := {
  selectbox : string -> list scalar -> string -> scalar;
  date_input : string -> Z * Z -> Z -> Z -> string -> list Z;
  slider : string -> option Q -> option Q -> option Q * option Q -> option Q ->
           string -> Q * Q
}.

Variable st : Streamlit.

(** The local variables of [generate_dynamic_filters], and the calls made
    so far. *)
Record gen_state := {
  filters : list (string * scalar);
  filter_count : Z;
  trace : list event
}.

(** [d[key] = value] on a dictionary in insertion order. *)
Fixpoint dict_set (d : list (string * scalar)) (key : string) (value : scalar)
  : list (string * scalar) :=
  match d with
  | [] => [(key, value)]
  | (k, v) :: t =>
      if String.eqb k key then (k, value) :: t else (k, v) :: dict_set t key value
  end.

(** [columns is not None and col not in columns] *)
Definition excluded (columns : option (list string)) (col : string) : bool :=
  match columns with
  | Some l => negb (existsb (String.eqb col) l)
  | None => false
  end.

(** The non-missing cells. *)
Fixpoint present {A} (l : list (option A)) : list A :=
  match l with
  | [] => []
  | None :: t => present t
  | Some a :: t => a :: present t
  end.

(** [min] and [max] of a list; [None] on the empty list. *)
Definition min_of {A} (leb : A -> A -> bool) (l : list A) : option A :=
  match l with
  | [] => None
  | x :: t => Some (fold_left (fun best y => if leb best y then best else y) t x)
  end.

Definition max_of {A} (leb : A -> A -> bool) (l : list A) : option A :=
  match l with
  | [] => None
  | x :: t => Some (fold_left (fun best y => if leb y best then best else y) t x)
  end.

Definition ns_per_day : Z := 86400000000000.

(** [timestamp.date()], as a day number. *)
Definition date_of (t : Z) : Z := (t / ns_per_day)%Z.

(** [pd.to_datetime(date)]: midnight of that day. *)
Definition timestamp_of_date (d : Z) : Z := (d * ns_per_day)%Z.

(** [data[col].min().date()] and [data[col].max().date()] are [NaT]: a
    datetime column whose cells are all missing. *)
Definition min_max_nat (data : DataFrame) (col : string) : bool :=
  match find_col (series data) col with
  | Some (TimeCol l) => match present l with [] => true | _ :: _ => false end
  | _ => false
  end.

(** [data[col].min().date()] and [data[col].max().date()], when they are
    dates.  [None] when one of them raises (the column is absent, or its
    values have no [date] method: it is not a datetime column), and when
    they are [NaT] (all the cells are missing, see [min_max_nat]). *)
Definition min_max_date (data : DataFrame) (col : string) : option (Z * Z) :=
  match find_col (series data) col with
  | Some (TimeCol l) =>
      match min_of Z.leb (present l), max_of Z.leb (present l) with
      | Some lo, Some hi => Some (date_of lo, date_of hi)
      | _, _ => None
      end
  | _ => None
  end.

(** [float(data[col].min())] and [float(data[col].max())]; a float is
    [None] when it is [nan].  The outer [None] is an exception: the column
    is absent, or a datetime column, or an object column with a missing cell
    or a string that is not a number.  The numbers are exact: [float] of an
    integer too large for a double rounds it in the code, so that two such
    bounds can be equal there and differ here. *)
Definition min_max_float (data : DataFrame) (col : string)
  : option (option Q * option Q) :=
  match find_col (series data) col with
  | Some (NumCol l) => Some (min_of Qle_bool (present l), max_of Qle_bool (present l))
  | Some (ObjCol l) =>
      if forallb (fun x => match x with None => false | Some _ => true end) l then
        match min_of String.leb (present l), max_of String.leb (present l) with
        | Some lo, Some hi =>
            match parse_float lo, parse_float hi with
            | Some min_val, Some max_val => Some (min_val, max_val)
            | _, _ => None
            end
        | _, _ => None
        end
      else None
  | _ => None
  end.

(** Comparisons and subtraction of floats; every comparison with [nan] is
    false, except [!=]. *)
Definition float_ne (a b : option Q) : bool :=
  match a, b with
  | Some x, Some y => negb (Qeq_bool x y)
  | _, _ => true
  end.

Definition float_gt (a b : option Q) : bool :=
  match a, b with
  | Some x, Some y => negb (Qle_bool x y)
  | _, _ => false
  end.

Definition float_sub (a b : option Q) : option Q :=
  match a, b with
  | Some x, Some y => Some (x - y)%Q
  | _, _ => None
  end.

Definition float_div (a b : option Q) : option Q :=
  match a, b with
  | Some x, Some y => Some (x / y)%Q
  | _, _ => None
  end.

(** "Determine appropriate step size", on exact numbers.  The code computes
    the range and its hundredth on doubles, which round: next to a threshold
    the two can take different branches, and the quotient can differ in its
    last place.  What is proved of the step is its sign only. *)
Definition slider_step (range_size : option Q) : option Q :=
  if float_gt range_size (Some 1000%Q) then float_div range_size (Some 100%Q)
  else if float_gt range_size (Some 100%Q) then Some 1%Q
  else if float_gt range_size (Some 10%Q) then Some (1 # 10)%Q
  else Some (1 # 100)%Q.

(** [values]: the stored unique values, or recomputed from the data. *)
Definition values_for (data : DataFrame) (unique_values : gmap string (list scalar))
    (col : string) : outcome (list scalar) :=
  match unique_values !! col with
  | Some values => Ok values
  | None =>
      match getitem data col with
      | Ok c => Ok (sorted (unique_values_of c))
      | Raise e => Raise e
      end
  end.

(** The select box of one column and the update of [filters]. *)
Definition add_selectbox (col key : string) (values : list scalar)
    (count : Z) (s : gen_state) : gen_state :=
  let all_option := SStr ("All " +:+ col) in
  let options := all_option :: values in
  let label := "Filter by " +:+ col +:+ ":" in
  let selected := selectbox st label options key in
  {| filters := if scalar_eqb selected all_option then filters s
                else dict_set (filters s) col selected;
     filter_count := count;
     trace := trace s ++ [Selectbox label options key] |}.

(** "Create filters for categorical columns first".  The second component
    is the exception that ended the loop, if any. *)
Fixpoint categorical_loop (data : DataFrame) (unique_values : gmap string (list scalar))
    (columns : option (list string)) (max_filters : Z)
    (cols : list string) (s : gen_state) : gen_state * option exn :=
  match cols with
  | [] => (s, None)
  | col :: rest =>
      if excluded columns col then
        categorical_loop data unique_values columns max_filters rest s
      else if (max_filters <=? filter_count s)%Z then (s, None)
      else
        match values_for data unique_values col with
        | Raise e => (s, Some e)
        | Ok values =>
            if (length values <=? 100)%nat then
              categorical_loop data unique_values columns max_filters rest
                (add_selectbox col ("filter_" +:+ col +:+ "_" +:+ pretty (filter_count s))
                   values (filter_count s + 1) s)
            else categorical_loop data unique_values columns max_filters rest s
        end
  end.

Definition log_error (text : string) (s : gen_state) : gen_state :=
  {| filters := filters s; filter_count := filter_count s;
     trace := trace s ++ [StError text] |}.

Definition log_write (text : string) (s : gen_state) : gen_state :=
  {| filters := filters s; filter_count := filter_count s;
     trace := trace s ++ [StWrite text] |}.

(** "Then add date range filters".  On a datetime column whose cells are
    all missing the two dates are [NaT]; [NaT != NaT] holds, so [st.write] is
    reached, and [st.date_input] raises on [NaT]: no widget is shown. *)
Fixpoint date_loop (data : DataFrame) (columns : option (list string)) (max_filters : Z)
    (cols : list string) (s : gen_state) : gen_state :=
  match cols with
  | [] => s
  | col :: rest =>
      if excluded columns col then date_loop data columns max_filters rest s
      else if (max_filters <=? filter_count s)%Z then s
      else
        match min_max_date data col with
        | None =>
            date_loop data columns max_filters rest
              (log_error ("Error creating date filter for " +:+ col)
                 (if min_max_nat data col
                  then log_write ("Filter by " +:+ col +:+ " date range:") s
                  else s))
        | Some (min_date, max_date) =>
            if negb (min_date =? max_date)%Z then
              let label := "Select range for " +:+ col +:+ ":" in
              let key := "date_range_" +:+ col +:+ "_" +:+ pretty (filter_count s) in
              let date_range := date_input st label (min_date, max_date) min_date max_date key in
              date_loop data columns max_filters rest
                {| filters :=
                     match date_range with
                     | [start_date; end_date] =>
                         dict_set
                           (dict_set (filters s) (col +:+ "_start")
                              (STime (timestamp_of_date start_date)))
                           (col +:+ "_end") (STime (timestamp_of_date end_date))
                     | _ => filters s
                     end;
                   filter_count := filter_count s + 1;
                   trace := trace s ++
                     [StWrite ("Filter by " +:+ col +:+ " date range:");
                      DateInput label (min_date, max_date) min_date max_date key] |}
            else date_loop data columns max_filters rest s
        end
  end.

(** "Finally add numeric range sliders" *)
Fixpoint numeric_loop (data : DataFrame) (columns : option (list string)) (max_filters : Z)
    (cols : list string) (s : gen_state) : gen_state :=
  match cols with
  | [] => s
  | col :: rest =>
      if excluded columns col then numeric_loop data columns max_filters rest s
      else if (max_filters <=? filter_count s)%Z then s
      else
        match min_max_float data col with
        | None =>
            numeric_loop data columns max_filters rest
              (log_error ("Error creating numeric filter for " +:+ col) s)
        | Some (min_val, max_val) =>
            if float_ne min_val max_val then
              let range_size := float_sub max_val min_val in
              let step := slider_step range_size in
              let label := "Select range for " +:+ col +:+ ":" in
              let key := "range_" +:+ col +:+ "_" +:+ pretty (filter_count s) in
              let '(min_selected, max_selected) :=
                slider st label min_val max_val (min_val, max_val) step key in
              numeric_loop data columns max_filters rest
                {| filters :=
                     if float_gt (Some min_selected) min_val
                        || float_gt max_val (Some max_selected)
                     then dict_set
                            (dict_set (filters s) (col +:+ "_min") (SNum min_selected))
                            (col +:+ "_max") (SNum max_selected)
                     else filters s;
                   filter_count := filter_count s + 1;
                   trace := trace s ++
                     [StWrite ("Filter by " +:+ col +:+ " range:");
                      Slider label min_val max_val (min_val, max_val) step key] |}
            else numeric_loop data columns max_filters rest s
        end
  end.

(** [l[:n]] for a Python integer [n]: a negative [n] counts from the end. *)
Definition py_take {A} (n : Z) (l : list A) : list A :=
  if (n <? 0)%Z then take (length l - Z.to_nat (- n)) l
  else take (Z.to_nat n) l.

(** "Get columns of likely categorical type": the columns kept in
    [cat_cols], each with its series. *)
Definition likely_categorical (columns : option (list string))
    (entry : string * column) : bool :=
  negb (excluded columns (fst entry)) &&
  (match snd entry with ObjCol _ => true | _ => false end
   || (len_unique (snd entry) <? 10)%nat).

Definition cat_cols (data : DataFrame) (columns : option (list string))
  : list (string * column) :=
  List.filter (likely_categorical columns) (series data).

(** [for col in cat_cols[:max_filters]] *)
Fixpoint basic_loop (cols : list (string * column)) (s : gen_state) : gen_state :=
  match cols with
  | [] => s
  | (col, c) :: rest =>
      let values := sorted (unique_values_of c) in
      if (length values <=? 100)%nat then
        basic_loop rest
          (add_selectbox col ("basic_filter_" +:+ col) values (filter_count s) s)
      else basic_loop rest s
  end.

Definition gen_init : gen_state := {| filters := []; filter_count := 0; trace := [] |}.

(** [generate_dynamic_filters(data, columns, max_filters)]: the returned
    dictionary (or the exception raised), and the Streamlit calls made.  The
    function only reads [data]. *)
Definition generate_dynamic_filters (data : option DataFrame)
    (columns : option (list string)) (max_filters : Z)
  : outcome (list (string * scalar)) * list event :=
  match data with
  | None => (Ok [], [])
  | Some df =>
      if empty df then (Ok [], [])
      else
        match column_types (attrs df) with
        | Some types =>
            let stored := default ∅ (unique_values (attrs df)) in
            match categorical_loop df stored columns max_filters
                    (get_list types "categorical") gen_init with
            | (s1, Some e) => (Raise e, trace s1)
            | (s1, None) =>
                let s2 := date_loop df columns max_filters (get_list types "datetime") s1 in
                let s3 := numeric_loop df columns max_filters (get_list types "numeric") s2 in
                (Ok (filters s3), trace s3)
            end
        | None =>
            let s1 := basic_loop (py_take max_filters (cat_cols df columns)) gen_init in
            (Ok (filters s1), trace s1)
        end
  end.

(** The filter specifications among the Streamlit calls. *)
Definition is_spec (e : event) : bool :=
  match e with
  | Selectbox _ _ _ | DateInput _ _ _ _ _ | Slider _ _ _ _ _ _ => true
  | StWrite _ | StError _ => false
  end.

Definition specs (tr : list event) : list event := List.filter is_spec tr.

End Pipeline.

(** ** The classifier on frames as read *)

(** [detect_column_types] runs on the result of [pd.read_csv] or
    [pd.read_excel], where one object series can hold text next to numbers
    or timestamps.  [Raw] embeds the function on such frames.  [pd.to_datetime]
    on a whole object series is a parameter: it returns or raises. *)
Module Raw.

Inductive column :=
| NumCol (cells : list (option Q))
| ObjCol (cells : list (option scalar))
| TimeCol (cells : list (option Z)).

Definition is_numeric_dtype (c : column) : bool :=
  match c with NumCol _ => true | _ => false end.

Definition cells_of (c : column) : list (option scalar) :=
  match c with
  | NumCol l => map (option_map SNum) l
  | ObjCol l => l
  | TimeCol l => map (option_map STime) l
  end.

Definition isna_all (c : column) : bool :=
  forallb (fun x => match x with None => true | Some _ => false end) (cells_of c).

Definition unique_values_of (c : column) : list scalar :=
  unique_from [] (dropna (cells_of c)).

Definition nunique (c : column) : nat := length (unique_values_of c).

(** Two Python values that [<] can compare: two numbers, two [str], two
    timestamps. *)
Definition same_type (a b : scalar) : bool :=
  match a, b with
  | SNum _, SNum _ | SStr _, SStr _ | STime _, STime _ => true
  | _, _ => false
  end.

(** [sorted(l)] on distinct values: a sort has to compare values of
    different types as soon as there are two, and that comparison raises
    [TypeError]. *)
Definition py_sorted (l : list scalar) : outcome (list scalar) :=
  match l with
  | [] => Ok []
  | v :: t => if forallb (same_type v) t then Ok (sorted l) else Raise TypeError
  end.

Record DataFrame := {
  index : list nat;
  series : list (string * column);
  attrs : Attrs
}.

#[global] Instance DataFrame_inhabited : Inhabited DataFrame :=
  populate {| index := []; series := []; attrs := no_attrs |}.

Definition columns_of (df : DataFrame) : list string := map fst (series df).

Section Classifier.

(** [pd.to_datetime(series)] returns on this object series. *)
Variable to_datetime_returns : list (option scalar) -> bool.

Definition to_datetime_ok (c : column) : bool :=
  match c with
  | NumCol _ => true
  | TimeCol _ => true
  | ObjCol l => to_datetime_returns l
  end.

(** The branch the loop body takes, as in the typed embedding. *)
Definition classify (col : string) (c : column) : option kind :=
  if isna_all c then None
  else if any_in id_terms (lower col) then Some Identifier
  else if is_numeric_dtype c then
    if any_in money_terms (lower col) then Some Monetary else Some Numeric
  else if any_in date_terms (lower col) && to_datetime_ok c then Some Date
  else if is_categorical (nunique c) (length (dropna (cells_of c))) then Some Categorical
  else Some Text.

(** One iteration of [for col in df.columns].  The only statement outside
    the [try] that can raise is [sorted(...)], in the categorical branch. *)
Definition detect_step (acc : detected) (entry : string * column) : outcome detected :=
  let '(col, c) := entry in
  match classify col c with
  | None => Ok acc
  | Some k =>
      match (match k with
             | Categorical =>
                 match py_sorted (unique_values_of c) with
                 | Ok values => Ok (<[col := values]> (uniq acc))
                 | Raise e => Raise e
                 end
             | _ => Ok (uniq acc)
             end) with
      | Ok unique_values =>
          Ok {| numeric_cols := append_if k Numeric col (numeric_cols acc);
                date_cols := append_if k Date col (date_cols acc);
                monetary_cols := append_if k Monetary col (monetary_cols acc);
                categorical_cols := append_if k Categorical col (categorical_cols acc);
                id_cols := append_if k Identifier col (id_cols acc);
                text_cols := append_if k Text col (text_cols acc);
                uniq := unique_values |}
      | Raise e => Raise e
      end
  end.

Fixpoint detect_loop (cols : list (string * column)) (acc : detected) : outcome detected :=
  match cols with
  | [] => Ok acc
  | entry :: rest =>
      match detect_step acc entry with
      | Ok acc' => detect_loop rest acc'
      | Raise e => Raise e
      end
  end.

(** The frame after the call, or the exception that left it as it was:
    [df.attrs] is written after the loop only. *)
Definition detect_column_types_frame (df : DataFrame) : outcome DataFrame :=
  match detect_loop (series df) detected_init with
  | Ok d =>
      Ok {| index := index df;
            series := series df;
            attrs := {| column_types := Some (column_types_dict d);
                        unique_values := Some (uniq d) |} |}
  | Raise e => Raise e
  end.

(** [detect_column_types(df)] on the store of frames as read. *)
Definition detect_column_types (df : loc) (h : list DataFrame)
  : outcome unit * list DataFrame :=
  match detect_column_types_frame (h !!! df) with
  | Ok df' => (Ok tt, <[df := df']> h)
  | Raise e => (Raise e, h)
  end.

(** The values of the column can be sorted, if the loop body sorts them. *)
Definition sortable_entry (entry : string * column) : bool :=
  match classify entry.1 entry.2 with
  | Some Categorical =>
      match py_sorted (unique_values_of entry.2) with Ok _ => true | Raise _ => false end
  | _ => true
  end.

Definition sortable (df : DataFrame) : bool := forallb sortable_entry (series df).

Definition has_kind (k : kind) (entry : string * column) : bool :=
  match classify entry.1 entry.2 with
  | Some k' => kind_eqb k' k
  | None => false
  end.

End Classifier.

(** Column [col] is listed under kind [k] in [df.attrs['column_types']]. *)
Definition listed (df : DataFrame) (k : kind) (col : string) : Prop :=
  exists types,
    column_types (attrs df) = Some types /\ In col (get_list types (kind_key k)).

End Raw.

(** A typed series as a series as read: text cells are [str] objects. *)
Definition as_read (c : column) : Raw.column :=
  match c with
  | NumCol l => Raw.NumCol l
  | ObjCol l => Raw.ObjCol (map (option_map SStr) l)
  | TimeCol l => Raw.TimeCol l
  end.

Definition frame_as_read (df : DataFrame) : Raw.DataFrame :=
  {| Raw.index := index df;
     Raw.series := map (fun entry => (entry.1, as_read entry.2)) (series df);
     Raw.attrs := attrs df |}.

(** ** Instances used in the examples *)

Definition digit_of (c : ascii) : option Z :=
  let n := nat_of_ascii c in
  if (48 <=? n)%nat && (n <=? 57)%nat then Some (Z.of_nat (n - 48)) else None.

Fixpoint digits_from (acc : Z) (s : string) : option Z :=
  match s with
  | EmptyString => Some acc
  | String c t =>
      match digit_of c with
      | Some d => digits_from (10 * acc + d)%Z t
      | None => None
      end
  end.

(** A non-empty string of decimal digits. *)
Definition number_of (s : string) : option Z :=
  match s with
  | EmptyString => None
  | _ => digits_from 0 s
  end.

(** Days since 1970-01-01 of a date of the proleptic Gregorian calendar. *)
Definition days_from_civil (y m d : Z) : Z :=
  let y' := if (m <=? 2)%Z then (y - 1)%Z else y in
  let era := (y' / 400)%Z in
  let yoe := (y' - era * 400)%Z in
  let doy := ((153 * (if (2 <? m)%Z then m - 3 else m + 9) + 2) / 5 + d - 1)%Z in
  let doe := (yoe * 365 + yoe / 4 - yoe / 100 + doy)%Z in
  (era * 146097 + doe - 719468)%Z.

(** A date parser that reads [YYYY-MM-DD] and refuses everything else:
    the stand-in for [pd.to_datetime] on strings in the examples. *)
Definition iso_datetime (s : string) : option Z :=
  if (String.length s =? 10)%nat
     && String.eqb (substring 4 1 s) "-" && String.eqb (substring 7 1 s) "-"
  then
    match number_of (substring 0 4 s), number_of (substring 5 2 s),
          number_of (substring 8 2 s) with
    | Some y, Some m, Some d =>
        if (1 <=? m)%Z && (m <=? 12)%Z && (1 <=? d)%Z && (d <=? 31)%Z
        then Some (days_from_civil y m d * ns_per_day)%Z
        else None
    | _, _, _ => None
    end
  else None.

(** The stand-in for [float] on strings: unsigned decimal integers. *)
Definition decimal_float (s : string) : option (option Q) :=
  option_map (fun z => Some (inject_Z z)) (number_of s).

(** The stand-in for [pd.to_datetime] on an object series: every [str]
    cell has to be a date [YYYY-MM-DD]; numbers and timestamps pass. *)
Definition iso_to_datetime (l : list (option scalar)) : bool :=
  forallb (fun x => match x with
                    | Some (SStr s) => bool_decide (is_Some (iso_datetime s))
                    | _ => true
                    end) l.

(** A user who leaves every widget at its default. *)
Definition st_default : Streamlit :=
  {| selectbox := fun _ options _ => hd (SStr "") options;
     date_input := fun _ value _ _ _ => [fst value; snd value];
     slider := fun _ _ _ value _ _ =>
       (default 0%Q (fst value), default 0%Q (snd value)) |}.

(** A user who picks the first proper value of every select box and
    narrows every range to its lower end. *)
Definition st_choosy : Streamlit :=
  {| selectbox := fun _ options _ => nth 1 options (SStr "");
     date_input := fun _ value _ _ _ => [fst value; fst value];
     slider := fun _ _ _ value _ _ =>
       (default 0%Q (fst value), default 0%Q (fst value)) |}.

Definition two_digits (n : nat) : string :=
  if (n <? 10)%nat then "0" +:+ pretty n else pretty n.

(** The end-to-end scenario of the specification: 200 rows, 20 suppliers,
    5 categories, amounts from 100 to 49850, dates in 2022 and 2023. *)
Definition scenario_suppliers : list (option string) :=
  map (fun i => Some ("Supplier " +:+ pretty (i mod 20)%nat)) (seq 0 200).

Definition scenario_categories : list (option string) :=
  map (fun i => Some (nth (i mod 5) ["A"; "B"; "C"; "D"; "E"] "")) (seq 0 200).

Definition scenario_amounts : list (option Q) :=
  map (fun i => Some (inject_Z (100 + 250 * Z.of_nat i))) (seq 0 200).

Definition scenario_dates : list (option string) :=
  map (fun i => Some (pretty (2022 + i mod 2)%nat +:+ "-" +:+
                      two_digits (i mod 12 + 1) +:+ "-" +:+
                      two_digits (i mod 28 + 1))) (seq 0 200).

Definition scenario : DataFrame :=
  {| index := seq 0 200;
     series := [("Supplier", ObjCol scenario_suppliers);
                ("Category", ObjCol scenario_categories);
                ("Amount", NumCol scenario_amounts);
                ("Date", ObjCol scenario_dates)];
     attrs := no_attrs |}.

(** The scenario run: classify in place, then synthesize with a budget of
    three, the user leaving every widget at its default. *)
Definition scenario_run : outcome (list (string * scalar)) * list event :=
  generate_dynamic_filters decimal_float st_default
    (Some ((detect_column_types iso_datetime 0 [scenario]).2 !!! 0)) None 3.

(** A frame whose only column has a date word and an identifier word in its
    name, and values that are no dates. *)
Definition date_code_frame : DataFrame :=
  {| index := [0; 1];
     series := [("Date Code", ObjCol [Some "n/a"; Some "Q1"])];
     attrs := no_attrs |}.

(** 200 non-missing cells over [n] distinct strings. *)
Definition cycle_column (n : nat) : column :=
  ObjCol (map (fun i => Some (pretty (i mod n)%nat)) (seq 0 200)).

Definition threshold_frame : DataFrame :=
  {| index := seq 0 200;
     series := [("Region", cycle_column 50); ("Remark", cycle_column 51)];
     attrs := no_attrs |}.

(** Spend records: a text column and two numeric ones. *)
Definition spend_frame : DataFrame :=
  {| index := [0; 1; 2; 3];
     series := [("Category", ObjCol [Some "A"; Some "B"; Some "A"; None]);
                ("Amount", NumCol [Some 150%Q; Some 500%Q; Some 90%Q; Some 100%Q]);
                ("Amount_min", NumCol [Some 100%Q; Some 100%Q; Some 100%Q; Some 7%Q])];
     attrs := no_attrs |}.

(** The same records with amounts read as text. *)
Definition text_amount_frame : DataFrame :=
  {| index := [0; 1; 2];
     series := [("Category", ObjCol [Some "A"; Some "B"; Some "A"]);
                ("Amount", ObjCol [Some "150"; Some "500"; Some "90"])];
     attrs := no_attrs |}.

(** A frame with a schema as [generate_dynamic_filters] reads it: two
    categorical columns, one datetime column, one numeric column. *)
Definition schema_frame : DataFrame :=
  {| index := [0; 1; 2];
     series := [("Region", ObjCol [Some "North"; Some "South"; Some "North"]);
                ("Status", ObjCol [Some "open"; Some "closed"; None]);
                ("Signed", TimeCol [Some 0%Z; Some 172800000000000%Z; None]);
                ("Score", NumCol [Some 10%Q; Some 2500%Q; Some 40%Q])];
     attrs := {| column_types :=
                   Some (<["categorical" := ["Region"; "Status"]]>
                         (<["datetime" := ["Signed"]]>
                          (<["numeric" := ["Score"]]> ∅)));
                 unique_values := Some ∅ |} |}.

(** A frame whose schema lists a column of 101 distinct values as
    categorical, before a small one. *)
Definition invoice_frame : DataFrame :=
  {| index := seq 0 101;
     series := [("Invoice", ObjCol (map (fun i => Some (pretty i)) (seq 0 101)));
                ("Status", ObjCol (map (fun i => Some (nth (i mod 2) ["open"; "closed"] ""))
                                       (seq 0 101)))];
     attrs := {| column_types := Some (<["categorical" := ["Invoice"; "Status"]]> ∅);
                 unique_values := None |} |}.

(** Frames as read: a date-named column of text that is not all dates,
    and one with a date object next to text, as [pd.read_excel] leaves a
    date column with a remark in it. *)
Definition start_date_frame : Raw.DataFrame :=
  {| Raw.index := [0; 1];
     Raw.series := [("Start Date", Raw.ObjCol [Some (SStr "2022-01-01"); Some (SStr "soon")]);
                    ("Team", Raw.ObjCol [Some (SStr "a"); Some (SStr "b")])];
     Raw.attrs := no_attrs |}.

Definition delivery_frame : Raw.DataFrame :=
  {| Raw.index := [0; 1];
     Raw.series := [("Delivery Date",
                     Raw.ObjCol [Some (STime 1640995200000000000); Some (SStr "TBC")]);
                    ("Team", Raw.ObjCol [Some (SStr "a"); Some (SStr "b")])];
     Raw.attrs := no_attrs |}.

(** A frame whose schema lists a datetime column that holds no date. *)
Definition undated_frame : DataFrame :=
  {| index := [0; 1];
     series := [("Signed", TimeCol [None; None])];
     attrs := {| column_types := Some (<["datetime" := ["Signed"]]> ∅);
                 unique_values := None |} |}.

(** A frame with a column and no row. *)
Definition no_rows_frame : DataFrame :=
  {| index := []; series := [("Amount_min", NumCol [])]; attrs := no_attrs |}.

(** ** Specification-side definitions *)

(** The loop body files [entry] under kind [k]. *)
Definition has_kind (parse : string -> option Z) (k : kind) (entry : string * column) : bool :=
  match classify parse entry.1 entry.2 with
  | Some k' => kind_eqb k' k
  | None => false
  end.

(** After [detect_column_types(df)], column [col] is listed under kind [k]
    in [df.attrs['column_types']]. *)
Definition classified (parse : string -> option Z) (df : DataFrame) (k : kind)
    (col : string) : Prop :=
  exists types,
    column_types (attrs (detect_column_types_frame parse df)) = Some types /\
    In col (get_list types (kind_key k)).

(** The column a selection is about: its key without the suffix. *)
Definition target_column (key : string) : string :=
  if endswith key "_start" then drop_last 6 key
  else if endswith key "_min" || endswith key "_max" || endswith key "_end"
       then drop_last 4 key
  else key.

(** The comparison a selection asks for: [>=] for [_min] and [_start],
    [<=] for [_max] and [_end], and equality ([None]) for a plain key. *)
Definition selection_rel (key : string) : option ord_op :=
  if endswith key "_min" || endswith key "_start" then Some Ge
  else if endswith key "_max" || endswith key "_end" then Some Le
  else None.

(** The rows of [df] at which one selection holds, when its column exists
    and can be compared with its value. *)
Definition selection_mask (parse : string -> option Z) (df : DataFrame)
    (item : string * scalar) : outcome (list bool) :=
  match getitem df (target_column item.1) with
  | Raise e => Raise e
  | Ok c =>
      match selection_rel item.1 with
      | Some op => series_ord parse op c item.2
      | None => Ok (series_eq parse c item.2)
      end
  end.

(** The rows at which all of several conditions hold, out of [n] rows. *)
Definition all_hold (n : nat) (masks : list (list bool)) : list bool :=
  fold_left (zip_with andb) masks (replicate n true).

(** Row alignment: every series has one cell per row label. *)
Definition well_formed (df : DataFrame) : Prop :=
  Forall (fun entry => col_len entry.2 = length (index df)) (series df).

(** The label under which a column's select box, or its range widget, is
    shown: it names the column the filter is for. *)
Definition selectbox_label (col : string) : string := "Filter by " +:+ col +:+ ":".
Definition range_label (col : string) : string := "Select range for " +:+ col +:+ ":".

Inductive shape := EnumChoice | DateRange | NumberRange.

(** A filter specification as the specification describes it: its shape
    and the label of its widget; [None] for a call that is no widget. *)
Definition spec_view (e : event) : option (shape * string) :=
  match e with
  | Selectbox label _ _ => Some (EnumChoice, label)
  | DateInput label _ _ _ _ => Some (DateRange, label)
  | Slider label _ _ _ _ _ => Some (NumberRange, label)
  | StWrite _ | StError _ => None
  end.

(** The counter counts the widgets shown, and stays within the budget. *)
Definition within (max_filters : Z) (s : gen_state) : Prop :=
  filter_count s = Z.of_nat (length (specs (trace s))) /\
  (filter_count s <= max_filters)%Z.

(** The shapes and labels of the widgets among the Streamlit calls. *)
Definition views (tr : list event) : list (shape * string) := omap spec_view tr.

Definition enum_specs (cols : list string) : list (shape * string) :=
  map (fun col => (EnumChoice, selectbox_label col)) cols.
Definition date_specs (cols : list string) : list (shape * string) :=
  map (fun col => (DateRange, range_label col)) cols.
Definition number_specs (cols : list string) : list (shape * string) :=
  map (fun col => (NumberRange, range_label col)) cols.

(** The frame with another list under [column_types['categorical']]. *)
Definition set_categorical (cols : list string) (df : DataFrame) : DataFrame :=
  {| index := index df;
     series := series df;
     attrs := {| column_types :=
                   option_map (fun types => <["categorical" := cols]> types)
                     (column_types (attrs df));
                 unique_values := unique_values (attrs df) |} |}.

(** [series.dtype], up to the width of numbers. *)
Inductive dtype := Float64 | Object | Datetime64.

Definition dtype_of (c : column) : dtype :=
  match c with
  | NumCol _ => Float64
  | ObjCol _ => Object
  | TimeCol _ => Datetime64
  end.

(** [df.dtypes]: the column names with their dtypes. *)
Definition dtypes (df : DataFrame) : list (string * dtype) :=
  map (fun entry => (entry.1, dtype_of entry.2)) (series df).

(** No cell of the series is missing. *)
Definition all_present (c : column) : Prop :=
  Forall (fun x => x <> None) (cells_of c).

(** A selection is applicable to a frame when its column exists and the
    comparison does not raise. *)
Definition applicable (parse : string -> option Z) (df : DataFrame)
    (item : string * scalar) : Prop :=
  exists mask, selection_mask parse df item = Ok mask.

(** The rows at which an applicable selection holds. *)
Definition mask_of (parse : string -> option Z) (df : DataFrame)
    (item : string * scalar) : list bool :=
  match selection_mask parse df item with
  | Ok mask => mask
  | Raise _ => []
  end.

(** What every frame derived from [df] by selecting rows keeps. *)
Definition narrows (df df' : DataFrame) : Prop :=
  dtypes df' = dtypes df /\
  attrs df' = attrs df /\
  sublist (index df') (index df) /\
  (well_formed df -> well_formed df').

(** The four range suffixes, each with the comparison it stands for. *)
Definition range_suffixes : list (string * ord_op) :=
  [("_min", Ge); ("_max", Le); ("_start", Ge); ("_end", Le)].

(** Every row of the series passes the comparison with [value]. *)
Definition all_rows_pass (parse : string -> option Z) (op : ord_op) (value : scalar)
    (c : column) : Prop :=
  exists mask, series_ord parse op c value = Ok mask /\ Forall (fun b => b = true) mask.

(** The columns a loop may show a widget for. *)
Definition eligible (columns : option (list string)) (cols : list string) : list string :=
  List.filter (fun col => negb (excluded columns col)) cols.

(** The widget with this shape and label is the filter of one of the
    columns [l]. *)
Definition widget_of (l : list string) (v : shape * string) : Prop :=
  exists col, In col l /\ (v.2 = selectbox_label col \/ v.2 = range_label col).

(** A user who leaves every widget as it is shown: the "All" option of a
    select box, and each handle of a slider at its end of the range. *)
Definition leaves_defaults (st : Streamlit) : Prop :=
  (forall label all_option values key,
      selectbox st label (all_option :: values) key = all_option) /\
  (forall label min_value max_value step key,
      let answer := slider st label min_value max_value (min_value, max_value) step key in
      (forall lo, min_value = Some lo -> answer.1 = lo) /\
      (forall hi, max_value = Some hi -> answer.2 = hi)).

(** A slider call is sound: it starts at the full range, its bounds
    differ, and its step is a number above zero. *)
Definition slider_ok (e : event) : Prop :=
  match e with
  | Slider _ min_value max_value value step _ =>
      value = (min_value, max_value) /\
      float_ne min_value max_value = true /\
      exists q, step = Some q /\ (0 < q)%Q
  | _ => True
  end.

(** A date input call is sound: it starts at the full range, from a first
    day that is before the last. *)
Definition date_input_ok (e : event) : Prop :=
  match e with
  | DateInput _ value min_value max_value _ =>
      value = (min_value, max_value) /\ (min_value < max_value)%Z
  | _ => True
  end.

(** ** The helpers on small inputs *)

Example lower_mixed_case : lower "UnitCost" = "unitcost".
Proof. reflexivity. Qed.

Example substring_match_is_fuzzy : any_in money_terms (lower "Costume") = true.
Proof. reflexivity. Qed.

Example holiday_is_an_identifier : any_in id_terms (lower "Holiday") = true.
Proof. reflexivity. Qed.

Example endswith_suffix :
  endswith "Amount_min" "_min" = true /\ endswith "min" "_min" = false /\
  drop_last 4 "Amount_min" = "Amount" /\ drop_last 6 "Date_start" = "Date".
Proof. by repeat split. Qed.

Example sorted_unique :
  sorted (unique_values_of (ObjCol [Some "b"; None; Some "a"; Some "b"])) =
  [SStr "a"; SStr "b"].
Proof. reflexivity. Qed.

Example negative_slice : py_take (-1) [1; 2; 3] = [1; 2] /\ py_take 5 [1; 2; 3] = [1; 2; 3].
Proof. by split. Qed.

Example undated_column_writes_then_fails :
  generate_dynamic_filters decimal_float st_default (Some undated_frame) None 3
  = (Ok [], [StWrite "Filter by Signed date range:";
             StError "Error creating date filter for Signed"]).
Proof. reflexivity. Qed.

Example iso_datetime_epoch :
  iso_datetime "1970-01-02" = Some ns_per_day /\ iso_datetime "n/a" = None.
Proof. by split. Qed.

Example scenario_classification :
  map (fun k => (kind_key k, cols_of_kind k (detect_loop iso_datetime scenario)))
    [Identifier; Numeric; Monetary; Date; Categorical; Text] =
  [("id", []); ("numeric", []); ("monetary", ["Amount"]); ("date", ["Date"]);
   ("categorical", ["Supplier"; "Category"]); ("text", [])].
Proof. vm_compute. reflexivity. Qed.

(** ** Properties of the classifier *)

Section Classifier.

Context (parse_datetime : string -> option Z).

Lemma kind_eqb_eq (a b : kind) : kind_eqb a b = true <-> a = b.
Proof. destruct a, b; simpl; split; congruence. Qed.

Lemma cols_of_kind_step (k : kind) (acc : detected) (entry : string * column) :
  cols_of_kind k (detect_step parse_datetime acc entry) =
  cols_of_kind k acc ++ (if has_kind parse_datetime k entry then [entry.1] else []).
Proof.
  destruct entry as [col c]. unfold detect_step, has_kind. simpl.
  destruct (classify parse_datetime col c) as [k'|]; [|by rewrite app_nil_r].
  destruct k, k'; simpl; by rewrite ?app_nil_r.
Qed.

Lemma cols_of_kind_fold (k : kind) (l : list (string * column)) (acc : detected) :
  cols_of_kind k (fold_left (detect_step parse_datetime) l acc) =
  cols_of_kind k acc ++ map fst (List.filter (has_kind parse_datetime k) l).
Proof.
  revert acc. induction l as [|entry l IH]; intros acc; simpl.
  - by rewrite app_nil_r.
  - rewrite IH, cols_of_kind_step.
    destruct (has_kind parse_datetime k entry); simpl.
    + by rewrite <- app_assoc.
    + by rewrite app_nil_r.
Qed.

(** Each list holds, in column order, the names of the columns the loop
    body files under its kind. *)
Lemma cols_of_kind_detect (k : kind) (df : DataFrame) :
  cols_of_kind k (detect_loop parse_datetime df) =
  map fst (List.filter (has_kind parse_datetime k) (series df)).
Proof.
  unfold detect_loop. rewrite cols_of_kind_fold. by destruct k.
Qed.

Lemma column_types_dict_lookup (k : kind) (d : detected) :
  get_list (column_types_dict d) (kind_key k) = cols_of_kind k d.
Proof. destruct k; reflexivity. Qed.

Lemma classified_iff (df : DataFrame) (k : kind) (col : string) :
  classified parse_datetime df k col <->
  exists c, In (col, c) (series df) /\ classify parse_datetime col c = Some k.
Proof.
  unfold classified. simpl. split.
  - intros (types & [= <-] & Hin).
    rewrite column_types_dict_lookup, cols_of_kind_detect in Hin.
    apply in_map_iff in Hin as ([col' c] & Heq & Hin). simpl in Heq. subst col'.
    apply filter_In in Hin as [Hin Hk]. exists c. split; [done|].
    unfold has_kind in Hk. simpl in Hk.
    destruct (classify parse_datetime col c) as [k'|]; [|done].
    by apply kind_eqb_eq in Hk as ->.
  - intros (c & Hin & Hk). eexists. split; [done|].
    rewrite column_types_dict_lookup, cols_of_kind_detect.
    apply in_map_iff. exists (col, c). split; [done|].
    apply filter_In. split; [done|]. unfold has_kind. simpl. rewrite Hk.
    by apply kind_eqb_eq.
Qed.

(** In a frame with distinct column names, a name stands for one series. *)
Lemma series_functional (l : list (string * column)) (col : string) (c c' : column) :
  NoDup (map fst l) -> In (col, c) l -> In (col, c') l -> c = c'.
Proof.
  induction l as [|[n x] l IH]; simpl; [done|].
  intros Hnd [Hc|Hc] [Hc'|Hc'].
  - congruence.
  - inversion Hc; subst. apply NoDup_cons in Hnd as [Hnotin _].
    exfalso. apply Hnotin. apply list_elem_of_In, in_map_iff. by exists (col, c').
  - inversion Hc'; subst. apply NoDup_cons in Hnd as [Hnotin _].
    exfalso. apply Hnotin. apply list_elem_of_In, in_map_iff. by exists (col, c).
  - apply NoDup_cons in Hnd as [_ Hnd]. by apply IH.
Qed.

(** With distinct names, the kind of a column of the frame is the one its
    own loop iteration gives it. *)
Lemma classified_unique (df : DataFrame) (k : kind) (col : string) (c : column) :
  NoDup (columns_of df) -> In (col, c) (series df) ->
  classified parse_datetime df k col <-> classify parse_datetime col c = Some k.
Proof.
  intros Hnd Hin. rewrite classified_iff. split.
  - intros (c' & Hin' & Hk). by rewrite (series_functional _ _ _ _ Hnd Hin Hin').
  - intros Hk. by exists c.
Qed.

Lemma isna_all_dropna (c : column) :
  isna_all c = true -> dropna (cells_of c) = [].
Proof.
  unfold isna_all. induction (cells_of c) as [|[v|] l IH]; simpl; [done|done|].
  intros H. by apply IH.
Qed.

(** A series on which [pd.to_datetime] raises is an object series with a
    cell that is present. *)
Lemma to_datetime_fails (c : column) :
  to_datetime_ok parse_datetime c = false ->
  is_numeric_dtype c = false /\ isna_all c = false.
Proof.
  destruct c as [l|l|l]; simpl; [done| |done].
  intros H. split; [done|]. unfold isna_all. simpl.
  induction l as [|[s|] l IH]; simpl in *; [done|done|].
  by apply IH.
Qed.

Lemma classify_some (col : string) (c : column) :
  isna_all c = false -> exists k, classify parse_datetime col c = Some k.
Proof.
  intros H. unfold classify. rewrite H.
  repeat case_match; eauto.
Qed.

(** C7: a column that is not numeric and whose name holds no identifier or
    date word, with 200 non-missing cells, is classified Categorical (and
    nothing else) when it has exactly 50 distinct values, and Text (and
    nothing else) when it has 51. *)
Theorem categorical_threshold :
  (forall (df : DataFrame) (col : string) (c : column),
      NoDup (columns_of df) -> In (col, c) (series df) ->
      is_numeric_dtype c = false ->
      any_in id_terms (lower col) = false ->
      any_in date_terms (lower col) = false ->
      length (dropna (cells_of c)) = 200 ->
      nunique c = 50 ->
      forall k, classified parse_datetime df k col <-> k = Categorical) /\
  (forall (df : DataFrame) (col : string) (c : column),
      NoDup (columns_of df) -> In (col, c) (series df) ->
      is_numeric_dtype c = false ->
      any_in id_terms (lower col) = false ->
      any_in date_terms (lower col) = false ->
      length (dropna (cells_of c)) = 200 ->
      nunique c = 51 ->
      forall k, classified parse_datetime df k col <-> k = Text).
Proof.
  split; intros df col c Hnd Hin Hnum Hid Hdate Htotal Huniq k;
    rewrite (classified_unique df k col c Hnd Hin);
    unfold classify;
    (destruct (isna_all c) eqn:Hna;
     [apply isna_all_dropna in Hna; rewrite Hna in Htotal; discriminate|]);
    rewrite Hid, Hnum, Hdate, Huniq, Htotal; simpl;
    split; congruence.
Qed.

End Classifier.

Lemma categorical_threshold_witness :
  classified iso_datetime threshold_frame Categorical "Region" /\
  classified iso_datetime threshold_frame Text "Remark".
Proof.
  assert (Hnd : NoDup (columns_of threshold_frame)).
  { apply NoDup_ListNoDup. repeat constructor; simpl; intuition discriminate. }
  split.
  - apply (proj1 (categorical_threshold iso_datetime)
             threshold_frame "Region" (cycle_column 50)); try done.
    + simpl. by left.
  - apply (proj2 (categorical_threshold iso_datetime)
             threshold_frame "Remark" (cycle_column 51)); try done.
    + simpl. right. by left.
Defined.

(** C9, counterexample: the name "Date Code" holds a date word, its values
    are no dates, and the column is neither Categorical nor Text: the
    identifier rule, which comes first, takes it. *)
Lemma date_code_is_identifier :
  any_in date_terms (lower "Date Code") = true /\
  to_datetime_ok iso_datetime (ObjCol [Some "n/a"; Some "Q1"]) = false /\
  ~ (classified iso_datetime date_code_frame Categorical "Date Code" \/
     classified iso_datetime date_code_frame Text "Date Code").
Proof.
  split; [done|]. split; [done|].
  assert (Hnd : NoDup (columns_of date_code_frame)).
  { apply NoDup_ListNoDup. repeat constructor; simpl; intuition discriminate. }
  assert (Hin : In ("Date Code", ObjCol [Some "n/a"; Some "Q1"]) (series date_code_frame)).
  { simpl. by left. }
  intros [H|H]; apply (classified_unique _ _ _ _ _ Hnd Hin) in H; discriminate H.
Qed.

(** *** Frames as read *)

Lemma py_sorted_raise (l : list scalar) (e : exn) :
  Raw.py_sorted l = Raise e -> e = TypeError.
Proof.
  destruct l as [|v t]; simpl; [done|]. by destruct (forallb _ t); intros [=].
Qed.

Section RawClassifier.

Context (to_datetime_returns : list (option scalar) -> bool).


Lemma raw_step_ok (acc : detected) (entry : string * Raw.column) :
  Raw.sortable_entry to_datetime_returns entry = true ->
  exists d, Raw.detect_step to_datetime_returns acc entry = Ok d /\
    forall k, cols_of_kind k d =
      cols_of_kind k acc ++ (if Raw.has_kind to_datetime_returns k entry then [entry.1] else []).
Proof.
  destruct entry as [col c]. unfold Raw.sortable_entry, Raw.detect_step, Raw.has_kind. simpl.
  destruct (Raw.classify to_datetime_returns col c) as [k|]; [|intros _; exists acc; split; [done|]; intros k; by rewrite app_nil_r].
  intros Hs.
  assert (Hu : exists u, (match k with
             | Categorical =>
                 match Raw.py_sorted (Raw.unique_values_of c) with
                 | Ok values => Ok (<[col := values]> (uniq acc))
                 | Raise e => Raise e
                 end
             | _ => Ok (uniq acc)
             end) = Ok u).
  { destruct k; eauto. destruct (Raw.py_sorted _); [eauto|done]. }
  destruct Hu as [u ->]. eexists. split; [done|].
  intros k'. destruct k, k'; simpl; unfold append_if; simpl; by rewrite ?app_nil_r.
Qed.

Lemma raw_step_raise (acc : detected) (entry : string * Raw.column) :
  Raw.sortable_entry to_datetime_returns entry = false ->
  Raw.detect_step to_datetime_returns acc entry = Raise TypeError.
Proof.
  destruct entry as [col c]. unfold Raw.sortable_entry, Raw.detect_step. simpl.
  destruct (Raw.classify to_datetime_returns col c) as [[]|]; try done.
  destruct (Raw.py_sorted _) as [|e] eqn:E; [done|].
  by rewrite (py_sorted_raise _ _ E).
Qed.

Lemma raw_loop_ok (cols : list (string * Raw.column)) (acc : detected) :
  forallb (Raw.sortable_entry to_datetime_returns) cols = true ->
  exists d, Raw.detect_loop to_datetime_returns cols acc = Ok d /\
    forall k, cols_of_kind k d =
      cols_of_kind k acc ++ map fst (List.filter (Raw.has_kind to_datetime_returns k) cols).
Proof.
  revert acc. induction cols as [|entry cols IH]; intros acc; simpl.
  - intros _. exists acc. split; [done|]. intros k. by rewrite app_nil_r.
  - intros [He Hcols]%andb_true_iff.
    destruct (raw_step_ok acc entry He) as (d1 & -> & H1).
    destruct (IH d1 Hcols) as (d & -> & Hd).
    exists d. split; [done|]. intros k. rewrite Hd, H1, <- app_assoc. f_equal.
    by destruct (Raw.has_kind to_datetime_returns k entry).
Qed.

Lemma raw_loop_raise (cols : list (string * Raw.column)) (acc : detected) :
  forallb (Raw.sortable_entry to_datetime_returns) cols = false ->
  Raw.detect_loop to_datetime_returns cols acc = Raise TypeError.
Proof.
  revert acc. induction cols as [|entry cols IH]; intros acc; simpl; [done|].
  destruct (Raw.sortable_entry to_datetime_returns entry) eqn:He; simpl.
  - intros Hcols. destruct (raw_step_ok acc entry He) as (d1 & -> & _). by apply IH.
  - intros _. by rewrite raw_step_raise.
Qed.

Lemma raw_series_functional (l : list (string * Raw.column)) (col : string)
    (c c' : Raw.column) :
  NoDup (map fst l) -> In (col, c) l -> In (col, c') l -> c = c'.
Proof.
  induction l as [|[n x] l IH]; simpl; [done|].
  intros Hnd [Hc|Hc] [Hc'|Hc'].
  - congruence.
  - inversion Hc; subst. apply NoDup_cons in Hnd as [Hnotin _].
    exfalso. apply Hnotin. apply list_elem_of_In, in_map_iff. by exists (col, c').
  - inversion Hc'; subst. apply NoDup_cons in Hnd as [Hnotin _].
    exfalso. apply Hnotin. apply list_elem_of_In, in_map_iff. by exists (col, c).
  - apply NoDup_cons in Hnd as [_ Hnd]. by apply IH.
Qed.

Lemma raw_listed_iff (df df' : Raw.DataFrame) (k : kind) (col : string) :
  Raw.sortable to_datetime_returns df = true ->
  Raw.detect_column_types_frame to_datetime_returns df = Ok df' ->
  Raw.listed df' k col <->
  exists c, In (col, c) (Raw.series df) /\ Raw.classify to_datetime_returns col c = Some k.
Proof.
  unfold Raw.sortable, Raw.detect_column_types_frame. intros Hs.
  destruct (raw_loop_ok (Raw.series df) detected_init Hs) as (d & -> & Hd).
  intros [= <-]. unfold Raw.listed. simpl.
  assert (Hin : In col (cols_of_kind k d) <->
                exists c, In (col, c) (Raw.series df) /\ Raw.classify to_datetime_returns col c = Some k).
  { rewrite Hd. replace (cols_of_kind k detected_init) with (@nil string) by (by destruct k).
    simpl. rewrite in_map_iff. split.
    - intros ([col' c] & Heq & [Hin Hk]%filter_In). simpl in Heq. subst col'.
      exists c. split; [done|]. unfold Raw.has_kind in Hk. simpl in Hk.
      destruct (Raw.classify to_datetime_returns col c) as [k'|]; [|done]. by apply kind_eqb_eq in Hk as ->.
    - intros (c & Hin & Hk). exists (col, c). split; [done|].
      apply filter_In. split; [done|]. unfold Raw.has_kind. simpl. rewrite Hk.
      by apply kind_eqb_eq. }
  rewrite <- Hin. split.
  - intros (types & [= <-] & H). by rewrite column_types_dict_lookup in H.
  - intros H. eexists. split; [done|]. by rewrite column_types_dict_lookup.
Qed.

(** C9, as amended: on a frame as read, a column that has some value, whose
    name holds a date word and on which [pd.to_datetime] raises, is never
    listed as a date: the failure is caught.  The column is listed as an
    identifier when its name also holds an identifier word, and otherwise
    as categorical or text by the distinct-value rule, and every column
    that is not all missing is listed, provided [sorted] can order the
    values of each column the categorical rule accepts.  Otherwise the
    [TypeError] of [sorted], which is outside the [try], escapes:
    [detect_column_types] raises and writes nothing. *)
Theorem date_parse_failure_falls_through (df : Raw.DataFrame) (col : string)
    (c : Raw.column) :
  NoDup (Raw.columns_of df) -> In (col, c) (Raw.series df) ->
  any_in date_terms (lower col) = true ->
  Raw.isna_all c = false ->
  Raw.to_datetime_ok to_datetime_returns c = false ->
  (Raw.sortable to_datetime_returns df = true ->
   exists df',
     Raw.detect_column_types_frame to_datetime_returns df = Ok df' /\
     (forall l h, h !!! l = df ->
        Raw.detect_column_types to_datetime_returns l h = (Ok tt, <[l := df']> h)) /\
     ~ Raw.listed df' Date col /\
     Raw.listed df'
       (if any_in id_terms (lower col) then Identifier
        else if is_categorical (Raw.nunique c) (length (dropna (Raw.cells_of c)))
             then Categorical else Text) col /\
     (forall col' c', In (col', c') (Raw.series df) -> Raw.isna_all c' = false ->
        exists k, Raw.listed df' k col')) /\
  (Raw.sortable to_datetime_returns df = false ->
   Raw.detect_column_types_frame to_datetime_returns df = Raise TypeError /\
   forall l h, h !!! l = df ->
     Raw.detect_column_types to_datetime_returns l h = (Raise TypeError, h)).
Proof.
  intros Hnd Hin Hname Hna Hfail.
  assert (Hnum : Raw.is_numeric_dtype c = false) by (by destruct c).
  assert (Hk : Raw.classify to_datetime_returns col c =
               Some (if any_in id_terms (lower col) then Identifier
                     else if is_categorical (Raw.nunique c) (length (dropna (Raw.cells_of c)))
                          then Categorical else Text)).
  { unfold Raw.classify. rewrite Hna, Hnum, Hname, Hfail. simpl.
    by repeat case_match. }
  split.
  - intros Hs.
    destruct (Raw.detect_column_types_frame to_datetime_returns df) as [df'|e] eqn:Hrun.
    2: { unfold Raw.detect_column_types_frame, Raw.sortable in *.
         destruct (raw_loop_ok (Raw.series df) detected_init Hs) as (d & Hd & _).
         by rewrite Hd in Hrun. }
    exists df'. split; [done|]. split; [|split; [|split]].
    + intros l h <-. unfold Raw.detect_column_types. by rewrite Hrun.
    + rewrite (raw_listed_iff df df' Date col Hs Hrun).
      intros (c' & Hin' & Hk').
      rewrite (raw_series_functional _ _ _ _ Hnd Hin' Hin), Hk in Hk'.
      by repeat case_match.
    + apply (raw_listed_iff df df' _ col Hs Hrun). by exists c.
    + intros col' c' Hin' Hna'.
      assert (exists k, Raw.classify to_datetime_returns col' c' = Some k) as [k Hk'].
      { unfold Raw.classify. rewrite Hna'. repeat case_match; eauto. }
      exists k. apply (raw_listed_iff df df' k col' Hs Hrun). by exists c'.
  - intros Hs.
    assert (Hrun : Raw.detect_column_types_frame to_datetime_returns df = Raise TypeError).
    { unfold Raw.detect_column_types_frame, Raw.sortable in *.
      by rewrite raw_loop_raise. }
    split; [done|]. intros l h <-. unfold Raw.detect_column_types. by rewrite Hrun.
Qed.

End RawClassifier.

Lemma date_parse_failure_witness :
  exists df',
    Raw.detect_column_types_frame iso_to_datetime start_date_frame = Ok df' /\
    ~ Raw.listed df' Date "Start Date" /\
    Raw.listed df' Categorical "Start Date".
Proof.
  destruct (proj1 (date_parse_failure_falls_through iso_to_datetime start_date_frame
                     "Start Date"
                     (Raw.ObjCol [Some (SStr "2022-01-01"); Some (SStr "soon")])
                     ltac:(apply NoDup_ListNoDup; repeat constructor; simpl;
                           intuition discriminate)
                     ltac:(simpl; by left) eq_refl eq_refl eq_refl) eq_refl)
    as (df' & Hrun & _ & Hdate & Hcat & _).
  exists df'. split; [exact Hrun|]. split; [exact Hdate | exact Hcat].
Defined.

(** A date object next to a remark in a column named "Delivery Date":
    [pd.to_datetime] raises on the remark and is caught, the two values make
    the column categorical, and [sorted] raises on them. *)
Example mixed_date_column_raises :
  any_in date_terms (lower "Delivery Date") = true /\
  Raw.to_datetime_ok iso_to_datetime
    (Raw.ObjCol [Some (STime 1640995200000000000); Some (SStr "TBC")]) = false /\
  Raw.detect_column_types iso_to_datetime 0 [delivery_frame]
  = (Raise TypeError, [delivery_frame]).
Proof. repeat split. Qed.

Lemma same_type_trans (r v w : scalar) :
  Raw.same_type r v = true -> Raw.same_type r w = true -> Raw.same_type v w = true.
Proof. by destruct r, v, w. Qed.

Lemma unique_from_Forall (P : scalar -> Prop) (seen l : list scalar) :
  Forall P l -> Forall P (unique_from seen l).
Proof.
  intros H. revert seen. induction H as [|v l Hv _ IH]; intros seen; simpl; [constructor|].
  destruct (mem_scalar v seen); [apply IH|]. constructor; [done|apply IH].
Qed.

Lemma dropna_Forall (P : scalar -> Prop) (l : list (option scalar)) :
  Forall (fun x => match x with Some v => P v | None => True end) l -> Forall P (dropna l).
Proof.
  induction 1 as [|[v|] l Hv _ IH]; simpl; [constructor| |done]. by constructor.
Qed.

Lemma py_sorted_one_type (r : scalar) (l : list scalar) :
  Forall (fun v => Raw.same_type r v = true) l -> Raw.py_sorted l = Ok (sorted l).
Proof.
  destruct l as [|v t]; [done|]. intros [Hv Ht]%Forall_cons.
  unfold Raw.py_sorted.
  assert (forallb (Raw.same_type v) t = true) as ->; [|done].
  apply forallb_forall. intros w Hw. rewrite Forall_forall in Ht.
  apply (same_type_trans r); [done|]. by apply Ht, list_elem_of_In.
Qed.

(** *** The typed embedding is the classifier on text *)

Section Refinement.

Context (parse_datetime : string -> option Z)
        (to_datetime_returns : list (option scalar) -> bool).

Hypothesis to_datetime_text :
  forall l, to_datetime_returns (map (option_map SStr) l)
            = to_datetime_ok parse_datetime (ObjCol l).

Lemma as_read_cells (c : column) : Raw.cells_of (as_read c) = cells_of c.
Proof. by destruct c. Qed.

Lemma as_read_classify (col : string) (c : column) :
  Raw.classify to_datetime_returns col (as_read c) = classify parse_datetime col c.
Proof.
  unfold Raw.classify, classify, Raw.isna_all, isna_all, Raw.nunique, nunique,
    Raw.unique_values_of, unique_values_of.
  rewrite as_read_cells.
  assert (Raw.is_numeric_dtype (as_read c) = is_numeric_dtype c) as -> by (by destruct c).
  assert (Raw.to_datetime_ok to_datetime_returns (as_read c)
          = to_datetime_ok parse_datetime c) as ->; [|done].
  destruct c as [l|l|l]; [done| |done]. apply to_datetime_text.
Qed.

Lemma as_read_sorted (c : column) :
  Raw.py_sorted (Raw.unique_values_of (as_read c)) = Ok (sorted (unique_values_of c)).
Proof.
  unfold Raw.unique_values_of, unique_values_of. rewrite as_read_cells.
  destruct c as [l|l|l]; simpl.
  - apply (py_sorted_one_type (SNum 0)), unique_from_Forall, dropna_Forall.
    apply Forall_forall. intros x [[y|] [<- _]]%list_elem_of_In%in_map_iff; done.
  - apply (py_sorted_one_type (SStr "")), unique_from_Forall, dropna_Forall.
    apply Forall_forall. intros x [[y|] [<- _]]%list_elem_of_In%in_map_iff; done.
  - apply (py_sorted_one_type (STime 0)), unique_from_Forall, dropna_Forall.
    apply Forall_forall. intros x [[y|] [<- _]]%list_elem_of_In%in_map_iff; done.
Qed.

Lemma as_read_step (acc : detected) (col : string) (c : column) :
  Raw.detect_step to_datetime_returns acc (col, as_read c)
  = Ok (detect_step parse_datetime acc (col, c)).
Proof.
  unfold Raw.detect_step, detect_step. rewrite as_read_classify.
  destruct (classify parse_datetime col c) as [k|]; [|done].
  destruct k; try done. by rewrite as_read_sorted.
Qed.

Lemma as_read_loop (cols : list (string * column)) (acc : detected) :
  Raw.detect_loop to_datetime_returns
    (map (fun entry => (entry.1, as_read entry.2)) cols) acc
  = Ok (fold_left (detect_step parse_datetime) cols acc).
Proof.
  revert acc. induction cols as [|[col c] cols IH]; intros acc; [done|].
  cbn [map Raw.detect_loop fold_left fst snd]. rewrite as_read_step. apply IH.
Qed.

(** On a frame whose object series hold text only, no statement of
    [detect_column_types] raises, and the schema is the one of the typed
    embedding. *)
Lemma text_frames_never_raise (df : DataFrame) :
  Raw.detect_column_types_frame to_datetime_returns (frame_as_read df)
  = Ok (frame_as_read (detect_column_types_frame parse_datetime df)).
Proof.
  unfold Raw.detect_column_types_frame, frame_as_read. simpl.
  by rewrite as_read_loop.
Qed.

End Refinement.

Lemma iso_to_datetime_text (l : list (option string)) :
  iso_to_datetime (map (option_map SStr) l) = to_datetime_ok iso_datetime (ObjCol l).
Proof.
  unfold iso_to_datetime. simpl. induction l as [|[x|] l IH]; simpl; [done| |done].
  by rewrite IH.
Qed.

(** ** Properties of the suffix convention *)

Lemma substring_empty (a b : nat) : substring a b "" = "".
Proof. by destruct a, b. Qed.

Lemma substring_of_prefix (s : string) (d a b : nat) :
  a + b <= d -> substring a b (substring 0 d s) = substring a b s.
Proof.
  revert d a b. induction s as [|x s IH]; intros d a b H.
  - by rewrite !substring_empty.
  - destruct d as [|d].
    + by replace a with 0 by lia; replace b with 0 by lia.
    + simpl. destruct a as [|a].
      * destruct b as [|b]; [done|]. simpl. f_equal. apply IH. lia.
      * simpl. apply IH. lia.
Qed.

Lemma substring_substring (s : string) (c d a b : nat) :
  a + b <= d -> substring a b (substring c d s) = substring (c + a) b s.
Proof.
  revert c d a b. induction s as [|x s IH]; intros c d a b H.
  - by rewrite !substring_empty.
  - destruct c as [|c].
    + by apply substring_of_prefix.
    + simpl. by apply IH.
Qed.

(** A string that ends with [suf] ends with every tail of [suf]. *)
Lemma endswith_tail (s suf : string) (k : nat) :
  endswith s suf = true -> k <= String.length suf ->
  substring (String.length s - k) k s = substring (String.length suf - k) k suf.
Proof.
  unfold endswith. intros H Hk.
  apply andb_true_iff in H as [Hlen Heq].
  apply Nat.leb_le in Hlen. apply String.eqb_eq in Heq.
  rewrite <- Heq at 2.
  rewrite substring_substring by lia. f_equal. lia.
Qed.

(** Whether a string that ends with [suf] also ends with a suffix [suf']
    that is not longer is decided on [suf] alone. *)
Lemma endswith_other (s suf suf' : string) :
  endswith s suf = true -> String.length suf' <= String.length suf ->
  endswith s suf' = endswith suf suf'.
Proof.
  intros H Hk. unfold endswith at 1.
  rewrite (endswith_tail s suf _ H Hk).
  unfold endswith. f_equal.
  unfold endswith in H. apply andb_true_iff in H as [Hlen _].
  apply Nat.leb_le in Hlen.
  destruct (Nat.leb_spec (String.length suf') (String.length s));
    destruct (Nat.leb_spec (String.length suf') (String.length suf)); try done; lia.
Qed.

Section Filtering.

Context (parse_datetime : string -> option Z).

(** *** Running the loop body *)

Lemma filter_ord_run (op : ord_op) (fd : loc) (col : string) (value : scalar) (h : store) :
  filter_ord parse_datetime op fd col value h =
  match getitem (h !!! fd) col with
  | Raise e => (Raise e, h)
  | Ok c =>
      match series_ord parse_datetime op c value with
      | Raise e => (Raise e, h)
      | Ok mask => (Ok (length h), h ++ [select_rows mask (h !!! fd)])
      end
  end.
Proof.
  unfold filter_ord, mbind, M_bind, bind, deref, lift, new. simpl.
  destruct (getitem (h !!! fd) col); [|done].
  by destruct (series_ord parse_datetime op a value).
Qed.

Lemma filter_eq_run (fd : loc) (key : string) (value : scalar) (h : store) :
  filter_eq parse_datetime fd key value h =
  match getitem (h !!! fd) key with
  | Raise e => (Raise e, h)
  | Ok c => (Ok (length h), h ++ [select_rows (series_eq parse_datetime c value) (h !!! fd)])
  end.
Proof.
  unfold filter_eq, mbind, M_bind, bind, deref, lift, new. simpl.
  by destruct (getitem (h !!! fd) key).
Qed.

Lemma filter_step_by_suffix (fd : loc) (key : string) (value : scalar) :
  filter_step parse_datetime fd (key, value) =
  match selection_rel key with
  | Some op => filter_ord parse_datetime op fd (target_column key) value
  | None => filter_eq parse_datetime fd key value
  end.
Proof.
  unfold filter_step, selection_rel, target_column.
  destruct (endswith key "_min") eqn:Hmin.
  { rewrite (endswith_other key "_min" "_max" Hmin) by (simpl; lia).
    destruct (endswith key "_start") eqn:Hstart; [|done].
    rewrite (endswith_other key "_start" "_min" Hstart) in Hmin by (simpl; lia).
    discriminate Hmin. }
  destruct (endswith key "_max") eqn:Hmax.
  { destruct (endswith key "_start") eqn:Hstart; [|done].
    rewrite (endswith_other key "_start" "_max" Hstart) in Hmax by (simpl; lia).
    discriminate Hmax. }
  destruct (endswith key "_start") eqn:Hstart; [done|].
  by destruct (endswith key "_end").
Qed.

(** One selection either adds one object, the selected rows of the
    current frame, or raises and leaves the store as it is. *)
Lemma filter_step_run (fd : loc) (item : string * scalar) (h : store) :
  filter_step parse_datetime fd item h =
  match selection_mask parse_datetime (h !!! fd) item with
  | Raise e => (Raise e, h)
  | Ok mask => (Ok (length h), h ++ [select_rows mask (h !!! fd)])
  end.
Proof.
  destruct item as [key value]. rewrite filter_step_by_suffix.
  unfold selection_mask. simpl.
  destruct (selection_rel key) as [op|] eqn:Hrel.
  - rewrite filter_ord_run. by destruct (getitem (h !!! fd) (target_column key)).
  - rewrite filter_eq_run.
    assert (target_column key = key) as ->; [|by destruct (getitem (h !!! fd) key)].
    unfold selection_rel in Hrel. unfold target_column.
    destruct (endswith key "_min"), (endswith key "_start"),
      (endswith key "_max"), (endswith key "_end"); simpl in *; congruence.
Qed.

(** *** The store only grows *)

Lemma filter_loop_store (items : list (string * scalar)) (fd : loc) (h : store) :
  exists k, (filter_loop parse_datetime items fd h).2 = h ++ k.
Proof.
  revert fd h. induction items as [|item items IH]; intros fd h.
  - exists []. simpl. by rewrite app_nil_r.
  - simpl. unfold mbind, M_bind, bind. rewrite filter_step_run.
    destruct (selection_mask parse_datetime (h !!! fd) item) as [mask|e].
    + destruct (IH (length h) (h ++ [select_rows mask (h !!! fd)])) as [k Hk].
      exists (select_rows mask (h !!! fd) :: k). rewrite Hk.
      by rewrite <- app_assoc.
    + exists []. simpl. by rewrite app_nil_r.
Qed.

Lemma filter_loop_result (items : list (string * scalar)) (fd r : loc) (h h' : store) :
  filter_loop parse_datetime items fd h = (Ok r, h') -> r = fd \/ length h <= r.
Proof.
  revert fd h. induction items as [|item items IH]; intros fd h.
  - simpl. intros [= -> _]. by left.
  - simpl. unfold mbind, M_bind, bind. rewrite filter_step_run.
    destruct (selection_mask parse_datetime (h !!! fd) item) as [mask|e]; [|done].
    intros H. apply IH in H as [->|H]; right; [done|].
    rewrite length_app in H. lia.
Qed.

(** [apply_filters] by cases. *)
Lemma apply_filters_run (data : option loc) (filters : list (string * scalar)) (h : store) :
  apply_filters parse_datetime data filters h =
  match filters, data with
  | [], _ | _, None => (Ok data, h)
  | _, Some l =>
      if empty (h !!! l) then (Ok data, h)
      else
        match filter_loop parse_datetime filters (length h) (h ++ [h !!! l]) with
        | (Ok r, h') => (Ok (Some r), h')
        | (Raise e, h') => (Raise e, h')
        end
  end.
Proof.
  unfold apply_filters. destruct filters as [|item filters]; [done|].
  destruct data as [l|]; [|done].
  unfold mbind, M_bind, bind, deref, new, ret. simpl.
  destruct (empty (h !!! l)); [done|].
  destruct (filter_step parse_datetime (length h) item (h ++ [h !!! l])) as [[fd|e] h1];
    [|done].
  by destruct (filter_loop parse_datetime filters fd h1) as [[r|e] h2].
Qed.

Lemma apply_filters_store (data : option loc) (filters : list (string * scalar)) (h : store) :
  exists k, (apply_filters parse_datetime data filters h).2 = h ++ k.
Proof.
  rewrite apply_filters_run.
  assert (Hid : exists k, h = h ++ k) by (exists []; by rewrite app_nil_r).
  destruct filters as [|item filters]; [done|].
  destruct data as [l|]; [|done].
  destruct (empty (h !!! l)); [done|].
  destruct (filter_loop_store (item :: filters) (length h) (h ++ [h !!! l])) as [k Hk].
  exists (h !!! l :: k).
  destruct (filter_loop parse_datetime (item :: filters) _ _) as [[r|e] h'];
    simpl in *; subst h'; by rewrite <- app_assoc.
Qed.

(** C5: [detect_column_types] keeps the row labels, the columns and their
    cells of every object of the store (it writes [attrs] only), and
    [apply_filters] leaves every object of the store exactly as it was,
    whether it returns or raises; when it does filter (some selection, a
    frame that is not empty) the frame it returns is a new object. *)
Theorem input_dataset_unchanged :
  (forall (l : loc) (h : store),
      length (detect_column_types parse_datetime l h).2 = length h /\
      forall l',
        index ((detect_column_types parse_datetime l h).2 !!! l') = index (h !!! l') /\
        series ((detect_column_types parse_datetime l h).2 !!! l') = series (h !!! l')) /\
  (forall (data : option loc) (filters : list (string * scalar)) (h : store),
      (forall l df, h !! l = Some df ->
         (apply_filters parse_datetime data filters h).2 !! l = Some df) /\
      (forall l r, data = Some l -> l < length h -> filters <> [] ->
         empty (h !!! l) = false ->
         (apply_filters parse_datetime data filters h).1 = Ok (Some r) ->
         length h <= r /\ r <> l)).
Proof.
  split.
  - intros l h. unfold detect_column_types. cbn [snd].
    split; [apply length_insert|].
    intros l'. destruct (decide (l < length h)) as [Hlt|Hge].
    + destruct (decide (l = l')) as [<-|Hne].
      * by rewrite list_lookup_total_insert_eq.
      * by rewrite list_lookup_total_insert_ne.
    + by rewrite list_insert_ge by lia.
  - intros data filters h. split.
    + intros l df Hl.
      destruct (apply_filters_store data filters h) as [k ->].
      by apply lookup_app_l_Some.
    + intros l r -> Hlt Hne Hempty. rewrite apply_filters_run.
      destruct filters as [|item filters]; [done|]. rewrite Hempty.
      destruct (filter_loop parse_datetime (item :: filters) _ _) as [[r'|e] h'] eqn:Hloop;
        [|done].
      simpl. intros [= <-].
      apply filter_loop_result in Hloop as [->|Hr]; [lia|].
      rewrite length_app in Hr. simpl in Hr. lia.
Qed.

(** *** Selecting rows keeps the columns *)

Lemma find_col_select_rows (mask : list bool) (df : DataFrame) (col : string) :
  find_col (series (select_rows mask df)) col =
  option_map (mask_col mask) (find_col (series df) col).
Proof.
  simpl. induction (series df) as [|[name c] l IH]; simpl; [done|].
  by destruct (String.eqb name col).
Qed.

Lemma series_ord_raise (op : ord_op) (c : column) (value : scalar) (e : exn) :
  series_ord parse_datetime op c value = Raise e -> e = TypeError.
Proof.
  destruct c as [l|l|l], value as [q|s|t]; simpl; try congruence.
  - destruct (all_missing l); congruence.
  - destruct (all_missing l); congruence.
  - destruct (parse_datetime s); congruence.
Qed.

(** What a selection can raise: [KeyError] for its column, when the frame
    lacks it, or [TypeError] from the comparison. *)
Lemma selection_mask_raise (df : DataFrame) (item : string * scalar) (e : exn) :
  selection_mask parse_datetime df item = Raise e ->
  e = TypeError \/
  (find_col (series df) (target_column item.1) = None /\
   e = KeyError (target_column item.1)).
Proof.
  unfold selection_mask, getitem.
  destruct (find_col (series df) (target_column item.1)) as [c|].
  - destruct (selection_rel item.1) as [op|]; [|done].
    intros H. left. by apply series_ord_raise in H.
  - intros [= <-]. by right.
Qed.

Lemma selection_mask_unknown (df : DataFrame) (item : string * scalar) :
  find_col (series df) (target_column item.1) = None ->
  selection_mask parse_datetime df item = Raise (KeyError (target_column item.1)).
Proof. unfold selection_mask, getitem. by intros ->. Qed.

Lemma filter_loop_unknown (items : list (string * scalar)) (fd : loc) (h : store) :
  (exists key value, In (key, value) items /\
     find_col (series (h !!! fd)) (target_column key) = None) ->
  exists e,
    (filter_loop parse_datetime items fd h).1 = Raise e /\
    (e = TypeError \/
     exists key value, In (key, value) items /\
       find_col (series (h !!! fd)) (target_column key) = None /\
       e = KeyError (target_column key)).
Proof.
  revert fd h. induction items as [|item items IH]; intros fd h (key & value & Hin & Hnone).
  { destruct Hin. }
  simpl. unfold mbind, M_bind, bind. rewrite filter_step_run.
  destruct (selection_mask parse_datetime (h !!! fd) item) as [mask|e] eqn:Hmask.
  - destruct Hin as [->|Hin].
    { rewrite (selection_mask_unknown _ (key, value) Hnone) in Hmask. discriminate Hmask. }
    destruct (IH (length h) (h ++ [select_rows mask (h !!! fd)])) as (e & He & Hwhy).
    { exists key, value. split; [done|].
      rewrite list_lookup_total_middle by done.
      by rewrite find_col_select_rows, Hnone. }
    exists e. split; [done|].
    destruct Hwhy as [->|(key' & value' & Hin' & Hnone' & ->)]; [by left|right].
    exists key', value'. split; [by right|]. split; [|done].
    rewrite list_lookup_total_middle in Hnone' by done.
    rewrite find_col_select_rows in Hnone'.
    by destruct (find_col (series (h !!! fd)) (target_column key')).
  - exists e. split; [done|].
    destruct (selection_mask_raise _ _ _ Hmask) as [->|[Hnone' ->]]; [by left|right].
    destruct item as [key' value']. exists key', value'. split; [by left|done].
Qed.

Lemma unknown_column_raises_nonempty (h : store) (l : loc)
    (filters : list (string * scalar)) (key : string) (value : scalar) :
  empty (h !!! l) = false ->
  In (key, value) filters ->
  find_col (series (h !!! l)) (target_column key) = None ->
  exists e,
    (apply_filters parse_datetime (Some l) filters h).1 = Raise e /\
    (e = TypeError \/
     exists key' value', In (key', value') filters /\
       find_col (series (h !!! l)) (target_column key') = None /\
       e = KeyError (target_column key')).
Proof.
  intros Hempty Hin Hnone. rewrite apply_filters_run, Hempty.
  destruct filters as [|item filters]; [destruct Hin|].
  destruct (filter_loop_unknown (item :: filters) (length h) (h ++ [h !!! l]))
    as (e & He & Hwhy).
  { exists key, value. split; [done|]. by rewrite list_lookup_total_middle. }
  exists e.
  destruct (filter_loop parse_datetime (item :: filters) _ _) as [[r|e'] h'];
    simpl in He; [done|]. injection He as ->. split; [done|].
  destruct Hwhy as [->|(key' & value' & Hin' & Hnone' & ->)]; [by left|right].
  exists key', value'. split; [done|]. split; [|done].
  by rewrite list_lookup_total_middle in Hnone'.
Qed.

(** C1, as amended: on a frame that is not empty, a selection whose column
    (its key without the suffix) the frame lacks is not skipped:
    [apply_filters] raises.  The exception is the [KeyError] of such a
    column, unless the comparison of an earlier selection raised
    [TypeError] first.  On an empty frame [apply_filters] returns its
    argument before it looks at any selection. *)
Theorem unknown_column_raises :
  (forall (h : store) (l : loc) (filters : list (string * scalar))
          (key : string) (value : scalar),
      empty (h !!! l) = false ->
      In (key, value) filters ->
      find_col (series (h !!! l)) (target_column key) = None ->
      exists e,
        (apply_filters parse_datetime (Some l) filters h).1 = Raise e /\
        (e = TypeError \/
         exists key' value', In (key', value') filters /\
           find_col (series (h !!! l)) (target_column key') = None /\
           e = KeyError (target_column key'))) /\
  (forall (h : store) (l : loc) (filters : list (string * scalar)),
      empty (h !!! l) = true ->
      apply_filters parse_datetime (Some l) filters h = (Ok (Some l), h)).
Proof.
  split; [apply unknown_column_raises_nonempty|].
  intros h l filters Hempty. rewrite apply_filters_run, Hempty.
  by destruct filters.
Qed.

End Filtering.

(** *** Successive selections are one selection by the conjunction *)

Lemma mask_rows_map {A B} (f : A -> B) (mask : list bool) (l : list A) :
  map f (mask_rows mask l) = mask_rows mask (map f l).
Proof.
  revert l. induction mask as [|b mask IH]; intros [|x l]; simpl; try done.
  destruct b; simpl; by rewrite IH.
Qed.

Lemma cmp_cells_mask {A} (test : A -> bool) (mask : list bool) (l : list (option A)) :
  cmp_cells test (mask_rows mask l) = mask_rows mask (cmp_cells test l).
Proof. apply mask_rows_map. Qed.

Lemma mask_rows_nil {A} (mask : list bool) : mask_rows mask (@nil A) = [].
Proof. by destruct mask. Qed.

Lemma mask_rows_twice {A} (m1 m2 : list bool) (l : list A) :
  mask_rows (mask_rows m1 m2) (mask_rows m1 l) = mask_rows (zip_with andb m1 m2) l.
Proof.
  revert m2 l. induction m1 as [|b m1 IH]; intros [|b2 m2] [|x l]; simpl; try done.
  - by rewrite mask_rows_nil.
  - destruct b; simpl; by rewrite IH.
Qed.

Lemma mask_rows_all {A} (n : nat) (l : list A) :
  length l <= n -> mask_rows (replicate n true) l = l.
Proof.
  revert l. induction n as [|n IH]; intros [|x l]; simpl; try done; [lia|].
  intros H. rewrite IH; [done|lia].
Qed.

Lemma all_missing_mask {A} (mask : list bool) (l : list (option A)) :
  all_missing l = true -> all_missing (mask_rows mask l) = true.
Proof.
  unfold all_missing. revert l.
  induction mask as [|b mask IH]; intros [|x l]; simpl; try done.
  intros H. apply andb_true_iff in H as [Hx Hl].
  destruct b; simpl; [rewrite Hx|]; by apply IH.
Qed.

Section Conjunction.

Context (parse_datetime : string -> option Z).

Lemma series_ord_mask (op : ord_op) (c : column) (value : scalar) (mask m : list bool) :
  series_ord parse_datetime op c value = Ok m ->
  series_ord parse_datetime op (mask_col mask c) value = Ok (mask_rows mask m).
Proof.
  destruct c as [l|l|l], value as [q|s|t]; simpl; try congruence;
    try (intros [= <-]; by rewrite cmp_cells_mask).
  - destruct (all_missing l) eqn:Hl; [|done].
    rewrite (all_missing_mask mask l Hl). intros [= <-]. by rewrite mask_rows_map.
  - destruct (all_missing l) eqn:Hl; [|done].
    rewrite (all_missing_mask mask l Hl). intros [= <-]. by rewrite mask_rows_map.
  - destruct (parse_datetime s); [|done].
    intros [= <-]. by rewrite cmp_cells_mask.
Qed.

Lemma series_eq_mask (c : column) (value : scalar) (mask : list bool) :
  series_eq parse_datetime (mask_col mask c) value =
  mask_rows mask (series_eq parse_datetime c value).
Proof.
  destruct c as [l|l|l], value as [q|s|t]; simpl;
    rewrite ?cmp_cells_mask, ?mask_rows_map; try done.
  destruct (parse_datetime s); by rewrite ?cmp_cells_mask, ?mask_rows_map.
Qed.

Lemma selection_mask_select (df : DataFrame) (item : string * scalar) (mask m : list bool) :
  selection_mask parse_datetime df item = Ok m ->
  selection_mask parse_datetime (select_rows mask df) item = Ok (mask_rows mask m).
Proof.
  unfold selection_mask, getitem. rewrite find_col_select_rows.
  destruct (find_col (series df) (target_column item.1)) as [c|]; simpl; [|done].
  destruct (selection_rel item.1) as [op|].
  - apply series_ord_mask.
  - intros [= <-]. by rewrite series_eq_mask.
Qed.

Lemma mask_col_twice (m1 m2 : list bool) (c : column) :
  mask_col (mask_rows m1 m2) (mask_col m1 c) = mask_col (zip_with andb m1 m2) c.
Proof. destruct c; simpl; by rewrite mask_rows_twice. Qed.

Lemma select_rows_twice (m1 m2 : list bool) (df : DataFrame) :
  select_rows (mask_rows m1 m2) (select_rows m1 df) = select_rows (zip_with andb m1 m2) df.
Proof.
  unfold select_rows. simpl. rewrite mask_rows_twice. f_equal.
  rewrite map_map. apply map_ext. intros [name c]. simpl. by rewrite mask_col_twice.
Qed.

Lemma filter_loop_conjunction (df : DataFrame) (items : list (string * scalar))
    (masks : list (list bool)) (mask : list bool) (fd : loc) (h : store) :
  h !!! fd = select_rows mask df ->
  Forall2 (fun item m => selection_mask parse_datetime df item = Ok m) items masks ->
  exists r h',
    filter_loop parse_datetime items fd h = (Ok r, h') /\
    h' !!! r = select_rows (fold_left (zip_with andb) masks mask) df.
Proof.
  intros Hfd Hall. revert mask fd h Hfd.
  induction Hall as [|item m items masks Hm _ IH]; intros mask fd h Hfd.
  - by exists fd, h.
  - simpl. unfold mbind, M_bind, bind. rewrite filter_step_run, Hfd.
    rewrite (selection_mask_select df item mask m Hm).
    apply IH. rewrite list_lookup_total_middle by done.
    apply select_rows_twice.
Qed.

Lemma mask_col_all (n : nat) (c : column) :
  col_len c <= n -> mask_col (replicate n true) c = c.
Proof.
  unfold col_len. destruct c as [l|l|l]; simpl; rewrite length_map;
    intros H; by rewrite mask_rows_all.
Qed.

Lemma select_rows_all (df : DataFrame) :
  well_formed df -> select_rows (replicate (length (index df)) true) df = df.
Proof.
  unfold well_formed, select_rows. destruct df as [idx cols a]. simpl.
  intros Hwf. rewrite mask_rows_all by done. f_equal.
  induction Hwf as [|[name c] l Hc _ IH]; simpl; [done|].
  simpl in Hc. rewrite mask_col_all by lia. by rewrite IH.
Qed.

Lemma select_rows_no_rows (mask : list bool) (df : DataFrame) :
  well_formed df -> index df = [] -> select_rows mask df = df.
Proof.
  unfold well_formed, select_rows. destruct df as [idx cols a]. simpl.
  intros Hwf ->. rewrite mask_rows_nil. f_equal.
  induction Hwf as [|[name c] l Hc _ IH]; simpl; [done|].
  rewrite IH. do 2 f_equal. simpl in Hc. unfold col_len in Hc.
  destruct c as [x|x|x]; simpl in *; rewrite length_map in Hc;
    destruct x; simpl in *; try done; by rewrite mask_rows_nil.
Qed.

(** With every selection applicable to the frame, [apply_filters] returns
    the rows at which all of them hold. *)
Lemma apply_filters_conjunction (h : store) (l : loc) (filters : list (string * scalar))
    (masks : list (list bool)) :
  well_formed (h !!! l) ->
  Forall2 (fun item m => selection_mask parse_datetime (h !!! l) item = Ok m) filters masks ->
  exists r h',
    apply_filters parse_datetime (Some l) filters h = (Ok (Some r), h') /\
    h' !!! r = select_rows (all_hold (length (index (h !!! l))) masks) (h !!! l).
Proof.
  intros Hwf Hall. rewrite apply_filters_run. unfold all_hold.
  destruct Hall as [|item m items masks Hm Hall].
  { exists l, h. split; [done|]. simpl. by rewrite select_rows_all. }
  destruct (empty (h !!! l)) eqn:Hempty.
  - exists l, h. split; [done|].
    unfold empty in Hempty.
    destruct (index (h !!! l)) as [|i idx] eqn:Hidx.
    + by rewrite select_rows_no_rows.
    + unfold selection_mask, getitem in Hm.
      destruct (series (h !!! l)); [done|discriminate Hempty].
  - destruct (filter_loop_conjunction (h !!! l) (item :: items) (m :: masks)
                (replicate (length (index (h !!! l))) true)
                (length h) (h ++ [h !!! l])) as (r & h' & Hrun & Hres).
    + rewrite list_lookup_total_middle by done. by rewrite select_rows_all.
    + by constructor.
    + exists r, h'. by rewrite Hrun.
Qed.

Lemma find_col_In (cols : list (string * column)) (col : string) (c : column) :
  find_col cols col = Some c -> In (col, c) cols.
Proof.
  induction cols as [|[name x] cols IH]; simpl; [done|].
  destruct (String.eqb_spec name col) as [->|_].
  - intros [= ->]. by left.
  - intros H. right. by apply IH.
Qed.

(** C6, as amended: for a frame with a text column Category and a numeric
    column Amount, the selections [{Category: "A", Amount_min: 100}] return
    exactly the rows whose Category is "A" and whose Amount is at least 100;
    in general, when every selection names a column of the frame and can
    be compared with it, [apply_filters] returns exactly the rows at which
    all selections hold, a plain key by equality, [_min]/[_start] by [>=]
    and [_max]/[_end] by [<=] on the column named without the suffix. *)
Theorem selections_combine_by_conjunction :
  (forall (h : store) (l : loc) (cat : list (option string)) (amt : list (option Q)),
      well_formed (h !!! l) ->
      find_col (series (h !!! l)) "Category" = Some (ObjCol cat) ->
      find_col (series (h !!! l)) "Amount" = Some (NumCol amt) ->
      exists r h',
        apply_filters parse_datetime (Some l)
          [("Category", SStr "A"); ("Amount_min", SNum 100%Q)] h = (Ok (Some r), h') /\
        h' !!! r =
        select_rows (zip_with andb (cmp_cells (String.eqb "A") cat)
                                   (cmp_cells (Qle_bool 100%Q) amt)) (h !!! l)) /\
  (forall (h : store) (l : loc) (filters : list (string * scalar))
          (masks : list (list bool)),
      well_formed (h !!! l) ->
      Forall2 (fun item m => selection_mask parse_datetime (h !!! l) item = Ok m)
        filters masks ->
      exists r h',
        apply_filters parse_datetime (Some l) filters h = (Ok (Some r), h') /\
        h' !!! r = select_rows (all_hold (length (index (h !!! l))) masks) (h !!! l)).
Proof.
  split; [|apply apply_filters_conjunction].
  intros h l cat amt Hwf Hcat Hamt.
  destruct (apply_filters_conjunction h l
              [("Category", SStr "A"); ("Amount_min", SNum 100%Q)]
              [cmp_cells (String.eqb "A") cat; cmp_cells (Qle_bool 100%Q) amt] Hwf)
    as (r & h' & Hrun & Hres).
  { repeat constructor; unfold selection_mask, getitem.
    - change (target_column ("Category", SStr "A").1) with "Category".
      by rewrite Hcat.
    - change (target_column ("Amount_min", SNum 100%Q).1) with "Amount".
      by rewrite Hamt. }
  exists r, h'. split; [done|]. rewrite Hres. unfold all_hold. simpl.
  rewrite zip_with_replicate_l; [by rewrite list_fmap_id|].
  unfold cmp_cells. rewrite length_map.
  apply find_col_In, list_elem_of_In in Hcat.
  unfold well_formed in Hwf. rewrite Forall_forall in Hwf.
  specialize (Hwf _ Hcat). simpl in Hwf. unfold col_len in Hwf. simpl in Hwf.
  rewrite length_map in Hwf. lia.
Qed.

End Conjunction.

Lemma unknown_column_raises_witness :
  (exists e,
      (apply_filters iso_datetime (Some 0)
         [("Category", SStr "A"); ("Region_min", SNum 3)] [spend_frame]).1 = Raise e) /\
  apply_filters iso_datetime (Some 0) [("Region_min", SNum 3)]
    [{| index := []; series := [("Category", ObjCol [])]; attrs := no_attrs |}] =
  (Ok (Some 0),
   [{| index := []; series := [("Category", ObjCol [])]; attrs := no_attrs |}]).
Proof.
  split.
  - destruct (proj1 (unknown_column_raises iso_datetime) [spend_frame] 0
                [("Category", SStr "A"); ("Region_min", SNum 3)] "Region_min" (SNum 3))
      as (e & He & _).
    + reflexivity.
    + simpl. right. by left.
    + reflexivity.
    + by exists e.
  - apply (proj2 (unknown_column_raises iso_datetime)). reflexivity.
Defined.

(** C1, counterexample: the frame has no column "Region"; with the stale
    selection [apply_filters] raises [KeyError], whereas the remaining
    selection alone returns the rows of category "A". *)
Lemma stale_selection_raises :
  find_col (series spend_frame) (target_column "Region") = None /\
  (apply_filters iso_datetime (Some 0)
     [("Category", SStr "A"); ("Region", SStr "EU")] [spend_frame]).1
  = Raise (KeyError "Region") /\
  (apply_filters iso_datetime (Some 0) [("Category", SStr "A")] [spend_frame]).1
  = Ok (Some 2) /\
  (apply_filters iso_datetime (Some 0)
     [("Category", SStr "A"); ("Region", SStr "EU")] [spend_frame]).1
  <> (apply_filters iso_datetime (Some 0) [("Category", SStr "A")] [spend_frame]).1.
Proof. repeat split; try reflexivity. discriminate. Qed.

(** *** Keys with a range suffix *)

Lemma suffix_decodes (key suf : string) (op : ord_op) :
  In (suf, op) range_suffixes -> endswith key suf = true ->
  target_column key = drop_last (String.length suf) key /\ selection_rel key = Some op.
Proof.
  unfold range_suffixes, target_column, selection_rel.
  intros Hin H.
  destruct Hin as [Hin|[Hin|[Hin|[Hin|[]]]]]; injection Hin as <- <-.
  - rewrite H. simpl.
    destruct (endswith key "_start") eqn:Hs; [|done].
    rewrite (endswith_other key "_start" "_min" Hs) in H by (simpl; lia). discriminate H.
  - rewrite (endswith_other key "_max" "_min" H) by (simpl; lia). rewrite H. simpl.
    destruct (endswith key "_start") eqn:Hs.
    + rewrite (endswith_other key "_start" "_max" Hs) in H by (simpl; lia). discriminate H.
    + done.
  - rewrite H. by rewrite orb_true_r.
  - rewrite (endswith_other key "_end" "_min" H) by (simpl; lia).
    rewrite (endswith_other key "_end" "_max" H) by (simpl; lia). rewrite H. simpl.
    destruct (endswith key "_start") eqn:Hs; [|done].
    rewrite (endswith_other key "_start" "_end" Hs) in H by (simpl; lia). discriminate H.
Qed.

Lemma mask_rows_self (m : list bool) : Forall (fun b => b = true) (mask_rows m m).
Proof. induction m as [|[] m IH]; simpl; [constructor| |done]. by constructor. Qed.

Section SuffixedKeys.

Context (parse_datetime : string -> option Z).

Lemma all_rows_pass_mask (op : ord_op) (value : scalar) (c : column) (mask : list bool) :
  all_rows_pass parse_datetime op value c ->
  all_rows_pass parse_datetime op value (mask_col mask c).
Proof.
  intros (m & Hm & Hall). exists (mask_rows mask m).
  split; [by apply series_ord_mask|].
  clear Hm. revert mask. induction Hall as [|b m Hb _ IH]; intros [|x mask]; simpl;
    try constructor.
  destruct x; [by constructor | apply IH].
Qed.

Lemma all_rows_pass_selected (op : ord_op) (value : scalar) (c : column) (m : list bool) :
  series_ord parse_datetime op c value = Ok m ->
  all_rows_pass parse_datetime op value (mask_col m c).
Proof.
  intros Hm. exists (mask_rows m m).
  split; [by apply series_ord_mask|apply mask_rows_self].
Qed.

Lemma filter_loop_keeps_bound (items : list (string * scalar)) (fd r : loc) (h h' : store)
    (col : string) (op : ord_op) (value : scalar) :
  filter_loop parse_datetime items fd h = (Ok r, h') ->
  (exists c, find_col (series (h !!! fd)) col = Some c /\
             all_rows_pass parse_datetime op value c) ->
  exists c, find_col (series (h' !!! r)) col = Some c /\
            all_rows_pass parse_datetime op value c.
Proof.
  revert fd h. induction items as [|next items IH]; intros fd h; simpl.
  - by intros [= -> ->].
  - unfold mbind, M_bind, bind. rewrite filter_step_run.
    destruct (selection_mask parse_datetime (h !!! fd) next) as [mask|e]; [|done].
    intros Hloop (c & Hc & Hpass). apply (IH _ _ Hloop).
    rewrite list_lookup_total_middle by done. rewrite find_col_select_rows, Hc.
    exists (mask_col mask c). split; [done|]. by apply all_rows_pass_mask.
Qed.

Lemma filter_loop_sets_bound (items : list (string * scalar)) (fd r : loc) (h h' : store)
    (key : string) (op : ord_op) (value : scalar) :
  selection_rel key = Some op -> In (key, value) items ->
  filter_loop parse_datetime items fd h = (Ok r, h') ->
  exists c, find_col (series (h' !!! r)) (target_column key) = Some c /\
            all_rows_pass parse_datetime op value c.
Proof.
  intros Hrel. revert fd h. induction items as [|next items IH]; intros fd h; simpl; [done|].
  unfold mbind, M_bind, bind. rewrite filter_step_run.
  destruct (selection_mask parse_datetime (h !!! fd) next) as [mask|e] eqn:Hmask; [|done].
  intros [->|Hin] Hloop; [|by apply (IH _ _ Hin Hloop)].
  apply (filter_loop_keeps_bound _ _ _ _ _ _ _ _ Hloop).
  rewrite list_lookup_total_middle by done. rewrite find_col_select_rows.
  unfold selection_mask, getitem in Hmask. simpl in Hmask.
  destruct (find_col (series (h !!! fd)) (target_column key)) as [c|]; [|done].
  rewrite Hrel in Hmask. exists (mask_col mask c). split; [done|].
  by apply all_rows_pass_selected.
Qed.

(** C10, as amended: on a frame that is not empty, a selection whose key
    ends with [_min], [_max], [_start] or [_end] is a bound on the column
    named by the key without its suffix, whatever else the dictionary holds
    and whether or not the frame has a column named by the whole key.  When
    the frame lacks the stripped column, [apply_filters] raises; when it
    returns, every row of the result passes the comparison on the stripped
    column; and with this selection alone the result is the rows of the
    input at which the stripped column passes it.  No column is tested for
    equality under such a key. *)
Theorem suffixed_keys_are_range_bounds (h : store) (l : loc)
    (filters : list (string * scalar)) (key suf : string) (op : ord_op) (value : scalar) :
  In (suf, op) range_suffixes -> endswith key suf = true ->
  In (key, value) filters -> empty (h !!! l) = false ->
  (find_col (series (h !!! l)) (drop_last (String.length suf) key) = None ->
   exists e, (apply_filters parse_datetime (Some l) filters h).1 = Raise e) /\
  (forall r h', apply_filters parse_datetime (Some l) filters h = (Ok (Some r), h') ->
     exists c, find_col (series (h' !!! r)) (drop_last (String.length suf) key) = Some c /\
               all_rows_pass parse_datetime op value c) /\
  (forall c mask,
     find_col (series (h !!! l)) (drop_last (String.length suf) key) = Some c ->
     series_ord parse_datetime op c value = Ok mask ->
     apply_filters parse_datetime (Some l) [(key, value)] h
     = (Ok (Some (S (length h))), h ++ [h !!! l; select_rows mask (h !!! l)])).
Proof.
  intros Hsuf Hends Hin Hempty.
  destruct (suffix_decodes key suf op Hsuf Hends) as [Hcol Hrel]. rewrite <- Hcol.
  split; [|split].
  - intros Hnone.
    destruct (unknown_column_raises_nonempty parse_datetime h l filters key value
                Hempty Hin Hnone) as (e & He & _).
    by exists e.
  - intros r h'. rewrite apply_filters_run, Hempty.
    destruct filters as [|item filters]; [destruct Hin|].
    destruct (filter_loop parse_datetime (item :: filters) _ _) as [[r'|e] h1] eqn:Hloop;
      [|done].
    intros [= <- <-]. by apply (filter_loop_sets_bound _ _ _ _ _ _ _ _ Hrel Hin Hloop).
  - intros c mask Hc Hmask. rewrite apply_filters_run, Hempty.
    cbn [filter_loop]. unfold mbind, M_bind, bind. rewrite filter_step_run.
    rewrite list_lookup_total_middle by done.
    unfold selection_mask, getitem. cbn [fst snd]. rewrite Hc, Hrel, Hmask.
    unfold ret. rewrite length_app. cbn [length]. rewrite <- app_assoc. cbn [app].
    by replace (length h + 1) with (S (length h)) by lia.
Qed.

End SuffixedKeys.

Lemma suffixed_keys_witness :
  apply_filters iso_datetime (Some 0) [("Amount_min", SNum 100%Q)] [spend_frame]
  = (Ok (Some 2),
     [spend_frame; spend_frame;
      {| index := [0; 1; 3];
         series := [("Category", ObjCol [Some "A"; Some "B"; None]);
                    ("Amount", NumCol [Some 150%Q; Some 500%Q; Some 100%Q]);
                    ("Amount_min", NumCol [Some 100%Q; Some 100%Q; Some 7%Q])];
         attrs := no_attrs |}]).
Proof.
  apply (proj2 (proj2 (suffixed_keys_are_range_bounds iso_datetime [spend_frame] 0
                  [("Amount_min", SNum 100%Q)] "Amount_min" "_min" Ge (SNum 100%Q)
                  ltac:(simpl; by left) eq_refl ltac:(simpl; by left) eq_refl))
           (NumCol [Some 150%Q; Some 500%Q; Some 90%Q; Some 100%Q])
           [true; true; false; true]).
  - reflexivity.
  - reflexivity.
Defined.

(** C10, counterexample: on a frame without rows [apply_filters] reads no
    selection: it returns the frame itself, where the bound on the column
    "Amount", which the frame lacks, raises [KeyError]. *)
Lemma empty_frame_reads_no_selection :
  endswith "Amount_min" "_min" = true /\
  empty no_rows_frame = true /\
  apply_filters iso_datetime (Some 0) [("Amount_min", SNum 100%Q)] [no_rows_frame]
  = (Ok (Some 0), [no_rows_frame]) /\
  filter_ord iso_datetime Ge 0 (drop_last 4 "Amount_min") (SNum 100%Q) [no_rows_frame]
  = (Raise (KeyError "Amount"), [no_rows_frame]).
Proof. repeat split. Qed.

Lemma selections_conjunction_witness :
  (exists r h',
      apply_filters iso_datetime (Some 0)
        [("Category", SStr "A"); ("Amount_min", SNum 100%Q)] [spend_frame]
      = (Ok (Some r), h') /\
      h' !!! r =
      {| index := [0];
         series := [("Category", ObjCol [Some "A"]);
                    ("Amount", NumCol [Some 150%Q]);
                    ("Amount_min", NumCol [Some 100%Q])];
         attrs := no_attrs |}) /\
  (exists r h',
      apply_filters iso_datetime (Some 0)
        [("Signed_end", SStr "1970-01-02"); ("Score_max", SNum 100%Q);
         ("Region", SStr "North")] [schema_frame]
      = (Ok (Some r), h') /\
      index (h' !!! r) = [0]).
Proof.
  split.
  - destruct (proj1 (selections_combine_by_conjunction iso_datetime) [spend_frame] 0
                [Some "A"; Some "B"; Some "A"; None]
                [Some 150%Q; Some 500%Q; Some 90%Q; Some 100%Q])
      as (r & h' & Hrun & Hres).
    + repeat constructor.
    + reflexivity.
    + reflexivity.
    + exists r, h'. split; [exact Hrun|]. rewrite Hres. reflexivity.
  - destruct (proj2 (selections_combine_by_conjunction iso_datetime) [schema_frame] 0
                [("Signed_end", SStr "1970-01-02"); ("Score_max", SNum 100%Q);
                 ("Region", SStr "North")]
                [[true; false; false]; [true; false; true]; [true; false; true]])
      as (r & h' & Hrun & Hres).
    + repeat constructor.
    + repeat constructor.
    + exists r, h'. split; [exact Hrun|]. rewrite Hres. reflexivity.
Defined.

(** C6, counterexample: the frame has the columns Category and Amount, but
    the amounts are text; the comparison of the row of category "A" with
    the bound 100 raises [TypeError], and no frame is returned. *)
Lemma text_amount_raises :
  find_col (series text_amount_frame) "Category"
    = Some (ObjCol [Some "A"; Some "B"; Some "A"]) /\
  find_col (series text_amount_frame) "Amount"
    = Some (ObjCol [Some "150"; Some "500"; Some "90"]) /\
  (apply_filters iso_datetime (Some 0)
     [("Category", SStr "A"); ("Amount_min", SNum 100%Q)] [text_amount_frame]).1
  = Raise TypeError /\
  ~ (exists r,
        (apply_filters iso_datetime (Some 0)
           [("Category", SStr "A"); ("Amount_min", SNum 100%Q)] [text_amount_frame]).1
        = Ok (Some r)).
Proof.
  repeat split; try reflexivity. intros [r Hr]. discriminate Hr.
Qed.

Lemma input_dataset_unchanged_witness :
  (apply_filters iso_datetime (Some 0) [("Category", SStr "A")] [spend_frame]).2 !! 0
    = Some spend_frame /\
  series ((detect_column_types iso_datetime 0 [spend_frame]).2 !!! 0) = series spend_frame.
Proof.
  split.
  - apply (proj1 (proj2 (input_dataset_unchanged iso_datetime)
                    (Some 0) [("Category", SStr "A")] [spend_frame])).
    reflexivity.
  - apply (proj1 (input_dataset_unchanged iso_datetime) 0 [spend_frame]).
Defined.

(** ** Properties of the synthesizer *)

Lemma specs_app (a b : list event) : specs (a ++ b) = specs a ++ specs b.
Proof. unfold specs. apply List.filter_app. Qed.

Lemma sorted_length (l : list scalar) : length (sorted l) = length l.
Proof.
  assert (Hins : forall v k, length (insert_sorted v k) = S (length k)).
  { intros v k. induction k as [|w k IH]; simpl; [done|].
    destruct (scalar_leb v w); simpl; by rewrite ?IH. }
  induction l as [|v l IH]; simpl; [done|]. by rewrite Hins, IH.
Qed.

Lemma get_list_insert_eq {A} (d : gmap string (list A)) (key : string) (l : list A) :
  get_list (<[key := l]> d) key = l.
Proof. unfold get_list. by rewrite lookup_insert_eq. Qed.

Lemma get_list_insert_ne {A} (d : gmap string (list A)) (key key' : string) (l : list A) :
  key <> key' -> get_list (<[key := l]> d) key' = get_list d key'.
Proof. intros H. unfold get_list. by rewrite lookup_insert_ne. Qed.

Lemma py_take_length {A} (n : Z) (l : list A) :
  (0 <= n)%Z -> (Z.of_nat (length (py_take n l)) <= n)%Z.
Proof.
  intros Hn. unfold py_take.
  destruct (Z.ltb_spec n 0); [lia|]. rewrite length_take. lia.
Qed.

Section Synthesis.

Context (parse_float : string -> option (option Q)) (st : Streamlit).

Lemma categorical_loop_within (data : DataFrame) (stored : gmap string (list scalar))
    (columns : option (list string)) (max_filters : Z) (cols : list string) (s : gen_state) :
  within max_filters s ->
  within max_filters (categorical_loop st data stored columns max_filters cols s).1.
Proof.
  revert s. induction cols as [|col cols IH]; intros s Hs; simpl; [done|].
  destruct (excluded columns col); [by apply IH|].
  destruct (Z.leb_spec max_filters (filter_count s)); [done|].
  destruct (values_for data stored col) as [values|e]; [|done].
  destruct (length values <=? 100)%nat; [|by apply IH].
  apply IH. destruct Hs as [Hcount _]. unfold within, add_selectbox. simpl.
  rewrite specs_app, length_app. simpl. split; lia.
Qed.

Lemma date_loop_within (data : DataFrame) (columns : option (list string))
    (max_filters : Z) (cols : list string) (s : gen_state) :
  within max_filters s ->
  within max_filters (date_loop st data columns max_filters cols s).
Proof.
  revert s. induction cols as [|col cols IH]; intros s Hs; simpl; [done|].
  destruct (excluded columns col); [by apply IH|].
  destruct (Z.leb_spec max_filters (filter_count s)); [done|].
  pose proof Hs as [Hcount _].
  destruct (min_max_date data col) as [[min_date max_date]|].
  - destruct (negb (min_date =? max_date)%Z); apply IH; [|done].
    unfold within. simpl. rewrite specs_app, length_app. simpl. split; lia.
  - apply IH. unfold within, log_error, log_write.
    destruct (min_max_nat data col); simpl;
      rewrite ?specs_app, ?length_app; simpl; split; lia.
Qed.

Lemma numeric_loop_within (data : DataFrame) (columns : option (list string))
    (max_filters : Z) (cols : list string) (s : gen_state) :
  within max_filters s ->
  within max_filters (numeric_loop parse_float st data columns max_filters cols s).
Proof.
  revert s. induction cols as [|col cols IH]; intros s Hs; simpl; [done|].
  destruct (excluded columns col); [by apply IH|].
  destruct (Z.leb_spec max_filters (filter_count s)); [done|].
  pose proof Hs as [Hcount _].
  destruct (min_max_float parse_float data col) as [[min_val max_val]|].
  - destruct (float_ne min_val max_val); [|by apply IH].
    destruct (slider st _ _ _ _ _ _) as [min_selected max_selected].
    apply IH. unfold within. simpl. rewrite specs_app, length_app. simpl. split; lia.
  - apply IH. unfold within, log_error. simpl.
    rewrite specs_app, length_app. simpl. split; lia.
Qed.

Lemma basic_loop_specs (cols : list (string * column)) (s : gen_state) :
  length (specs (trace (basic_loop st cols s))) <=
  length (specs (trace s)) + length cols.
Proof.
  revert s. induction cols as [|[col c] cols IH]; intros s; simpl; [lia|].
  destruct (length (sorted (unique_values_of c)) <=? 100)%nat.
  - etrans; [apply IH|]. unfold add_selectbox. simpl.
    rewrite specs_app, length_app. simpl. lia.
  - etrans; [apply IH|]. lia.
Qed.

(** C3, as amended: for a budget that is not negative,
    [generate_dynamic_filters] shows at most [max_filters] widgets, counted
    over all kinds together, on the schema path and on the fallback path,
    whether it returns or raises. *)
Theorem filter_budget_respected (data : option DataFrame) (columns : option (list string))
    (max_filters : Z) :
  (0 <= max_filters)%Z ->
  (Z.of_nat (length (specs (generate_dynamic_filters parse_float st data columns
                              max_filters).2)) <= max_filters)%Z.
Proof.
  intros Hmax. unfold generate_dynamic_filters.
  destruct data as [df|]; [|simpl; lia].
  destruct (empty df); [simpl; lia|].
  destruct (column_types (attrs df)) as [types|].
  - assert (H0 : within max_filters gen_init) by (split; simpl; lia).
    pose proof (categorical_loop_within df (default ∅ (unique_values (attrs df)))
                  columns max_filters (get_list types "categorical") gen_init H0) as H1.
    destruct (categorical_loop st df _ columns max_filters _ gen_init) as [s1 [e|]];
      simpl in *.
    + destruct H1 as [H1 H1']. lia.
    + pose proof (date_loop_within df columns max_filters
                    (get_list types "datetime") s1 H1) as H2.
      pose proof (numeric_loop_within df columns max_filters
                    (get_list types "numeric") _ H2) as [H3 H3'].
      lia.
  - simpl.
    pose proof (basic_loop_specs (py_take max_filters (cat_cols df columns)) gen_init) as H.
    pose proof (py_take_length max_filters (cat_cols df columns) Hmax).
    simpl in H. lia.
Qed.

(** *** Priority order *)

Lemma views_app (a b : list event) : views (a ++ b) = views a ++ views b.
Proof. apply omap_app. Qed.

Lemma categorical_loop_views (data : DataFrame) (stored : gmap string (list scalar))
    (columns : option (list string)) (max_filters : Z) (cols : list string) (s : gen_state) :
  exists cs, sublist cs cols /\
    views (trace (categorical_loop st data stored columns max_filters cols s).1) =
    views (trace s) ++ enum_specs cs.
Proof.
  revert s. induction cols as [|col cols IH]; intros s; simpl.
  { exists []. split; [constructor|]. by rewrite app_nil_r. }
  assert (Hstop : exists cs, sublist cs (col :: cols) /\
            views (trace s) = views (trace s) ++ enum_specs cs).
  { exists []. split; [apply sublist_nil_l|]. by rewrite app_nil_r. }
  assert (Hnext : forall s', views (trace s') = views (trace s) ->
            exists cs, sublist cs (col :: cols) /\
              views (trace (categorical_loop st data stored columns max_filters cols s').1) =
              views (trace s) ++ enum_specs cs).
  { intros s' Hs'. destruct (IH s') as (cs & Hsub & Hcs).
    exists cs. split; [by apply sublist_cons|]. by rewrite Hcs, Hs'. }
  destruct (excluded columns col); [by apply Hnext|].
  destruct (max_filters <=? filter_count s)%Z; [done|].
  destruct (values_for data stored col) as [values|e]; [|done].
  destruct (length values <=? 100)%nat; [|by apply Hnext].
  destruct (IH (add_selectbox st col
                  ("filter_" +:+ col +:+ "_" +:+ pretty (filter_count s))
                  values (filter_count s + 1) s)) as (cs & Hsub & Hcs).
  exists (col :: cs). split; [by apply sublist_skip|].
  rewrite Hcs. unfold add_selectbox. simpl. rewrite views_app. simpl.
  by rewrite <- app_assoc.
Qed.

Lemma date_loop_views (data : DataFrame) (columns : option (list string))
    (max_filters : Z) (cols : list string) (s : gen_state) :
  exists ds, sublist ds cols /\
    views (trace (date_loop st data columns max_filters cols s)) =
    views (trace s) ++ date_specs ds.
Proof.
  revert s. induction cols as [|col cols IH]; intros s; simpl.
  { exists []. split; [constructor|]. by rewrite app_nil_r. }
  assert (Hnext : forall s', views (trace s') = views (trace s) ->
            exists ds, sublist ds (col :: cols) /\
              views (trace (date_loop st data columns max_filters cols s')) =
              views (trace s) ++ date_specs ds).
  { intros s' Hs'. destruct (IH s') as (ds & Hsub & Hds).
    exists ds. split; [by apply sublist_cons|]. by rewrite Hds, Hs'. }
  destruct (excluded columns col); [by apply Hnext|].
  destruct (max_filters <=? filter_count s)%Z.
  { exists []. split; [apply sublist_nil_l|]. by rewrite app_nil_r. }
  destruct (min_max_date data col) as [[min_date max_date]|].
  - destruct (negb (min_date =? max_date)%Z); [|by apply Hnext].
    match goal with |- context [date_loop st data columns max_filters cols ?s'] =>
      destruct (IH s') as (ds & Hsub & Hds) end.
    exists (col :: ds). split; [by apply sublist_skip|].
    rewrite Hds. simpl. rewrite views_app. simpl. by rewrite <- app_assoc.
  - apply Hnext. unfold log_error, log_write.
    destruct (min_max_nat data col); simpl; rewrite ?views_app; simpl;
      by rewrite ?app_nil_r.
Qed.

Lemma numeric_loop_views (data : DataFrame) (columns : option (list string))
    (max_filters : Z) (cols : list string) (s : gen_state) :
  exists ns, sublist ns cols /\
    views (trace (numeric_loop parse_float st data columns max_filters cols s)) =
    views (trace s) ++ number_specs ns.
Proof.
  revert s. induction cols as [|col cols IH]; intros s; simpl.
  { exists []. split; [constructor|]. by rewrite app_nil_r. }
  assert (Hnext : forall s', views (trace s') = views (trace s) ->
            exists ns, sublist ns (col :: cols) /\
              views (trace (numeric_loop parse_float st data columns max_filters cols s')) =
              views (trace s) ++ number_specs ns).
  { intros s' Hs'. destruct (IH s') as (ns & Hsub & Hns).
    exists ns. split; [by apply sublist_cons|]. by rewrite Hns, Hs'. }
  destruct (excluded columns col); [by apply Hnext|].
  destruct (max_filters <=? filter_count s)%Z.
  { exists []. split; [apply sublist_nil_l|]. by rewrite app_nil_r. }
  destruct (min_max_float parse_float data col) as [[min_val max_val]|].
  - destruct (float_ne min_val max_val); [|by apply Hnext].
    destruct (slider st _ _ _ _ _ _) as [min_selected max_selected].
    match goal with
    | |- context [numeric_loop parse_float st data columns max_filters cols ?s'] =>
        destruct (IH s') as (ns & Hsub & Hns)
    end.
    exists (col :: ns). split; [by apply sublist_skip|].
    rewrite Hns. simpl. rewrite views_app. simpl. by rewrite <- app_assoc.
  - apply Hnext. unfold log_error. simpl. rewrite views_app. simpl.
    by rewrite app_nil_r.
Qed.

(** Once the budget is used up, a loop changes nothing. *)
Lemma categorical_loop_full (data : DataFrame) (stored : gmap string (list scalar))
    (columns : option (list string)) (max_filters : Z) (cols : list string) (s : gen_state) :
  (max_filters <= filter_count s)%Z ->
  categorical_loop st data stored columns max_filters cols s = (s, None).
Proof.
  intros Hfull. induction cols as [|col cols IH]; simpl; [done|].
  destruct (excluded columns col); [done|].
  by destruct (Z.leb_spec max_filters (filter_count s)); [|lia].
Qed.

Lemma date_loop_full (data : DataFrame) (columns : option (list string))
    (max_filters : Z) (cols : list string) (s : gen_state) :
  (max_filters <= filter_count s)%Z ->
  date_loop st data columns max_filters cols s = s.
Proof.
  intros Hfull. induction cols as [|col cols IH]; simpl; [done|].
  destruct (excluded columns col); [done|].
  by destruct (Z.leb_spec max_filters (filter_count s)); [|lia].
Qed.

Lemma numeric_loop_full (data : DataFrame) (columns : option (list string))
    (max_filters : Z) (cols : list string) (s : gen_state) :
  (max_filters <= filter_count s)%Z ->
  numeric_loop parse_float st data columns max_filters cols s = s.
Proof.
  intros Hfull. induction cols as [|col cols IH]; simpl; [done|].
  destruct (excluded columns col); [done|].
  by destruct (Z.leb_spec max_filters (filter_count s)); [|lia].
Qed.

Lemma schema_path_priority (df : DataFrame) (types : gmap string (list string))
    (columns : option (list string)) (max_filters : Z) :
  empty df = false -> column_types (attrs df) = Some types ->
  exists cs ds ns,
    sublist cs (get_list types "categorical") /\
    sublist ds (get_list types "datetime") /\
    sublist ns (get_list types "numeric") /\
    views (generate_dynamic_filters parse_float st (Some df) columns max_filters).2 =
    enum_specs cs ++ date_specs ds ++ number_specs ns.
Proof.
  intros Hempty Htypes. unfold generate_dynamic_filters. rewrite Hempty, Htypes.
  destruct (categorical_loop_views df (default ∅ (unique_values (attrs df))) columns
              max_filters (get_list types "categorical") gen_init) as (cs & Hcs & Hc).
  destruct (categorical_loop st df _ columns max_filters _ gen_init) as [s1 [e|]];
    simpl in *.
  - exists cs, [], []. repeat split; try done; try apply sublist_nil_l.
    by rewrite Hc, app_nil_r.
  - destruct (date_loop_views df columns max_filters (get_list types "datetime") s1)
      as (ds & Hds & Hd).
    destruct (numeric_loop_views df columns max_filters (get_list types "numeric")
                (date_loop st df columns max_filters (get_list types "datetime") s1))
      as (ns & Hns & Hn).
    exists cs, ds, ns. repeat split; try done.
    by rewrite Hn, Hd, Hc, <- app_assoc.
Qed.

Lemma two_categorical_fill_budget (df : DataFrame) (types : gmap string (list string))
    (columns : option (list string)) (c1 c2 : string) (v1 v2 : list scalar) :
  empty df = false -> column_types (attrs df) = Some types ->
  get_list types "categorical" = [c1; c2] ->
  excluded columns c1 = false -> excluded columns c2 = false ->
  values_for df (default ∅ (unique_values (attrs df))) c1 = Ok v1 -> length v1 <= 100 ->
  values_for df (default ∅ (unique_values (attrs df))) c2 = Ok v2 -> length v2 <= 100 ->
  specs (generate_dynamic_filters parse_float st (Some df) columns 2).2 =
  [Selectbox (selectbox_label c1) (SStr ("All " +:+ c1) :: v1) ("filter_" +:+ c1 +:+ "_0");
   Selectbox (selectbox_label c2) (SStr ("All " +:+ c2) :: v2) ("filter_" +:+ c2 +:+ "_1")].
Proof.
  intros Hempty Htypes Hcat Hc1 Hc2 Hv1 Hl1 Hv2 Hl2.
  unfold generate_dynamic_filters. rewrite Hempty, Htypes, Hcat. simpl.
  rewrite Hc1, Hv1. simpl.
  destruct (Nat.leb_spec (length v1) 100); [|lia].
  rewrite Hc2, Hv2. simpl.
  destruct (Nat.leb_spec (length v2) 100); [|lia].
  simpl. rewrite date_loop_full, numeric_loop_full by (simpl; lia).
  reflexivity.
Qed.

(** C4: on the schema path the widgets come in priority order: select
    boxes for some of the categorical columns, in schema order, then date
    ranges for some of the datetime columns, then sliders for some of the
    numeric columns; and when the categorical list is two eligible columns
    and the budget is 2, exactly their two select boxes are shown, whatever
    date and numeric columns the schema lists. *)
Theorem categorical_then_date_then_numeric :
  (forall (df : DataFrame) (types : gmap string (list string))
          (columns : option (list string)) (max_filters : Z),
      empty df = false -> column_types (attrs df) = Some types ->
      exists cs ds ns,
        sublist cs (get_list types "categorical") /\
        sublist ds (get_list types "datetime") /\
        sublist ns (get_list types "numeric") /\
        views (generate_dynamic_filters parse_float st (Some df) columns max_filters).2 =
        enum_specs cs ++ date_specs ds ++ number_specs ns) /\
  (forall (df : DataFrame) (types : gmap string (list string))
          (columns : option (list string)) (c1 c2 : string) (v1 v2 : list scalar),
      empty df = false -> column_types (attrs df) = Some types ->
      get_list types "categorical" = [c1; c2] ->
      excluded columns c1 = false -> excluded columns c2 = false ->
      values_for df (default ∅ (unique_values (attrs df))) c1 = Ok v1 -> length v1 <= 100 ->
      values_for df (default ∅ (unique_values (attrs df))) c2 = Ok v2 -> length v2 <= 100 ->
      specs (generate_dynamic_filters parse_float st (Some df) columns 2).2 =
      [Selectbox (selectbox_label c1) (SStr ("All " +:+ c1) :: v1)
         ("filter_" +:+ c1 +:+ "_0");
       Selectbox (selectbox_label c2) (SStr ("All " +:+ c2) :: v2)
         ("filter_" +:+ c2 +:+ "_1")]).
Proof.
  split; [apply schema_path_priority | apply two_categorical_fill_budget].
Qed.

(** *** Skipped columns *)

Lemma categorical_loop_skip (data : DataFrame) (stored : gmap string (list scalar))
    (columns : option (list string)) (max_filters : Z) (col : string)
    (values : list scalar) (pre post : list string) (s : gen_state) :
  values_for data stored col = Ok values -> 100 < length values ->
  categorical_loop st data stored columns max_filters (pre ++ col :: post) s =
  categorical_loop st data stored columns max_filters (pre ++ post) s.
Proof.
  intros Hvalues Hlen. revert s. induction pre as [|p pre IH]; intros s; simpl.
  - destruct (excluded columns col); [done|].
    destruct (Z.leb_spec max_filters (filter_count s)).
    + by rewrite categorical_loop_full.
    + rewrite Hvalues. by destruct (Nat.leb_spec (length values) 100); [lia|].
  - destruct (excluded columns p); [done|].
    destruct (max_filters <=? filter_count s)%Z; [done|].
    destruct (values_for data stored p) as [vs|e]; [|done].
    by destruct (length vs <=? 100)%nat.
Qed.

(** The loops read the columns of the frame only. *)
Lemma categorical_loop_series (d1 d2 : DataFrame) (stored : gmap string (list scalar))
    (columns : option (list string)) (max_filters : Z) (cols : list string) (s : gen_state) :
  series d1 = series d2 ->
  categorical_loop st d1 stored columns max_filters cols s =
  categorical_loop st d2 stored columns max_filters cols s.
Proof.
  intros Hser. revert s. induction cols as [|col cols IH]; intros s; simpl; [done|].
  unfold values_for, getitem. rewrite Hser.
  destruct (excluded columns col); [done|].
  destruct (max_filters <=? filter_count s)%Z; [done|].
  destruct (stored !! col) as [vs|].
  - by destruct (length vs <=? 100)%nat.
  - destruct (find_col (series d2) col) as [c|]; [|done].
    by destruct (length (sorted (unique_values_of c)) <=? 100)%nat.
Qed.

Lemma date_loop_series (d1 d2 : DataFrame) (columns : option (list string))
    (max_filters : Z) (cols : list string) (s : gen_state) :
  series d1 = series d2 ->
  date_loop st d1 columns max_filters cols s = date_loop st d2 columns max_filters cols s.
Proof.
  intros Hser. revert s. induction cols as [|col cols IH]; intros s; simpl; [done|].
  unfold min_max_date, min_max_nat. rewrite Hser.
  destruct (excluded columns col); [done|].
  destruct (max_filters <=? filter_count s)%Z; [done|].
  destruct (find_col (series d2) col) as [[l|l|l]|]; try done.
  destruct (min_of Z.leb (present l)), (max_of Z.leb (present l)); try done.
  by destruct (negb (date_of z =? date_of z0)%Z).
Qed.

Lemma numeric_loop_series (d1 d2 : DataFrame) (columns : option (list string))
    (max_filters : Z) (cols : list string) (s : gen_state) :
  series d1 = series d2 ->
  numeric_loop parse_float st d1 columns max_filters cols s =
  numeric_loop parse_float st d2 columns max_filters cols s.
Proof.
  intros Hser. revert s. induction cols as [|col cols IH]; intros s; simpl; [done|].
  unfold min_max_float. rewrite Hser.
  destruct (excluded columns col); [done|].
  destruct (max_filters <=? filter_count s)%Z; [done|].
  match goal with |- context [match ?x with Some _ => _ | None => _ end = _] =>
    destruct x as [[min_val max_val]|] end; [|done].
  destruct (float_ne min_val max_val); [|done].
  by destruct (slider st _ _ _ _ _ _).
Qed.

(** C8: on the schema path, a categorical column with more than 100
    values is passed over: its iteration shows nothing and leaves the
    counter and the selections as they were, and the whole call returns and
    shows what it does when the schema does not list that column. *)
Theorem oversized_categorical_is_skipped (df : DataFrame)
    (types : gmap string (list string)) (columns : option (list string))
    (max_filters : Z) (pre post : list string) (col : string) (values : list scalar) :
  column_types (attrs df) = Some types ->
  get_list types "categorical" = pre ++ col :: post ->
  values_for df (default ∅ (unique_values (attrs df))) col = Ok values ->
  100 < length values ->
  (forall s,
      categorical_loop st df (default ∅ (unique_values (attrs df))) columns max_filters
        [col] s = (s, None)) /\
  generate_dynamic_filters parse_float st (Some df) columns max_filters =
  generate_dynamic_filters parse_float st (Some (set_categorical (pre ++ post) df))
    columns max_filters.
Proof.
  intros Htypes Hcat Hvalues Hlen. split.
  - intros s.
    exact (categorical_loop_skip df _ columns max_filters col values [] [] s Hvalues Hlen).
  - unfold generate_dynamic_filters.
    change (empty (set_categorical (pre ++ post) df)) with (empty df).
    destruct (empty df); [done|].
    change (column_types (attrs (set_categorical (pre ++ post) df)))
      with (option_map (fun types => <["categorical" := pre ++ post]> types)
              (column_types (attrs df))).
    change (unique_values (attrs (set_categorical (pre ++ post) df)))
      with (unique_values (attrs df)).
    rewrite Htypes. cbn [option_map].
    rewrite get_list_insert_eq, !get_list_insert_ne by done.
    rewrite Hcat.
    rewrite (categorical_loop_skip df _ columns max_filters col values pre post
               gen_init Hvalues Hlen).
    rewrite (categorical_loop_series (set_categorical (pre ++ post) df) df) by done.
    destruct (categorical_loop st df _ columns max_filters (pre ++ post) gen_init)
      as [s1 [e|]]; [done|].
    rewrite (date_loop_series (set_categorical (pre ++ post) df) df) by done.
    by rewrite (numeric_loop_series (set_categorical (pre ++ post) df) df) by done.
Qed.

End Synthesis.

Lemma filter_budget_witness :
  (Z.of_nat (length (specs (generate_dynamic_filters decimal_float st_choosy
                              (Some schema_frame) None 3).2)) <= 3)%Z.
Proof. apply filter_budget_respected. lia. Defined.

(** C3, counterexample: on the fallback path the budget [-1] means "all
    likely categorical columns but the last": two select boxes are shown. *)
Lemma negative_budget_exceeded :
  specs (generate_dynamic_filters decimal_float st_default (Some spend_frame) None (-1)).2 =
    [Selectbox "Filter by Category:" [SStr "All Category"; SStr "A"; SStr "B"]
       "basic_filter_Category";
     Selectbox "Filter by Amount:"
       [SStr "All Amount"; SNum 90%Q; SNum 100%Q; SNum 150%Q; SNum 500%Q]
       "basic_filter_Amount"] /\
  ~ (Z.of_nat (length (specs (generate_dynamic_filters decimal_float st_default
                                (Some spend_frame) None (-1)).2)) <= -1)%Z.
Proof. split; [reflexivity|]. vm_compute. intros H. by apply H. Qed.

Lemma priority_order_witness :
  specs (generate_dynamic_filters decimal_float st_default (Some schema_frame) None 2).2 =
    [Selectbox "Filter by Region:" [SStr "All Region"; SStr "North"; SStr "South"]
       "filter_Region_0";
     Selectbox "Filter by Status:" [SStr "All Status"; SStr "closed"; SStr "open"]
       "filter_Status_1"] /\
  views (generate_dynamic_filters decimal_float st_default (Some schema_frame) None 4).2 =
    [(EnumChoice, "Filter by Region:"); (EnumChoice, "Filter by Status:");
     (DateRange, "Select range for Signed:"); (NumberRange, "Select range for Score:")].
Proof.
  split; [|reflexivity].
  apply (proj2 (categorical_then_date_then_numeric decimal_float st_default)
           schema_frame
           (<["categorical" := ["Region"; "Status"]]>
            (<["datetime" := ["Signed"]]> (<["numeric" := ["Score"]]> ∅)))
           None "Region" "Status"
           [SStr "North"; SStr "South"] [SStr "closed"; SStr "open"]);
    try reflexivity; simpl; lia.
Defined.

Lemma oversized_categorical_witness :
  generate_dynamic_filters decimal_float st_choosy (Some invoice_frame) None 1 =
  (Ok [("Status", SStr "closed")],
   [Selectbox "Filter by Status:" [SStr "All Status"; SStr "closed"; SStr "open"]
      "filter_Status_0"]).
Proof.
  rewrite (proj2 (oversized_categorical_is_skipped decimal_float st_choosy invoice_frame
                    (<["categorical" := ["Invoice"; "Status"]]> ∅) None 1
                    [] ["Status"] "Invoice"
                    (sorted (unique_values_of
                       (ObjCol (map (fun i => Some (pretty i)) (seq 0 101)))))
                    eq_refl eq_refl eq_refl
                    ltac:(vm_compute; lia))).
  vm_compute. reflexivity.
Defined.

(** ** The end-to-end scenario *)

Section Scenario.

Context (parse_datetime : string -> option Z)
        (parse_float : string -> option (option Q)) (st : Streamlit).

Lemma nunique_not_all_missing (c : column) : nunique c <> 0 -> isna_all c = false.
Proof.
  intros H. destruct (isna_all c) eqn:Hna; [|done].
  exfalso. apply H. unfold nunique, unique_values_of.
  by rewrite (isna_all_dropna c Hna).
Qed.

(** What [detect_column_types] finds in a frame of the scenario's shape. *)
Lemma scenario_schema (df : DataFrame) (sup cat dat : list (option string))
    (amt : list (option Q)) :
  series df = [("Supplier", ObjCol sup); ("Category", ObjCol cat);
               ("Amount", NumCol amt); ("Date", ObjCol dat)] ->
  nunique (ObjCol sup) = 20 -> nunique (ObjCol cat) = 5 ->
  isna_all (NumCol amt) = false ->
  to_datetime_ok parse_datetime (ObjCol dat) = true -> 1 < nunique (ObjCol dat) ->
  detect_loop parse_datetime df =
  {| numeric_cols := []; date_cols := ["Date"]; monetary_cols := ["Amount"];
     categorical_cols := ["Supplier"; "Category"]; id_cols := []; text_cols := [];
     uniq := <["Category" := sorted (unique_values_of (ObjCol cat))]>
             (<["Supplier" := sorted (unique_values_of (ObjCol sup))]> ∅) |}.
Proof.
  intros Hser Hsup Hcat Hamt Hdat Hdat'.
  assert (Hs : classify parse_datetime "Supplier" (ObjCol sup) = Some Categorical).
  { unfold classify. rewrite nunique_not_all_missing by lia. rewrite Hsup. reflexivity. }
  assert (Hc : classify parse_datetime "Category" (ObjCol cat) = Some Categorical).
  { unfold classify. rewrite nunique_not_all_missing by lia. rewrite Hcat. reflexivity. }
  assert (Ha : classify parse_datetime "Amount" (NumCol amt) = Some Monetary).
  { unfold classify. rewrite Hamt. reflexivity. }
  assert (Hd : classify parse_datetime "Date" (ObjCol dat) = Some Date).
  { unfold classify. rewrite nunique_not_all_missing by lia. rewrite Hdat. reflexivity. }
  unfold detect_loop. rewrite Hser. cbn [fold_left]. unfold detect_step.
  rewrite Hs, Hc, Ha, Hd. reflexivity.
Qed.

(** C2, as amended: on a frame of 200 rows with the columns Supplier (text,
    20 distinct values), Category (text, 5 distinct values), Amount (numeric)
    and Date (date strings, more than one distinct), [detect_column_types]
    followed by [generate_dynamic_filters] with a budget of 3 shows first the
    select box of Supplier, then the select box of Category (the categorical
    columns in column order), and no widget for Amount. *)
Theorem scenario_filters (h : store) (l : loc) (df : DataFrame)
    (sup cat dat : list (option string)) (amt : list (option Q)) :
  h !! l = Some df ->
  length (index df) = 200 ->
  series df = [("Supplier", ObjCol sup); ("Category", ObjCol cat);
               ("Amount", NumCol amt); ("Date", ObjCol dat)] ->
  nunique (ObjCol sup) = 20 -> nunique (ObjCol cat) = 5 ->
  isna_all (NumCol amt) = false ->
  to_datetime_ok parse_datetime (ObjCol dat) = true -> 1 < nunique (ObjCol dat) ->
  let df' := (detect_column_types parse_datetime l h).2 !!! l in
  let out := generate_dynamic_filters parse_float st (Some df') None 3 in
  (exists rest,
      specs out.2 =
      Selectbox (selectbox_label "Supplier")
        (SStr "All Supplier" :: sorted (unique_values_of (ObjCol sup))) "filter_Supplier_0"
      :: Selectbox (selectbox_label "Category")
           (SStr "All Category" :: sorted (unique_values_of (ObjCol cat)))
           "filter_Category_1"
      :: rest) /\
  (forall sh label, In (sh, label) (views out.2) ->
     label <> selectbox_label "Amount" /\ label <> range_label "Amount").
Proof.
  intros Hl Hrows Hser Hsup Hcat Hamt Hdat Hdat' df' out.
  assert (Hdf' : df' = detect_column_types_frame parse_datetime df).
  { unfold df', detect_column_types. cbn [snd].
    rewrite list_lookup_total_insert_eq by (by eapply lookup_lt_Some).
    by rewrite (list_lookup_total_correct _ _ _ Hl). }
  assert (Hout : out.2 =
    [Selectbox (selectbox_label "Supplier")
        (SStr "All Supplier" :: sorted (unique_values_of (ObjCol sup))) "filter_Supplier_0";
     Selectbox (selectbox_label "Category")
        (SStr "All Category" :: sorted (unique_values_of (ObjCol cat))) "filter_Category_1"]).
  { unfold out. rewrite Hdf'. unfold generate_dynamic_filters, detect_column_types_frame.
    unfold empty. cbn [index series attrs column_types unique_values].
    rewrite Hser. destruct (index df) as [|i idx]; [done|].
    rewrite (scenario_schema df sup cat dat amt Hser Hsup Hcat Hamt Hdat Hdat').
    change (get_list (column_types_dict _) "categorical") with ["Supplier"; "Category"].
    change (get_list (column_types_dict _) "datetime") with (@nil string).
    change (get_list (column_types_dict _) "numeric") with (@nil string).
    cbn [uniq default from_option id numeric_loop date_loop].
    match goal with |- context [categorical_loop st ?d ?m] =>
      set (frame := d); set (stored := m) end.
    assert (Hv1 : values_for frame stored "Supplier" =
                  Ok (sorted (unique_values_of (ObjCol sup)))).
    { unfold values_for, stored. by rewrite lookup_insert_ne, lookup_insert_eq. }
    assert (Hv2 : values_for frame stored "Category" =
                  Ok (sorted (unique_values_of (ObjCol cat)))).
    { unfold values_for, stored. by rewrite lookup_insert_eq. }
    assert (Hl1 : (length (sorted (unique_values_of (ObjCol sup))) <=? 100)%nat = true).
    { rewrite sorted_length. fold (nunique (ObjCol sup)). by rewrite Hsup. }
    assert (Hl2 : (length (sorted (unique_values_of (ObjCol cat))) <=? 100)%nat = true).
    { rewrite sorted_length. fold (nunique (ObjCol cat)). by rewrite Hcat. }
    cbn [categorical_loop excluded]. rewrite Hv1, Hl1.
    rewrite Hv2, Hl2. reflexivity. }
  rewrite Hout. split.
  - by exists [].
  - intros sh label [[= <- <-]|[[= <- <-]|[]]]; split; discriminate.
Qed.

End Scenario.

Lemma scenario_filters_witness :
  exists rest,
    specs scenario_run.2 =
    Selectbox "Filter by Supplier:"
      (SStr "All Supplier" :: sorted (unique_values_of (ObjCol scenario_suppliers)))
      "filter_Supplier_0"
    :: Selectbox "Filter by Category:"
         (SStr "All Category" :: sorted (unique_values_of (ObjCol scenario_categories)))
         "filter_Category_1"
    :: rest.
Proof.
  refine (proj1 (scenario_filters iso_datetime decimal_float st_default
                   [scenario] 0 scenario scenario_suppliers scenario_categories
                   scenario_dates scenario_amounts _ _ _ _ _ _ _ _));
    try reflexivity.
  vm_compute. lia.
Defined.

(** C2, counterexample: in the scenario the select box of Supplier comes
    before that of Category, and only these two widgets are shown; the run is
    not "Category, Supplier, then a range for Date". *)
Lemma scenario_order_differs :
  views scenario_run.2 =
    [(EnumChoice, "Filter by Supplier:"); (EnumChoice, "Filter by Category:")] /\
  views scenario_run.2 <>
    [(EnumChoice, selectbox_label "Category"); (EnumChoice, selectbox_label "Supplier");
     (DateRange, range_label "Date")].
Proof.
  assert (H : views scenario_run.2 =
    [(EnumChoice, "Filter by Supplier:"); (EnumChoice, "Filter by Category:")])
    by (vm_compute; reflexivity).
  split; [exact H|]. rewrite H. discriminate.
Qed.

(** ** Further properties of the classifier *)

Lemma unique_from_length (seen l : list scalar) :
  length (unique_from seen l) <= length l.
Proof.
  revert seen. induction l as [|v l IH]; intros seen; simpl; [lia|].
  destruct (mem_scalar v seen); [specialize (IH seen)|specialize (IH (v :: seen))];
    simpl; lia.
Qed.

Lemma nunique_le_total (c : column) : nunique c <= length (dropna (cells_of c)).
Proof. apply unique_from_length. Qed.

(** The threshold of the classifier in whole numbers. *)
Lemma is_categorical_spec (n_unique n_total : nat) :
  n_unique <= n_total ->
  is_categorical n_unique n_total = true <->
  n_unique <= 50 \/ (5 * n_unique <= n_total /\ n_unique <= 100).
Proof.
  intros Hle. unfold is_categorical.
  rewrite orb_true_iff, andb_true_iff, !Nat.leb_le.
  destruct (decide (n_unique <= 50)) as [H50|H50]; [by split; left|].
  assert (Hq : Qle_bool (inject_Z (Z.of_nat n_unique) / inject_Z (Z.of_nat n_total))
                 (2 # 10) = true <-> 5 * n_unique <= n_total).
  { rewrite Qle_bool_iff.
    assert (Hpos : (0 < inject_Z (Z.of_nat n_total))%Q).
    { change 0%Q with (inject_Z 0). rewrite <- Zlt_Qlt. lia. }
    split.
    - intros H. apply (Qmult_le_r _ _ _ Hpos) in H.
      rewrite Qmult_comm, Qmult_div_r in H
        by (intros E; rewrite E in Hpos; by apply Qlt_irrefl in Hpos).
      unfold Qle in H. simpl in H. lia.
    - intros H. apply Qle_shift_div_r; [done|].
      unfold Qle. simpl. lia. }
  rewrite Hq. intuition lia.
Qed.

Section ClassifierExtras.

Context (parse_datetime : string -> option Z).

Lemma classify_not_all_missing (col : string) (c : column) (k : kind) :
  classify parse_datetime col c = Some k -> isna_all c = false.
Proof. unfold classify. by destruct (isna_all c). Qed.

(** X1: the lists of [column_types] only hold columns of the frame that
    have some value, and when the column names are distinct they partition
    those columns: a column with some value is listed under exactly one kind,
    a column whose cells are all missing under none. *)
Theorem classification_partition (df : DataFrame) :
  (forall k col, classified parse_datetime df k col ->
     exists c, In (col, c) (series df) /\ isna_all c = false) /\
  (NoDup (columns_of df) ->
   forall col c, In (col, c) (series df) ->
     (isna_all c = true -> forall k, ~ classified parse_datetime df k col) /\
     (isna_all c = false ->
      exists k, classified parse_datetime df k col /\
        forall k', classified parse_datetime df k' col -> k' = k)).
Proof.
  split.
  - intros k col (c & Hin & Hk)%classified_iff.
    exists c. split; [done|]. by eapply classify_not_all_missing.
  - intros Hnd col c Hin. split.
    + intros Hna k Hk. apply (classified_unique _ df k col c Hnd Hin) in Hk.
      apply classify_not_all_missing in Hk. congruence.
    + intros Hna. destruct (classify_some parse_datetime col c Hna) as [k Hk].
      exists k. split; [by apply (classified_unique _ df k col c Hnd Hin)|].
      intros k' Hk'. apply (classified_unique _ df k' col c Hnd Hin) in Hk'.
      congruence.
Qed.

(** *** The recorded unique values *)

Lemma uniq_keys_step (acc : detected) (entry : string * column) :
  (forall col, is_Some (uniq acc !! col) <-> In col (categorical_cols acc)) ->
  forall col, is_Some (uniq (detect_step parse_datetime acc entry) !! col) <->
              In col (categorical_cols (detect_step parse_datetime acc entry)).
Proof.
  intros Hacc col. destruct entry as [name c]. unfold detect_step.
  destruct (classify parse_datetime name c) as [k|]; [|done].
  destruct k; cbn [uniq categorical_cols append_if kind_eqb]; try done.
  rewrite in_app_iff, lookup_insert_is_Some, Hacc. simpl.
  destruct (decide (name = col)) as [->|Hne]; tauto.
Qed.

Lemma uniq_keys_fold (l : list (string * column)) (acc : detected) :
  (forall col, is_Some (uniq acc !! col) <-> In col (categorical_cols acc)) ->
  forall col, is_Some (uniq (fold_left (detect_step parse_datetime) l acc) !! col) <->
              In col (categorical_cols (fold_left (detect_step parse_datetime) l acc)).
Proof.
  revert acc. induction l as [|entry l IH]; intros acc Hacc; simpl; [done|].
  apply IH. by apply uniq_keys_step.
Qed.

Lemma uniq_values_fold (l : list (string * column)) (acc : detected)
    (col : string) (vs : list scalar) :
  uniq (fold_left (detect_step parse_datetime) l acc) !! col = Some vs ->
  uniq acc !! col = Some vs \/
  exists c, In (col, c) l /\ classify parse_datetime col c = Some Categorical /\
            vs = sorted (unique_values_of c).
Proof.
  revert acc. induction l as [|[name c] l IH]; intros acc; simpl; [by left|].
  intros H. apply IH in H as [H|(c' & Hin & Hk & Hvs)].
  - unfold detect_step in H.
    destruct (classify parse_datetime name c) as [k|] eqn:Hk; [|by left].
    destruct k; cbn [uniq] in H; try by left.
    destruct (decide (name = col)) as [->|Hne].
    + rewrite lookup_insert_eq in H. injection H as <-.
      right. exists c. split; [by left|done].
    + rewrite lookup_insert_ne in H by done. by left.
  - right. exists c'. split; [by right|done].
Qed.

(** X2: [unique_values] has an entry for exactly the columns listed as
    categorical; each entry is the sorted list of the distinct non-missing
    values of a column of that name, and holds at most 100 values. *)
Theorem unique_values_recorded (df : DataFrame) :
  exists u,
    unique_values (attrs (detect_column_types_frame parse_datetime df)) = Some u /\
    (forall col, is_Some (u !! col) <-> classified parse_datetime df Categorical col) /\
    (forall col vs, u !! col = Some vs ->
       length vs <= 100 /\
       exists c, In (col, c) (series df) /\
                 classify parse_datetime col c = Some Categorical /\
                 vs = sorted (unique_values_of c)).
Proof.
  eexists. split; [reflexivity|]. split.
  - intros col. unfold detect_loop.
    rewrite (uniq_keys_fold (series df) detected_init) by (intros; simpl; by rewrite lookup_empty, is_Some_alt).
    unfold classified. simpl. split.
    + intros H. eexists. split; [done|]. by rewrite (column_types_dict_lookup Categorical).
    + intros (types & [= <-] & H). by rewrite (column_types_dict_lookup Categorical) in H.
  - intros col vs H. unfold detect_loop in H.
    apply uniq_values_fold in H as [H|(c & Hin & Hk & ->)].
    { simpl in H. by rewrite lookup_empty in H. }
    split; [|by exists c].
    rewrite sorted_length. fold (nunique c).
    assert (Hcat : is_categorical (nunique c) (length (dropna (cells_of c))) = true).
    { unfold classify in Hk. by repeat case_match. }
    unfold is_categorical in Hcat. apply orb_true_iff in Hcat as [Hcat|Hcat].
    + apply Nat.leb_le in Hcat. lia.
    + apply andb_true_iff in Hcat as [_ Hcat]. by apply Nat.leb_le in Hcat.
Qed.

(** X3: with distinct column names, a column listed as Categorical has at
    most 50 distinct values, or at most 100 that are at most a fifth of its
    non-missing cells; a column listed as Text has more than 50 distinct
    values, and more than 100 or more than a fifth of its non-missing
    cells. *)
Theorem threshold_in_whole_numbers (df : DataFrame) (col : string) (c : column) :
  NoDup (columns_of df) -> In (col, c) (series df) ->
  (classified parse_datetime df Categorical col ->
   nunique c <= 50 \/
   (5 * nunique c <= length (dropna (cells_of c)) /\ nunique c <= 100)) /\
  (classified parse_datetime df Text col ->
   50 < nunique c /\
   (length (dropna (cells_of c)) < 5 * nunique c \/ 100 < nunique c)).
Proof.
  intros Hnd Hin.
  split; intros Hk; apply (classified_unique _ df _ col c Hnd Hin) in Hk.
  - assert (Hcat : is_categorical (nunique c) (length (dropna (cells_of c))) = true).
    { unfold classify in Hk. by repeat case_match. }
    by apply (is_categorical_spec _ _ (nunique_le_total c)).
  - assert (Hcat : is_categorical (nunique c) (length (dropna (cells_of c))) = false).
    { unfold classify in Hk. by repeat case_match. }
    apply not_true_iff_false in Hcat.
    rewrite (is_categorical_spec _ _ (nunique_le_total c)) in Hcat. lia.
Qed.

(** X4: a second [detect_column_types] on the same object changes nothing:
    the schema depends on the row labels and columns only, which the first
    call leaves as they are. *)
Theorem detect_column_types_idempotent (l : loc) (h : store) :
  detect_column_types parse_datetime l (detect_column_types parse_datetime l h).2 =
  (Ok tt, (detect_column_types parse_datetime l h).2).
Proof.
  unfold detect_column_types. cbn [snd]. f_equal.
  destruct (decide (l < length h)) as [Hlt|Hge].
  - rewrite list_lookup_total_insert_eq by done.
    by rewrite list_insert_insert_eq.
  - rewrite (list_insert_ge h) by lia. by rewrite list_insert_ge by lia.
Qed.

End ClassifierExtras.

Lemma classification_partition_witness :
  (forall k, ~ classified iso_datetime
                 {| index := [0; 1];
                    series := [("Team", ObjCol [Some "a"; Some "b"]);
                               ("Notes", ObjCol [None; None])];
                    attrs := no_attrs |} k "Notes") /\
  (exists k, classified iso_datetime
               {| index := [0; 1];
                  series := [("Team", ObjCol [Some "a"; Some "b"]);
                             ("Notes", ObjCol [None; None])];
                  attrs := no_attrs |} k "Team").
Proof.
  assert (Hnd : NoDup ["Team"; "Notes"]).
  { apply NoDup_ListNoDup. repeat constructor; simpl; intuition discriminate. }
  split.
  - apply (proj2 (classification_partition iso_datetime
                    {| index := [0; 1];
                       series := [("Team", ObjCol [Some "a"; Some "b"]);
                                  ("Notes", ObjCol [None; None])];
                       attrs := no_attrs |}) Hnd "Notes" (ObjCol [None; None])).
    + simpl. right. by left.
    + reflexivity.
  - destruct (proj2 (proj2 (classification_partition iso_datetime
                    {| index := [0; 1];
                       series := [("Team", ObjCol [Some "a"; Some "b"]);
                                  ("Notes", ObjCol [None; None])];
                       attrs := no_attrs |}) Hnd "Team" (ObjCol [Some "a"; Some "b"])
                       ltac:(simpl; by left)) eq_refl) as (k & Hk & _).
    by exists k.
Defined.

Lemma threshold_in_whole_numbers_witness :
  50 < nunique (cycle_column 51) /\
  (length (dropna (cells_of (cycle_column 51))) < 5 * nunique (cycle_column 51) \/
   100 < nunique (cycle_column 51)).
Proof.
  apply (proj2 (threshold_in_whole_numbers iso_datetime threshold_frame
                  "Remark" (cycle_column 51)
                  ltac:(apply NoDup_ListNoDup; repeat constructor; simpl;
                        intuition discriminate)
                  ltac:(simpl; right; by left))).
  apply classified_iff. exists (cycle_column 51). split; [|reflexivity].
  simpl. right. by left.
Defined.

(** ** Further properties of filtering *)

Lemma mask_rows_sublist {A} (mask : list bool) (l : list A) :
  sublist (mask_rows mask l) l.
Proof.
  revert l. induction mask as [|b mask IH]; intros [|x l]; simpl;
    try apply sublist_nil_l.
  destruct b; [by apply sublist_skip | by apply sublist_cons].
Qed.

Lemma mask_rows_length {A B} (mask : list bool) (l : list A) (k : list B) :
  length l = length k -> length (mask_rows mask l) = length (mask_rows mask k).
Proof.
  revert l k. induction mask as [|b mask IH]; intros [|x l] [|y k]; simpl; try done.
  intros [= H]. destruct b; simpl; by rewrite (IH l k H).
Qed.

Lemma mask_rows_zip (mask a b : list bool) :
  mask_rows mask (zip_with andb a b) =
  zip_with andb (mask_rows mask a) (mask_rows mask b).
Proof.
  revert a b. induction mask as [|m mask IH]; intros [|x a] [|y b]; simpl; try done.
  - by destruct m; simpl; rewrite ?zip_with_nil_r.
  - destruct m; simpl; by rewrite IH.
Qed.

Lemma mask_rows_replicate {A B} (mask : list bool) (l : list A) (x : B) :
  mask_rows mask (replicate (length l) x) = replicate (length (mask_rows mask l)) x.
Proof.
  revert l. induction mask as [|m mask IH]; intros [|y l]; simpl; try done.
  destruct m; simpl; by rewrite IH.
Qed.

Lemma zip_andb_swap (k a b : list bool) :
  zip_with andb (zip_with andb k a) b = zip_with andb (zip_with andb k b) a.
Proof.
  revert a b. induction k as [|x k IH]; intros [|y a] [|z b]; simpl; try done.
  f_equal; [by destruct x, y, z | apply IH].
Qed.

Lemma zip_andb_assoc (a b c : list bool) :
  zip_with andb (zip_with andb a b) c = zip_with andb a (zip_with andb b c).
Proof.
  revert b c. induction a as [|x a IH]; intros [|y b] [|z c]; simpl; try done.
  f_equal; [by destruct x, y, z | apply IH].
Qed.

Lemma fold_zip_andb_permutation (ms ms' : list (list bool)) :
  Permutation ms ms' ->
  forall k, fold_left (zip_with andb) ms k = fold_left (zip_with andb) ms' k.
Proof.
  induction 1 as [|m ms ms' _ IH|m1 m2 ms|ms1 ms2 ms3 _ IH1 _ IH2]; intros k; simpl.
  - done.
  - apply IH.
  - by rewrite zip_andb_swap.
  - by rewrite IH1, IH2.
Qed.

Lemma fold_zip_andb_mask (mask : list bool) (ms : list (list bool)) (k : list bool) :
  fold_left (zip_with andb) (map (mask_rows mask) ms) (mask_rows mask k) =
  mask_rows mask (fold_left (zip_with andb) ms k).
Proof.
  revert k. induction ms as [|m ms IH]; intros k; simpl; [done|].
  by rewrite <- mask_rows_zip, IH.
Qed.

Lemma fold_zip_andb_left (a : list bool) (ms : list (list bool)) (k : list bool) :
  fold_left (zip_with andb) ms (zip_with andb a k) =
  zip_with andb a (fold_left (zip_with andb) ms k).
Proof.
  revert k. induction ms as [|m ms IH]; intros k; simpl; [done|].
  by rewrite zip_andb_assoc, IH.
Qed.

Lemma fold_zip_andb_length (ms : list (list bool)) (k : list bool) :
  length (fold_left (zip_with andb) ms k) <= length k.
Proof.
  revert k. induction ms as [|m ms IH]; intros k; simpl; [lia|].
  etrans; [apply IH|]. rewrite length_zip_with. lia.
Qed.

Lemma zip_andb_all (n : nat) (a : list bool) :
  length a <= n -> zip_with andb a (replicate n true) = a.
Proof.
  revert a. induction n as [|n IH]; intros [|x a]; simpl; try done; [lia|].
  intros H. rewrite IH by lia. by rewrite andb_true_r.
Qed.

Lemma substring_whole (s : string) : substring 0 (String.length s) s = s.
Proof. induction s as [|x s IH]; simpl; [done|]. by rewrite IH. Qed.

Lemma length_append_string (s t : string) :
  String.length (s +:+ t) = String.length s + String.length t.
Proof. induction s as [|x s IH]; simpl; [done|]. by rewrite IH. Qed.

Lemma substring_append_tail (s t : string) :
  substring (String.length s) (String.length t) (s +:+ t) = t.
Proof. induction s as [|x s IH]; simpl; [apply substring_whole|done]. Qed.

Lemma substring_append_head (s t : string) :
  substring 0 (String.length s) (s +:+ t) = s.
Proof.
  induction s as [|x s IH]; simpl; [by destruct t|]. by rewrite IH.
Qed.

Lemma endswith_append (s suf : string) : endswith (s +:+ suf) suf = true.
Proof.
  unfold endswith. rewrite length_append_string.
  replace (String.length s + String.length suf - String.length suf)
    with (String.length s) by lia.
  rewrite substring_append_tail, String.eqb_refl, andb_true_r.
  apply Nat.leb_le. lia.
Qed.

Lemma drop_last_append (s suf : string) :
  drop_last (String.length suf) (s +:+ suf) = s.
Proof.
  unfold drop_last. rewrite length_append_string.
  replace (String.length s + String.length suf - String.length suf)
    with (String.length s) by lia.
  apply substring_append_head.
Qed.

Section FilteringExtras.

Context (parse_datetime : string -> option Z).

(** X5: the keys [generate_dynamic_filters] writes for a range are read
    back by the loop of [apply_filters] as bounds on the very column: for
    every column name [col], the key [col_min] is the bound [>=] on [col],
    [col_max] the bound [<=], [col_start] the bound [>=] and [col_end] the
    bound [<=], whatever [col] itself ends with. *)
Theorem range_keys_round_trip (col : string) (value : scalar) (filtered_data : loc) :
  filter_step parse_datetime filtered_data (col +:+ "_min", value) =
    filter_ord parse_datetime Ge filtered_data col value /\
  filter_step parse_datetime filtered_data (col +:+ "_max", value) =
    filter_ord parse_datetime Le filtered_data col value /\
  filter_step parse_datetime filtered_data (col +:+ "_start", value) =
    filter_ord parse_datetime Ge filtered_data col value /\
  filter_step parse_datetime filtered_data (col +:+ "_end", value) =
    filter_ord parse_datetime Le filtered_data col value.
Proof.
  unfold filter_step.
  pose proof (endswith_append col "_min") as Hmin.
  pose proof (endswith_append col "_max") as Hmax.
  pose proof (endswith_append col "_start") as Hstart.
  pose proof (endswith_append col "_end") as Hend.
  assert (Dmin : drop_last 4 (col +:+ "_min") = col)
    by apply (drop_last_append col "_min").
  assert (Dmax : drop_last 4 (col +:+ "_max") = col)
    by apply (drop_last_append col "_max").
  assert (Dstart : drop_last 6 (col +:+ "_start") = col)
    by apply (drop_last_append col "_start").
  assert (Dend : drop_last 4 (col +:+ "_end") = col)
    by apply (drop_last_append col "_end").
  repeat split.
  - by rewrite Hmin, Dmin.
  - rewrite (endswith_other _ "_max" "_min" Hmax) by (simpl; lia).
    by rewrite Hmax, Dmax.
  - rewrite (endswith_other _ "_start" "_min" Hstart) by (simpl; lia).
    rewrite (endswith_other _ "_start" "_max" Hstart) by (simpl; lia).
    by rewrite Hstart, Dstart.
  - rewrite (endswith_other _ "_end" "_min" Hend) by (simpl; lia).
    rewrite (endswith_other _ "_end" "_max" Hend) by (simpl; lia).
    destruct (endswith (col +:+ "_end") "_start") eqn:Hs.
    + rewrite (endswith_other _ "_start" "_end" Hs) in Hend by (simpl; lia).
      discriminate Hend.
    + by rewrite Hend, Dend.
Qed.

(** *** The shape of the result *)

Lemma narrows_refl (df : DataFrame) : narrows df df.
Proof. by repeat split. Qed.

Lemma narrows_trans (d1 d2 d3 : DataFrame) :
  narrows d1 d2 -> narrows d2 d3 -> narrows d1 d3.
Proof.
  intros (Ht & Ha & Hi & Hw) (Ht' & Ha' & Hi' & Hw'). repeat split.
  - congruence.
  - congruence.
  - by etrans.
  - tauto.
Qed.

Lemma narrows_select_rows (mask : list bool) (df : DataFrame) :
  narrows df (select_rows mask df).
Proof.
  repeat split.
  - unfold dtypes, select_rows. simpl. rewrite map_map. apply map_ext.
    intros [name c]. by destruct c.
  - apply mask_rows_sublist.
  - unfold well_formed, select_rows. simpl. intros Hwf.
    apply Forall_forall. intros [name c] Hin.
    apply list_elem_of_In, in_map_iff in Hin as ([name' c'] & [= <- <-] & Hin).
    rewrite Forall_forall in Hwf. apply list_elem_of_In in Hin.
    specialize (Hwf _ Hin). simpl in *. unfold col_len in *.
    destruct c'; simpl in *; rewrite length_map in *; by apply mask_rows_length.
Qed.

Lemma filter_loop_narrows (items : list (string * scalar)) (fd r : loc) (h h' : store) :
  filter_loop parse_datetime items fd h = (Ok r, h') ->
  narrows (h !!! fd) (h' !!! r).
Proof.
  revert fd h. induction items as [|item items IH]; intros fd h; simpl.
  - intros [= -> ->]. apply narrows_refl.
  - unfold mbind, M_bind, bind. rewrite filter_step_run.
    destruct (selection_mask parse_datetime (h !!! fd) item) as [mask|e]; [|done].
    intros H. apply IH in H. rewrite list_lookup_total_middle in H by done.
    eapply narrows_trans; [apply narrows_select_rows|done].
Qed.

(** X6: whenever [apply_filters] returns a frame, it has the columns of
    the input under the same names and dtypes and the same [attrs], its row
    labels are a subsequence of the input's (no row is added, repeated or
    reordered), and it is row-aligned if the input is. *)
Theorem filtered_frame_shape (l r : loc) (filters : list (string * scalar))
    (h h' : store) :
  apply_filters parse_datetime (Some l) filters h = (Ok (Some r), h') ->
  dtypes (h' !!! r) = dtypes (h !!! l) /\
  attrs (h' !!! r) = attrs (h !!! l) /\
  sublist (index (h' !!! r)) (index (h !!! l)) /\
  (well_formed (h !!! l) -> well_formed (h' !!! r)).
Proof.
  rewrite apply_filters_run. intros H.
  change (narrows (h !!! l) (h' !!! r)).
  destruct filters as [|item filters].
  { injection H as <- <-. apply narrows_refl. }
  destruct (empty (h !!! l)).
  { injection H as <- <-. apply narrows_refl. }
  destruct (filter_loop parse_datetime (item :: filters) _ _) as [[r'|e] h1] eqn:Hloop;
    [|done].
  injection H as <- <-. apply filter_loop_narrows in Hloop.
  by rewrite list_lookup_total_middle in Hloop.
Qed.

(** *** Order and composition *)

Lemma applicable_masks (df : DataFrame) (filters : list (string * scalar)) :
  Forall (applicable parse_datetime df) filters ->
  Forall2 (fun item m => selection_mask parse_datetime df item = Ok m)
    filters (map (mask_of parse_datetime df) filters).
Proof.
  induction 1 as [|item filters [m Hm] _ IH]; simpl; constructor; [|done].
  unfold mask_of. by rewrite Hm.
Qed.

(** X7: the order of the selections does not matter: for selections that
    are all applicable to a row-aligned frame, [apply_filters] returns a
    frame with the same content for every reordering of the dictionary. *)
Theorem selection_order_irrelevant (h : store) (l : loc)
    (filters filters' : list (string * scalar)) :
  well_formed (h !!! l) ->
  Forall (applicable parse_datetime (h !!! l)) filters ->
  Permutation filters filters' ->
  exists r1 h1 r2 h2,
    apply_filters parse_datetime (Some l) filters h = (Ok (Some r1), h1) /\
    apply_filters parse_datetime (Some l) filters' h = (Ok (Some r2), h2) /\
    h1 !!! r1 = h2 !!! r2.
Proof.
  intros Hwf Happ Hperm.
  assert (Happ' : Forall (applicable parse_datetime (h !!! l)) filters')
    by (by rewrite <- Hperm).
  destruct (apply_filters_conjunction parse_datetime h l filters _ Hwf
              (applicable_masks _ _ Happ)) as (r1 & h1 & Hrun1 & Hres1).
  destruct (apply_filters_conjunction parse_datetime h l filters' _ Hwf
              (applicable_masks _ _ Happ')) as (r2 & h2 & Hrun2 & Hres2).
  exists r1, h1, r2, h2. split; [done|]. split; [done|].
  rewrite Hres1, Hres2. unfold all_hold. f_equal.
  apply fold_zip_andb_permutation. by apply Permutation_map.
Qed.

(** X8: filtering in two steps is filtering once: for selections that are
    all applicable to a row-aligned frame, applying [filters2] to the result
    of [filters1] gives a frame with the content of the result of the two
    dictionaries together. *)
Theorem filtering_composes (h : store) (l : loc)
    (filters1 filters2 : list (string * scalar)) :
  well_formed (h !!! l) ->
  Forall (applicable parse_datetime (h !!! l)) (filters1 ++ filters2) ->
  exists r1 h1 r2 h2 r h',
    apply_filters parse_datetime (Some l) filters1 h = (Ok (Some r1), h1) /\
    apply_filters parse_datetime (Some r1) filters2 h1 = (Ok (Some r2), h2) /\
    apply_filters parse_datetime (Some l) (filters1 ++ filters2) h = (Ok (Some r), h') /\
    h2 !!! r2 = h' !!! r.
Proof.
  intros Hwf Happ. pose proof Happ as [Happ1 Happ2]%Forall_app.
  set (df := h !!! l) in *.
  set (n := length (index df)).
  set (ms1 := map (mask_of parse_datetime df) filters1).
  set (ms2 := map (mask_of parse_datetime df) filters2).
  destruct (apply_filters_conjunction parse_datetime h l filters1 _ Hwf
              (applicable_masks _ _ Happ1)) as (r1 & h1 & Hrun1 & Hres1).
  fold df n ms1 in Hres1.
  assert (Hwf1 : well_formed (h1 !!! r1)).
  { rewrite Hres1. by apply narrows_select_rows. }
  assert (Hms2 : Forall2 (fun item m => selection_mask parse_datetime (h1 !!! r1) item = Ok m)
                   filters2 (map (mask_rows (all_hold n ms1)) ms2)).
  { rewrite Hres1. unfold ms2. clear -Happ2.
    induction Happ2 as [|item filters [m Hm] _ IH]; simpl; constructor; [|done].
    unfold mask_of. rewrite Hm. by apply selection_mask_select. }
  destruct (apply_filters_conjunction parse_datetime h1 r1 filters2 _ Hwf1 Hms2)
    as (r2 & h2 & Hrun2 & Hres2).
  destruct (apply_filters_conjunction parse_datetime h l (filters1 ++ filters2) _ Hwf
              (applicable_masks _ _ Happ)) as (r & h' & Hrun & Hres).
  fold df n in Hres. rewrite map_app in Hres. fold ms1 ms2 in Hres.
  exists r1, h1, r2, h2, r, h'. repeat split; try done.
  rewrite Hres2, Hres, Hres1. unfold all_hold.
  change (index (select_rows ?m df)) with (mask_rows m (index df)).
  rewrite <- mask_rows_replicate. fold n.
  rewrite fold_zip_andb_mask, select_rows_twice. f_equal.
  rewrite fold_left_app.
  rewrite <- (zip_andb_all n (fold_left (zip_with andb) ms1 (replicate n true))) at 2.
  - by rewrite fold_zip_andb_left.
  - etrans; [apply fold_zip_andb_length|]. by rewrite length_replicate.
Qed.

(** *** Missing values *)

Lemma cells_of_mask_col (mask : list bool) (c : column) :
  cells_of (mask_col mask c) = mask_rows mask (cells_of c).
Proof. destruct c; simpl; by rewrite mask_rows_map. Qed.

Lemma mask_rows_Forall {A} (P : A -> Prop) (mask : list bool) (l : list A) :
  Forall P l -> Forall P (mask_rows mask l).
Proof.
  intros H. revert mask. induction H as [|x l Hx _ IH]; intros [|b mask]; simpl;
    try constructor.
  destruct b; [by constructor | apply IH].
Qed.

Lemma all_present_mask (mask : list bool) (c : column) :
  all_present c -> all_present (mask_col mask c).
Proof.
  unfold all_present. rewrite cells_of_mask_col. apply mask_rows_Forall.
Qed.

Lemma mask_rows_passed {A} (test : A -> bool) (l : list (option A)) :
  Forall (fun x => x <> None) (mask_rows (cmp_cells test l) l).
Proof.
  induction l as [|[a|] l IH]; simpl; [constructor| |done].
  destruct (test a); [by constructor|done].
Qed.

Lemma mask_rows_none_pass {A B} (l : list A) (k : list B) :
  mask_rows (map (fun _ => false) l) k = [].
Proof. revert k. induction l as [|x l IH]; intros [|y k]; simpl; done. Qed.

Lemma all_present_cells {A} (f : A -> scalar) (l : list (option A)) :
  Forall (fun x => x <> None) l -> Forall (fun x => x <> None) (map (option_map f) l).
Proof.
  induction 1 as [|[a|] l Hx _ IH]; simpl; constructor; done.
Qed.

Lemma series_ord_drops_missing (op : ord_op) (c : column) (value : scalar)
    (mask : list bool) :
  series_ord parse_datetime op c value = Ok mask -> all_present (mask_col mask c).
Proof.
  unfold all_present.
  destruct c as [l|l|l], value as [q|s|t]; simpl; try done;
    try (intros [= <-]; apply all_present_cells, mask_rows_passed).
  - destruct (all_missing l); [|done]. intros [= <-].
    rewrite mask_rows_none_pass. constructor.
  - destruct (all_missing l); [|done]. intros [= <-].
    rewrite mask_rows_none_pass. constructor.
  - destruct (parse_datetime s); [|done]. intros [= <-].
    apply all_present_cells, mask_rows_passed.
Qed.

Lemma series_eq_drops_missing (c : column) (value : scalar) :
  all_present (mask_col (series_eq parse_datetime c value) c).
Proof.
  unfold all_present.
  destruct c as [l|l|l], value as [q|s|t]; simpl;
    rewrite ?length_map, ?mask_rows_none_pass;
    try constructor; try (apply all_present_cells, mask_rows_passed).
  destruct (parse_datetime s).
  - apply all_present_cells, mask_rows_passed.
  - rewrite mask_rows_none_pass. constructor.
Qed.

Lemma selection_drops_missing (df : DataFrame) (item : string * scalar)
    (mask : list bool) (c : column) :
  selection_mask parse_datetime df item = Ok mask ->
  find_col (series df) (target_column item.1) = Some c ->
  all_present (mask_col mask c).
Proof.
  unfold selection_mask, getitem. intros H Hc. rewrite Hc in H.
  destruct (selection_rel item.1) as [op|].
  - by eapply series_ord_drops_missing.
  - injection H as <-. apply series_eq_drops_missing.
Qed.

Lemma filter_loop_drops_missing (items seen : list (string * scalar))
    (fd r : loc) (h h' : store) :
  filter_loop parse_datetime items fd h = (Ok r, h') ->
  (forall item c, In item seen ->
     find_col (series (h !!! fd)) (target_column item.1) = Some c -> all_present c) ->
  forall item c, In item (seen ++ items) ->
    find_col (series (h' !!! r)) (target_column item.1) = Some c -> all_present c.
Proof.
  revert seen fd h. induction items as [|next items IH]; intros seen fd h; simpl.
  - intros [= -> ->] Hseen item c. rewrite app_nil_r. apply Hseen.
  - unfold mbind, M_bind, bind. rewrite filter_step_run.
    destruct (selection_mask parse_datetime (h !!! fd) next) as [mask|e] eqn:Hmask;
      [|done].
    intros Hloop Hseen item c Hin.
    apply (IH (seen ++ [next]) _ _ Hloop); [|by rewrite <- app_assoc].
    clear item c Hin. intros item c Hin.
    rewrite list_lookup_total_middle by done. rewrite find_col_select_rows.
    destruct (find_col (series (h !!! fd)) (target_column item.1)) as [c0|] eqn:Hc0;
      [|done].
    intros [= <-]. apply in_app_iff in Hin as [Hin|[<-|[]]].
    + apply all_present_mask. by eapply Hseen.
    + by eapply selection_drops_missing.
Qed.

(** X9: a row with a missing value in a filtered column never survives:
    when [apply_filters] returns from filtering a frame that is not empty,
    the column of every selection has no missing cell in the result. *)
Theorem filtered_columns_have_no_missing (l r : loc) (filters : list (string * scalar))
    (h h' : store) (key : string) (value : scalar) (c : column) :
  apply_filters parse_datetime (Some l) filters h = (Ok (Some r), h') ->
  empty (h !!! l) = false ->
  In (key, value) filters ->
  find_col (series (h' !!! r)) (target_column key) = Some c ->
  all_present c.
Proof.
  rewrite apply_filters_run. intros H Hempty Hin Hc. rewrite Hempty in H.
  destruct filters as [|item filters]; [destruct Hin|].
  destruct (filter_loop parse_datetime (item :: filters) _ _) as [[r'|e] h1] eqn:Hloop;
    [|done].
  injection H as <- <-.
  by apply (filter_loop_drops_missing (item :: filters) [] _ _ _ _ Hloop
              ltac:(intros ? ? []) (key, value) c).
Qed.

End FilteringExtras.

Lemma filtered_frame_shape_witness :
  dtypes ((apply_filters iso_datetime (Some 0) [("Amount_min", SNum 100%Q)]
             [spend_frame]).2 !!! 2) =
    [("Category", Object); ("Amount", Float64); ("Amount_min", Float64)] /\
  sublist (index ((apply_filters iso_datetime (Some 0) [("Amount_min", SNum 100%Q)]
                     [spend_frame]).2 !!! 2)) [0; 1; 2; 3].
Proof.
  pose proof (filtered_frame_shape iso_datetime 0 2 [("Amount_min", SNum 100%Q)]
                [spend_frame]
                (apply_filters iso_datetime (Some 0) [("Amount_min", SNum 100%Q)]
                   [spend_frame]).2 eq_refl) as (Hd & _ & Hi & _).
  split; [exact Hd | exact Hi].
Defined.

Lemma selection_order_witness :
  exists r1 h1 r2 h2,
    apply_filters iso_datetime (Some 0)
      [("Category", SStr "A"); ("Amount_min", SNum 100%Q)] [spend_frame]
    = (Ok (Some r1), h1) /\
    apply_filters iso_datetime (Some 0)
      [("Amount_min", SNum 100%Q); ("Category", SStr "A")] [spend_frame]
    = (Ok (Some r2), h2) /\
    h1 !!! r1 = h2 !!! r2.
Proof.
  apply (selection_order_irrelevant iso_datetime [spend_frame] 0).
  - repeat constructor.
  - repeat constructor; eexists; reflexivity.
  - apply perm_swap.
Defined.

Lemma filtering_composes_witness :
  exists r1 h1 r2 h2 r h',
    apply_filters iso_datetime (Some 0) [("Category", SStr "A")] [spend_frame]
    = (Ok (Some r1), h1) /\
    apply_filters iso_datetime (Some r1) [("Amount_min", SNum 100%Q)] h1
    = (Ok (Some r2), h2) /\
    apply_filters iso_datetime (Some 0)
      ([("Category", SStr "A")] ++ [("Amount_min", SNum 100%Q)]) [spend_frame]
    = (Ok (Some r), h') /\
    h2 !!! r2 = h' !!! r.
Proof.
  apply (filtering_composes iso_datetime [spend_frame] 0).
  - repeat constructor.
  - repeat constructor; eexists; reflexivity.
Defined.

Lemma no_missing_witness :
  all_present (ObjCol [Some "A"; Some "A"]).
Proof.
  apply (filtered_columns_have_no_missing iso_datetime 0 2
           [("Category", SStr "A")] [spend_frame]
           (apply_filters iso_datetime (Some 0) [("Category", SStr "A")] [spend_frame]).2
           "Category" (SStr "A")); try reflexivity.
  simpl. by left.
Defined.

(** ** Further properties of the synthesizer *)

Lemma excluded_false_In (l : list string) (col : string) :
  excluded (Some l) col = false -> In col l.
Proof.
  unfold excluded. intros H. apply negb_false_iff, existsb_exists in H as (x & Hin & Hx).
  by apply String.eqb_eq in Hx as ->.
Qed.

Section SynthesisExtras.

Context (parse_datetime : string -> option Z)
        (parse_float : string -> option (option Q)) (st : Streamlit).

Lemma categorical_loop_eligible (data : DataFrame) (stored : gmap string (list scalar))
    (columns : option (list string)) (max_filters : Z) (cols : list string) (s : gen_state) :
  exists cs, sublist cs (eligible columns cols) /\
    views (trace (categorical_loop st data stored columns max_filters cols s).1) =
    views (trace s) ++ enum_specs cs.
Proof.
  revert s. induction cols as [|col cols IH]; intros s; simpl.
  { exists []. split; [constructor|]. by rewrite app_nil_r. }
  destruct (excluded columns col) eqn:Hex; simpl; [apply IH|].
  assert (Hstop : exists cs, sublist cs (col :: eligible columns cols) /\
            views (trace s) = views (trace s) ++ enum_specs cs).
  { exists []. split; [apply sublist_nil_l|]. by rewrite app_nil_r. }
  destruct (max_filters <=? filter_count s)%Z; [done|].
  destruct (values_for data stored col) as [values|e]; [|done].
  destruct (length values <=? 100)%nat.
  - match goal with |- context [categorical_loop st data stored columns max_filters cols ?s'] =>
      destruct (IH s') as (cs & Hsub & Hcs) end.
    exists (col :: cs). split; [by apply sublist_skip|].
    rewrite Hcs. unfold add_selectbox. simpl. rewrite views_app. simpl.
    by rewrite <- app_assoc.
  - destruct (IH s) as (cs & Hsub & Hcs). exists cs. split; [by apply sublist_cons|done].
Qed.

Lemma date_loop_eligible (data : DataFrame) (columns : option (list string))
    (max_filters : Z) (cols : list string) (s : gen_state) :
  exists ds, sublist ds (eligible columns cols) /\
    views (trace (date_loop st data columns max_filters cols s)) =
    views (trace s) ++ date_specs ds.
Proof.
  revert s. induction cols as [|col cols IH]; intros s; simpl.
  { exists []. split; [constructor|]. by rewrite app_nil_r. }
  destruct (excluded columns col) eqn:Hex; simpl; [apply IH|].
  assert (Hnext : forall s', views (trace s') = views (trace s) ->
            exists ds, sublist ds (col :: eligible columns cols) /\
              views (trace (date_loop st data columns max_filters cols s')) =
              views (trace s) ++ date_specs ds).
  { intros s' Hs'. destruct (IH s') as (ds & Hsub & Hds).
    exists ds. split; [by apply sublist_cons|]. by rewrite Hds, Hs'. }
  destruct (max_filters <=? filter_count s)%Z.
  { exists []. split; [apply sublist_nil_l|]. by rewrite app_nil_r. }
  destruct (min_max_date data col) as [[min_date max_date]|].
  - destruct (negb (min_date =? max_date)%Z); [|by apply Hnext].
    match goal with |- context [date_loop st data columns max_filters cols ?s'] =>
      destruct (IH s') as (ds & Hsub & Hds) end.
    exists (col :: ds). split; [by apply sublist_skip|].
    rewrite Hds. simpl. rewrite views_app. simpl. by rewrite <- app_assoc.
  - apply Hnext. unfold log_error, log_write.
    destruct (min_max_nat data col); simpl; rewrite ?views_app; simpl;
      by rewrite ?app_nil_r.
Qed.

Lemma numeric_loop_eligible (data : DataFrame) (columns : option (list string))
    (max_filters : Z) (cols : list string) (s : gen_state) :
  exists ns, sublist ns (eligible columns cols) /\
    views (trace (numeric_loop parse_float st data columns max_filters cols s)) =
    views (trace s) ++ number_specs ns.
Proof.
  revert s. induction cols as [|col cols IH]; intros s; simpl.
  { exists []. split; [constructor|]. by rewrite app_nil_r. }
  destruct (excluded columns col) eqn:Hex; simpl; [apply IH|].
  assert (Hnext : forall s', views (trace s') = views (trace s) ->
            exists ns, sublist ns (col :: eligible columns cols) /\
              views (trace (numeric_loop parse_float st data columns max_filters cols s')) =
              views (trace s) ++ number_specs ns).
  { intros s' Hs'. destruct (IH s') as (ns & Hsub & Hns).
    exists ns. split; [by apply sublist_cons|]. by rewrite Hns, Hs'. }
  destruct (max_filters <=? filter_count s)%Z.
  { exists []. split; [apply sublist_nil_l|]. by rewrite app_nil_r. }
  destruct (min_max_float parse_float data col) as [[min_val max_val]|].
  - destruct (float_ne min_val max_val); [|by apply Hnext].
    destruct (slider st _ _ _ _ _ _) as [min_selected max_selected].
    match goal with
    | |- context [numeric_loop parse_float st data columns max_filters cols ?s'] =>
        destruct (IH s') as (ns & Hsub & Hns)
    end.
    exists (col :: ns). split; [by apply sublist_skip|].
    rewrite Hns. simpl. rewrite views_app. simpl. by rewrite <- app_assoc.
  - apply Hnext. unfold log_error. simpl. rewrite views_app. simpl.
    by rewrite app_nil_r.
Qed.

Lemma basic_loop_views (cols : list (string * column)) (s : gen_state) :
  exists cs, sublist cs (map fst cols) /\
    views (trace (basic_loop st cols s)) = views (trace s) ++ enum_specs cs.
Proof.
  revert s. induction cols as [|[col c] cols IH]; intros s; simpl.
  { exists []. split; [constructor|]. by rewrite app_nil_r. }
  destruct (length (sorted (unique_values_of c)) <=? 100)%nat.
  - match goal with |- context [basic_loop st cols ?s'] =>
      destruct (IH s') as (cs & Hsub & Hcs) end.
    exists (col :: cs). split; [by apply sublist_skip|].
    rewrite Hcs. unfold add_selectbox. simpl. rewrite views_app. simpl.
    by rewrite <- app_assoc.
  - destruct (IH s) as (cs & Hsub & Hcs). exists cs. split; [by apply sublist_cons|done].
Qed.

Lemma eligible_In (l cols : list string) (col : string) :
  In col (eligible (Some l) cols) -> In col l.
Proof.
  unfold eligible. intros [_ H]%filter_In.
  apply excluded_false_In. by apply negb_true_iff.
Qed.

Lemma specs_of_sublist (l : list string) (columns : list string)
    (f : string -> shape * string) (cs : list string) :
  (forall col, (f col).2 = selectbox_label col \/ (f col).2 = range_label col) ->
  sublist cs (eligible (Some columns) l) ->
  Forall (widget_of columns) (map f cs).
Proof.
  intros Hf Hsub. apply Forall_forall. intros v Hv.
  apply list_elem_of_In, in_map_iff in Hv as (col & <- & Hcol).
  exists col. split; [|apply Hf].
  apply (eligible_In columns l). apply list_elem_of_In.
  apply (sublist_subseteq _ _ Hsub). by apply list_elem_of_In.
Qed.

(** X10: when [columns] is given, every widget shown is the filter of a
    column of that list, on the schema path and on the fallback path. *)
Theorem widgets_only_for_listed_columns (data : option DataFrame)
    (columns : list string) (max_filters : Z) :
  Forall (widget_of columns)
    (views (generate_dynamic_filters parse_float st data (Some columns) max_filters).2).
Proof.
  unfold generate_dynamic_filters.
  destruct data as [df|]; [|constructor].
  destruct (empty df); [constructor|].
  destruct (column_types (attrs df)) as [types|].
  - destruct (categorical_loop_eligible df (default ∅ (unique_values (attrs df)))
                (Some columns) max_filters (get_list types "categorical") gen_init)
      as (cs & Hcs & Hc).
    destruct (categorical_loop st df _ (Some columns) max_filters _ gen_init)
      as [s1 [e|]]; simpl in *.
    + rewrite Hc. simpl. eapply specs_of_sublist; [|done]. intros; by left.
    + destruct (date_loop_eligible df (Some columns) max_filters
                  (get_list types "datetime") s1) as (ds & Hds & Hd).
      destruct (numeric_loop_eligible df (Some columns) max_filters
                  (get_list types "numeric")
                  (date_loop st df (Some columns) max_filters
                     (get_list types "datetime") s1)) as (ns & Hns & Hn).
      rewrite Hn, Hd, Hc. simpl. rewrite !Forall_app. repeat split.
      * eapply specs_of_sublist; [|done]. intros; by left.
      * eapply specs_of_sublist; [|done]. intros; by right.
      * eapply specs_of_sublist; [|done]. intros; by right.
  - simpl.
    destruct (basic_loop_views (py_take max_filters (cat_cols df (Some columns))) gen_init)
      as (cs & Hcs & Hc).
    rewrite Hc. simpl. apply Forall_forall. intros v Hv.
    apply list_elem_of_In, in_map_iff in Hv as (col & <- & Hcol).
    exists col. split; [|by left].
    apply list_elem_of_In, (sublist_subseteq _ _ Hcs), list_elem_of_In in Hcol.
    apply in_map_iff in Hcol as ([name c] & <- & Hin). simpl.
    assert (Hcat : In (name, c) (cat_cols df (Some columns))).
    { unfold py_take in Hin. apply list_elem_of_In in Hin.
      destruct (max_filters <? 0)%Z;
        apply (subseteq_take _ _ _) in Hin; by apply list_elem_of_In. }
    unfold cat_cols in Hcat. apply filter_In in Hcat as [_ Hlikely].
    unfold likely_categorical in Hlikely. apply andb_true_iff in Hlikely as [Hex _].
    apply excluded_false_In. by apply negb_true_iff.
Qed.

(** X11: a budget of zero shows nothing: on the schema path every loop
    stops at once for a budget of zero or less, and on the fallback path the
    slice [cat_cols[:0]] is empty; no widget is shown and the empty
    dictionary is returned. *)
Theorem no_budget_no_widget :
  (forall (df : DataFrame) (types : gmap string (list string))
          (columns : option (list string)) (max_filters : Z),
      column_types (attrs df) = Some types -> (max_filters <= 0)%Z ->
      generate_dynamic_filters parse_float st (Some df) columns max_filters = (Ok [], [])) /\
  (forall (data : option DataFrame) (columns : option (list string)),
      generate_dynamic_filters parse_float st data columns 0 = (Ok [], [])).
Proof.
  assert (Hschema : forall df types columns max_filters,
            column_types (attrs df) = Some types -> (max_filters <= 0)%Z ->
            generate_dynamic_filters parse_float st (Some df) columns max_filters
            = (Ok [], [])).
  { intros df types columns max_filters Htypes Hmax. unfold generate_dynamic_filters.
    destruct (empty df); [done|]. rewrite Htypes.
    rewrite categorical_loop_full by (simpl; lia).
    rewrite date_loop_full by (simpl; lia).
    by rewrite numeric_loop_full by (simpl; lia). }
  split; [exact Hschema|].
  intros [df|] columns; [|done].
  destruct (column_types (attrs df)) as [types|] eqn:Htypes.
  - by apply (Hschema df types).
  - unfold generate_dynamic_filters. rewrite Htypes. by destruct (empty df).
Qed.

(** *** After [detect_column_types] *)

Lemma detected_values_stored (df : DataFrame) (col : string) :
  In col (categorical_cols (detect_loop parse_datetime df)) ->
  exists vs, uniq (detect_loop parse_datetime df) !! col = Some vs /\ length vs <= 100.
Proof.
  intros Hin. unfold detect_loop in *.
  apply (uniq_keys_fold parse_datetime (series df) detected_init) in Hin as [vs Hvs].
  2: { intros c. simpl. rewrite lookup_empty. split; [by intros [? ?]|done]. }
  exists vs. split; [done|].
  apply uniq_values_fold in Hvs as [Hvs|(c & _ & Hk & ->)].
  { simpl in Hvs. by rewrite lookup_empty in Hvs. }
  assert (Hcat : is_categorical (nunique c) (length (dropna (cells_of c))) = true).
  { unfold classify in Hk. by repeat case_match. }
  rewrite sorted_length. fold (nunique c).
  unfold is_categorical in Hcat. apply orb_true_iff in Hcat as [Hcat|Hcat].
  - apply Nat.leb_le in Hcat. lia.
  - apply andb_true_iff in Hcat as [_ Hcat]. by apply Nat.leb_le in Hcat.
Qed.

Lemma categorical_loop_exact (data : DataFrame) (stored : gmap string (list scalar))
    (columns : option (list string)) (max_filters : Z) (cols : list string) (s : gen_state) :
  (forall col, In col cols -> exists vs, stored !! col = Some vs /\ length vs <= 100) ->
  exists s',
    categorical_loop st data stored columns max_filters cols s = (s', None) /\
    views (trace s') =
    views (trace s) ++
    enum_specs (take (Z.to_nat (max_filters - filter_count s)) (eligible columns cols)).
Proof.
  revert s. induction cols as [|col cols IH]; intros s Hstored.
  { exists s. split; [done|]. unfold eligible. simpl. rewrite take_nil.
    by rewrite app_nil_r. }
  assert (Hrest : forall c, In c cols ->
            exists vs, stored !! c = Some vs /\ length vs <= 100).
  { intros c Hc. apply Hstored. by right. }
  simpl. unfold eligible. simpl.
  destruct (excluded columns col) eqn:Hex; simpl; [by apply IH|].
  destruct (Z.leb_spec max_filters (filter_count s)) as [Hfull|Hroom].
  { exists s. split; [done|].
    replace (Z.to_nat (max_filters - filter_count s)) with 0 by lia.
    by rewrite app_nil_r. }
  destruct (Hstored col (or_introl eq_refl)) as (vs & Hvs & Hlen).
  unfold values_for. rewrite Hvs.
  destruct (Nat.leb_spec (length vs) 100); [|lia].
  match goal with |- context [categorical_loop st data stored columns max_filters cols ?s'] =>
    destruct (IH s' Hrest) as (s'' & Hrun & Hviews) end.
  exists s''. split; [done|]. rewrite Hviews.
  unfold add_selectbox. simpl. rewrite views_app. simpl.
  replace (Z.to_nat (max_filters - filter_count s))
    with (S (Z.to_nat (max_filters - (filter_count s + 1)))) by lia.
  simpl. by rewrite <- app_assoc.
Qed.

(** X12: on a frame classified by [detect_column_types] the synthesizer
    never raises and never skips a categorical column: it shows the select
    boxes of the first [max_filters] categorical columns that [columns]
    allows, in column order, then sliders for some of the columns listed as
    numeric; it shows no date input, and nothing for the columns listed as
    date, monetary, identifier or text. *)
Theorem classified_frame_widgets (df : DataFrame) (columns : option (list string))
    (max_filters : Z) :
  empty df = false ->
  exists filters ns,
    (generate_dynamic_filters parse_float st
       (Some (detect_column_types_frame parse_datetime df)) columns max_filters).1
    = Ok filters /\
    sublist ns (eligible columns (cols_of_kind Numeric (detect_loop parse_datetime df))) /\
    views (generate_dynamic_filters parse_float st
             (Some (detect_column_types_frame parse_datetime df)) columns max_filters).2
    = enum_specs (take (Z.to_nat max_filters)
                    (eligible columns
                       (cols_of_kind Categorical (detect_loop parse_datetime df))))
      ++ number_specs ns.
Proof.
  intros Hempty. unfold generate_dynamic_filters.
  change (empty (detect_column_types_frame parse_datetime df)) with (empty df).
  rewrite Hempty. cbn [detect_column_types_frame attrs column_types unique_values].
  change (get_list (column_types_dict ?d) "categorical") with (categorical_cols d).
  change (get_list (column_types_dict ?d) "datetime") with (@nil string).
  change (get_list (column_types_dict ?d) "numeric") with (numeric_cols d).
  cbn [default from_option id date_loop cols_of_kind].
  match goal with |- context [categorical_loop st ?d ?m columns max_filters ?cs gen_init] =>
    destruct (categorical_loop_exact d m columns max_filters cs gen_init)
      as (s1 & Hrun & Hviews) end.
  { intros col. apply detected_values_stored. }
  rewrite Hrun.
  match goal with |- context [numeric_loop parse_float st ?d columns max_filters ?cs s1] =>
    destruct (numeric_loop_eligible d columns max_filters cs s1) as (ns & Hns & Hn) end.
  eexists _, ns. split; [reflexivity|]. split; [done|].
  cbn [snd]. rewrite Hn, Hviews. simpl. by rewrite Z.sub_0_r.
Qed.

End SynthesisExtras.

Lemma no_budget_witness :
  generate_dynamic_filters decimal_float st_choosy (Some schema_frame) None (-2) = (Ok [], []).
Proof.
  apply (proj1 (no_budget_no_widget decimal_float st_choosy) schema_frame
           (<["categorical" := ["Region"; "Status"]]>
            (<["datetime" := ["Signed"]]> (<["numeric" := ["Score"]]> ∅)))).
  - reflexivity.
  - lia.
Defined.

Lemma classified_frame_witness :
  exists filters ns,
    scenario_run.1 = Ok filters /\
    sublist ns [] /\
    views scenario_run.2 = enum_specs ["Supplier"; "Category"] ++ number_specs ns.
Proof.
  destruct (classified_frame_widgets iso_datetime decimal_float st_default
              scenario None 3 eq_refl) as (filters & ns & Hout & Hns & Hviews).
  exists filters, ns. split; [exact Hout|]. split; [|exact Hviews].
  revert Hns. vm_compute. exact id.
Defined.

Lemma target_column_plain (key : string) :
  selection_rel key = None -> target_column key = key.
Proof.
  unfold selection_rel, target_column.
  destruct (endswith key "_min"), (endswith key "_start"),
    (endswith key "_max"), (endswith key "_end"); simpl; congruence.
Qed.

Lemma endswith_not_start (col suf : string) :
  String.length suf <= 6 -> endswith "_start" suf = false ->
  endswith (col +:+ suf) "_start" = false.
Proof.
  intros Hlen Hsuf. destruct (endswith (col +:+ suf) "_start") eqn:H; [|done].
  rewrite <- (endswith_other _ _ suf H Hlen) in Hsuf.
  by rewrite endswith_append in Hsuf.
Qed.

Lemma bound_key_min (col : string) :
  target_column (col +:+ "_min") = col /\ selection_rel (col +:+ "_min") = Some Ge.
Proof.
  unfold target_column, selection_rel.
  rewrite (endswith_not_start col "_min") by (simpl; (lia || done)).
  rewrite (endswith_append col "_min"). simpl.
  split; [|done]. apply (drop_last_append col "_min").
Qed.

Lemma bound_key_max (col : string) :
  target_column (col +:+ "_max") = col /\ selection_rel (col +:+ "_max") = Some Le.
Proof.
  unfold target_column, selection_rel.
  rewrite (endswith_not_start col "_max") by (simpl; (lia || done)).
  rewrite (endswith_other _ _ "_min" (endswith_append col "_max")) by (simpl; lia).
  rewrite (endswith_append col "_max"). simpl.
  split; [|done]. apply (drop_last_append col "_max").
Qed.

Lemma dict_set_Forall (P : string * scalar -> Prop) (d : list (string * scalar))
    (key : string) (value : scalar) :
  Forall P d -> P (key, value) -> Forall P (dict_set d key value).
Proof.
  intros Hd Hnew. induction Hd as [|[k v] d Hk Hd IH]; simpl.
  - by constructor.
  - destruct (String.eqb_spec k key) as [->|_]; by constructor.
Qed.

(** ** Further properties of the three functions together *)

Section PipelineExtras.

Context (parse_datetime : string -> option Z)
        (parse_float : string -> option (option Q)) (st : Streamlit).

Lemma applicable_equality (df : DataFrame) (col : string) (value : scalar) :
  In col (columns_of df) -> selection_rel col = None ->
  applicable parse_datetime df (col, value).
Proof.
  intros Hin Hrel. unfold applicable, selection_mask, getitem. simpl.
  rewrite (target_column_plain col Hrel), Hrel.
  destruct (find_col (series df) col) as [c|] eqn:Hc; [by eexists|].
  exfalso. unfold columns_of in Hin. clear Hrel.
  induction (series df) as [|[name x] l IH]; simpl in *; [done|].
  destruct (String.eqb_spec name col) as [->|Hne]; [done|].
  destruct Hin as [Hin|Hin]; [done|by apply IH].
Qed.

Lemma applicable_bounds (df : DataFrame) (col : string) (l : list (option Q)) (lo hi : Q) :
  find_col (series df) col = Some (NumCol l) ->
  applicable parse_datetime df (col +:+ "_min", SNum lo) /\
  applicable parse_datetime df (col +:+ "_max", SNum hi).
Proof.
  intros Hc. unfold applicable, selection_mask, getitem. simpl.
  destruct (bound_key_min col) as [-> ->]. destruct (bound_key_max col) as [-> ->].
  rewrite Hc. simpl. split; by eexists.
Qed.

Lemma categorical_loop_applicable (data : DataFrame) (stored : gmap string (list scalar))
    (columns : option (list string)) (max_filters : Z) (cols : list string) (s : gen_state) :
  (forall col, In col cols -> In col (columns_of data) /\ selection_rel col = None) ->
  Forall (applicable parse_datetime data) (filters s) ->
  Forall (applicable parse_datetime data)
    (filters (categorical_loop st data stored columns max_filters cols s).1).
Proof.
  revert s. induction cols as [|col cols IH]; intros s Hcols Hs; [done|].
  assert (Hrest : forall c, In c cols -> In c (columns_of data) /\ selection_rel c = None).
  { intros c Hc. apply Hcols. by right. }
  simpl. destruct (excluded columns col); [by apply IH|].
  destruct (max_filters <=? filter_count s)%Z; [done|].
  destruct (values_for data stored col) as [values|e]; [|done].
  destruct (length values <=? 100); [|by apply IH].
  apply IH; [done|]. unfold add_selectbox. simpl.
  case_match; [done|].
  apply dict_set_Forall; [done|].
  destruct (Hcols col (or_introl eq_refl)). by apply applicable_equality.
Qed.

Lemma numeric_loop_applicable (data : DataFrame)
    (columns : option (list string)) (max_filters : Z) (cols : list string) (s : gen_state) :
  (forall col c, In col cols -> find_col (series data) col = Some c ->
                 is_numeric_dtype c = true) ->
  Forall (applicable parse_datetime data) (filters s) ->
  Forall (applicable parse_datetime data)
    (filters (numeric_loop parse_float st data columns max_filters cols s)).
Proof.
  revert s. induction cols as [|col cols IH]; intros s Hcols Hs; [done|].
  assert (Hrest : forall c x, In c cols -> find_col (series data) c = Some x ->
                              is_numeric_dtype x = true).
  { intros c x Hc. apply Hcols. by right. }
  simpl. destruct (excluded columns col); [by apply IH|].
  destruct (max_filters <=? filter_count s)%Z; [done|].
  destruct (min_max_float parse_float data col) as [[min_val max_val]|] eqn:Hmm;
    [|by apply IH].
  destruct (float_ne min_val max_val); [|by apply IH].
  destruct (slider st _ _ _ _ _ _) as [min_selected max_selected].
  apply IH; [done|]. simpl.
  case_match; [|done].
  unfold min_max_float in Hmm.
  destruct (find_col (series data) col) as [c|] eqn:Hc; [|done].
  pose proof (Hcols col c (or_introl eq_refl) Hc) as Hnum.
  destruct c as [l|l|l]; try discriminate Hnum.
  destruct (applicable_bounds data col l min_selected max_selected Hc).
  apply dict_set_Forall; [|done]. by apply dict_set_Forall.
Qed.

(** X13: classification, synthesis and filtering compose without an
    exception: for a row-aligned frame with distinct column names, none of
    which ends with a range suffix, the selections that
    [generate_dynamic_filters] returns on the frame classified by
    [detect_column_types] are all applied by [apply_filters], which returns
    a frame, whatever the user chooses in the widgets. *)
Theorem classified_frame_filters_apply (h : store) (l : loc)
    (columns : option (list string)) (max_filters : Z) :
  l < length h ->
  well_formed (h !!! l) ->
  NoDup (columns_of (h !!! l)) ->
  Forall (fun col => selection_rel col = None) (columns_of (h !!! l)) ->
  exists filters r h',
    (generate_dynamic_filters parse_float st
       (Some ((detect_column_types parse_datetime l h).2 !!! l)) columns max_filters).1
    = Ok filters /\
    apply_filters parse_datetime (Some l) filters (detect_column_types parse_datetime l h).2
    = (Ok (Some r), h').
Proof.
  intros Hl Hwf Hnd Hplain. unfold detect_column_types. cbn [snd].
  set (df := h !!! l) in *.
  set (h1 := <[l := detect_column_types_frame parse_datetime df]> h).
  assert (Hdf : h1 !!! l = detect_column_types_frame parse_datetime df).
  { unfold h1. by rewrite list_lookup_total_insert_eq. }
  rewrite Hdf.
  set (df' := detect_column_types_frame parse_datetime df) in *.
  assert (Happ : exists filters,
            (generate_dynamic_filters parse_float st (Some df') columns max_filters).1
            = Ok filters /\ Forall (applicable parse_datetime df') filters).
  { unfold generate_dynamic_filters.
    destruct (empty df'); [by exists []|].
    unfold df' at 1 2. cbn [detect_column_types_frame attrs column_types unique_values].
    change (get_list (column_types_dict ?d) "categorical") with (categorical_cols d).
    change (get_list (column_types_dict ?d) "datetime") with (@nil string).
    change (get_list (column_types_dict ?d) "numeric") with (numeric_cols d).
    cbn [default from_option id date_loop].
    match goal with |- context [categorical_loop st ?d ?m columns max_filters ?cs gen_init] =>
      destruct (categorical_loop_exact st d m columns max_filters cs gen_init)
        as (s1 & Hrun & _);
      [intros col; apply detected_values_stored|];
      pose proof (categorical_loop_applicable d m columns max_filters cs gen_init) as Hcat
    end.
    rewrite Hrun in Hcat |- *. cbn [fst snd] in *. eexists. split; [reflexivity|].
    apply numeric_loop_applicable.
    - intros col c Hin Hc. apply find_col_In in Hc.
      change (numeric_cols ?d) with (cols_of_kind Numeric d) in Hin.
      rewrite cols_of_kind_detect in Hin.
      apply in_map_iff in Hin as ([col' c'] & Heq & Hin). simpl in Heq. subst col'.
      apply filter_In in Hin as [Hin Hk].
      rewrite (series_functional _ _ _ _ Hnd Hc Hin).
      unfold has_kind, classify in Hk. simpl in Hk.
      destruct (is_numeric_dtype c'); [done|].
      repeat case_match; simplify_eq; done.
    - apply Hcat; [|constructor].
      intros col Hin.
      change (categorical_cols ?d) with (cols_of_kind Categorical d) in Hin.
      rewrite cols_of_kind_detect in Hin.
      apply in_map_iff in Hin as ([col' c'] & Heq & Hin). simpl in Heq. subst col'.
      apply filter_In in Hin as [Hin _].
      assert (Hcol : In col (columns_of df)).
      { apply in_map_iff. by exists (col, c'). }
      split; [done|].
      rewrite Forall_forall in Hplain. by apply Hplain, list_elem_of_In. }
  destruct Happ as (filters & Hgen & Happ).
  destruct (apply_filters_conjunction parse_datetime h1 l filters
              (map (mask_of parse_datetime df') filters)) as (r & h' & Hrun & _).
  - by rewrite Hdf.
  - rewrite Hdf. by apply applicable_masks.
  - by exists filters, r, h'.
Qed.

End PipelineExtras.

(** *** Sliders, and the user who touches nothing *)

Lemma float_gt_spec (x y : Q) : float_gt (Some x) (Some y) = true <-> (y < x)%Q.
Proof.
  unfold float_gt. rewrite negb_true_iff. split.
  - intros H. apply Qnot_le_lt. intros Hle. apply Qle_bool_iff in Hle. congruence.
  - intros H. destruct (Qle_bool x y) eqn:E; [|done].
    apply Qle_bool_iff in E. lra.
Qed.

(** The step is a number above zero, whatever the range is: above 1000 it
    is a hundredth of the range, and a constant otherwise, also when the
    range is [nan]. *)
Lemma slider_step_positive (range_size : option Q) :
  exists q, slider_step range_size = Some q /\ (0 < q)%Q.
Proof.
  unfold slider_step. destruct range_size as [r|]; [|by exists (1 # 100)%Q].
  destruct (float_gt (Some r) (Some 1000%Q)) eqn:H1.
  { apply float_gt_spec in H1. exists (r / 100)%Q. split; [done|].
    assert (r / 100 == r * (1 # 100))%Q as -> by (unfold Qdiv; reflexivity). lra. }
  destruct (float_gt (Some r) (Some 100%Q)); [by exists 1%Q|].
  destruct (float_gt (Some r) (Some 10%Q)); [by exists (1 # 10)%Q|].
  by exists (1 # 100)%Q.
Qed.

Lemma scalar_eqb_refl (v : scalar) : scalar_eqb v v = true.
Proof.
  destruct v; simpl.
  - apply Qeq_bool_iff. reflexivity.
  - apply String.eqb_refl.
  - apply Z.eqb_refl.
Qed.

Lemma float_gt_irrefl (x : Q) (a : option Q) :
  a = Some x \/ a = None -> float_gt (Some x) a = false /\ float_gt a (Some x) = false.
Proof.
  intros [->| ->]; [|done].
  assert (float_gt (Some x) (Some x) = false); [|done].
  destruct (float_gt (Some x) (Some x)) eqn:E; [|done].
  apply float_gt_spec in E. lra.
Qed.

Section DefaultsExtras.

Context (parse_datetime : string -> option Z)
        (parse_float : string -> option (option Q)) (st : Streamlit).

Lemma categorical_loop_sliders (data : DataFrame) (stored : gmap string (list scalar))
    (columns : option (list string)) (max_filters : Z) (cols : list string) (s : gen_state) :
  Forall slider_ok (trace s) ->
  Forall slider_ok (trace (categorical_loop st data stored columns max_filters cols s).1).
Proof.
  revert s. induction cols as [|col cols IH]; intros s Hs; [done|].
  simpl. repeat case_match; try done; try by apply IH.
  apply IH. simpl. apply Forall_app. split; [done|]. by repeat constructor.
Qed.

Lemma date_loop_sliders (data : DataFrame)
    (columns : option (list string)) (max_filters : Z) (cols : list string) (s : gen_state) :
  Forall slider_ok (trace s) ->
  Forall slider_ok (trace (date_loop st data columns max_filters cols s)).
Proof.
  revert s. induction cols as [|col cols IH]; intros s Hs; [done|].
  simpl. destruct (excluded columns col); [by apply IH|].
  destruct (max_filters <=? filter_count s)%Z; [done|].
  destruct (min_max_date data col) as [[min_date max_date]|].
  - destruct (negb (min_date =? max_date)%Z); [|by apply IH].
    apply IH. simpl. apply Forall_app. split; [done|]. by repeat constructor.
  - apply IH. unfold log_error, log_write.
    destruct (min_max_nat data col); simpl; rewrite ?Forall_app;
      repeat split; try done; by repeat constructor.
Qed.

Lemma numeric_loop_sliders (data : DataFrame)
    (columns : option (list string)) (max_filters : Z) (cols : list string) (s : gen_state) :
  Forall slider_ok (trace s) ->
  Forall slider_ok (trace (numeric_loop parse_float st data columns max_filters cols s)).
Proof.
  revert s. induction cols as [|col cols IH]; intros s Hs; [done|].
  simpl. destruct (excluded columns col); [by apply IH|].
  destruct (max_filters <=? filter_count s)%Z; [done|].
  destruct (min_max_float parse_float data col) as [[min_val max_val]|].
  - destruct (float_ne min_val max_val) eqn:Hne; [|by apply IH].
    destruct (slider st _ _ _ _ _ _) as [min_selected max_selected].
    apply IH. simpl. apply Forall_app. split; [done|].
    constructor; [constructor|]. constructor; [|constructor].
    simpl. split; [done|]. split; [done|].
    apply slider_step_positive.
  - apply IH. simpl. apply Forall_app. split; [done|]. by repeat constructor.
Qed.

Lemma basic_loop_sliders (cols : list (string * column)) (s : gen_state) :
  Forall slider_ok (trace s) -> Forall slider_ok (trace (basic_loop st cols s)).
Proof.
  revert s. induction cols as [|[col c] cols IH]; intros s Hs; [done|].
  simpl. case_match; [|by apply IH].
  apply IH. simpl. apply Forall_app. split; [done|]. by repeat constructor.
Qed.

(** X14: every slider shown starts at the full range of two bounds that
    differ, and its step is a number above zero: no slider is shown for a
    column of one value, and none with a step of zero or [nan]. *)
Theorem sliders_are_well_formed (data : option DataFrame)
    (columns : option (list string)) (max_filters : Z) :
  Forall slider_ok (generate_dynamic_filters parse_float st data columns max_filters).2.
Proof.
  unfold generate_dynamic_filters.
  destruct data as [df|]; [|constructor].
  destruct (empty df); [constructor|].
  destruct (column_types (attrs df)) as [types|].
  - pose proof (categorical_loop_sliders df (default ∅ (unique_values (attrs df)))
                  columns max_filters (get_list types "categorical") gen_init) as Hc.
    destruct (categorical_loop st df _ columns max_filters _ gen_init) as [s1 [e|]];
      simpl in *.
    + apply Hc. constructor.
    + apply numeric_loop_sliders, date_loop_sliders, Hc. constructor.
  - simpl. apply basic_loop_sliders. constructor.
Qed.

Lemma categorical_loop_untouched (data : DataFrame) (stored : gmap string (list scalar))
    (columns : option (list string)) (max_filters : Z) (cols : list string) (s : gen_state) :
  leaves_defaults st ->
  filters (categorical_loop st data stored columns max_filters cols s).1 = filters s.
Proof.
  intros [Hsel _]. revert s. induction cols as [|col cols IH]; intros s; [done|].
  simpl. repeat case_match; try done.
  rewrite IH. unfold add_selectbox. simpl. by rewrite Hsel, scalar_eqb_refl.
Qed.

Lemma basic_loop_untouched (cols : list (string * column)) (s : gen_state) :
  leaves_defaults st -> filters (basic_loop st cols s) = filters s.
Proof.
  intros [Hsel _]. revert s. induction cols as [|[col c] cols IH]; intros s; [done|].
  simpl. case_match; [|done].
  rewrite IH. unfold add_selectbox. simpl. by rewrite Hsel, scalar_eqb_refl.
Qed.

Lemma numeric_loop_untouched (data : DataFrame)
    (columns : option (list string)) (max_filters : Z) (cols : list string) (s : gen_state) :
  leaves_defaults st ->
  filters (numeric_loop parse_float st data columns max_filters cols s) = filters s.
Proof.
  intros [_ Hsl]. revert s. induction cols as [|col cols IH]; intros s; [done|].
  simpl. destruct (excluded columns col); [done|].
  destruct (max_filters <=? filter_count s)%Z; [done|].
  destruct (min_max_float parse_float data col) as [[min_val max_val]|]; [|by rewrite IH].
  destruct (float_ne min_val max_val); [|done].
  match goal with |- context [slider st ?label min_val max_val ?v ?step ?key] =>
    destruct (Hsl label min_val max_val step key) as [Hlo Hhi] end.
  destruct (slider st _ _ _ _ _ _) as [min_selected max_selected].
  rewrite IH. cbn [filters fst snd] in *.
  assert (Hmin : float_gt (Some min_selected) min_val = false).
  { destruct min_val as [lo|]; [|done]. rewrite (Hlo lo eq_refl).
    apply (float_gt_irrefl lo (Some lo)). by left. }
  assert (Hmax : float_gt max_val (Some max_selected) = false).
  { destruct max_val as [hi|]; [|done]. rewrite (Hhi hi eq_refl).
    apply (float_gt_irrefl hi (Some hi)). by left. }
  unfold float_gt in Hmin. by rewrite Hmin, Hmax.
Qed.

(** X15: a user who leaves every widget as shown filters nothing: after
    [detect_column_types], and on a frame without a schema,
    [generate_dynamic_filters] returns an empty dictionary, and
    [apply_filters] then returns the very object it was given and creates
    none. *)
Theorem untouched_widgets_filter_nothing (h : store) (l : loc)
    (columns : option (list string)) (max_filters : Z) :
  leaves_defaults st -> l < length h ->
  (exists filters,
      (generate_dynamic_filters parse_float st
         (Some ((detect_column_types parse_datetime l h).2 !!! l)) columns max_filters).1
      = Ok filters /\
      apply_filters parse_datetime (Some l) filters (detect_column_types parse_datetime l h).2
      = (Ok (Some l), (detect_column_types parse_datetime l h).2)) /\
  (column_types (attrs (h !!! l)) = None ->
   exists filters,
      (generate_dynamic_filters parse_float st (Some (h !!! l)) columns max_filters).1
      = Ok filters /\
      apply_filters parse_datetime (Some l) filters h = (Ok (Some l), h)).
Proof.
  intros Hst Hl. split.
  - exists []. split; [|done].
    unfold detect_column_types. cbn [snd]. rewrite list_lookup_total_insert_eq by done.
    unfold generate_dynamic_filters.
    change (empty (detect_column_types_frame parse_datetime (h !!! l)))
      with (empty (h !!! l)).
    destruct (empty (h !!! l)); [done|].
    cbn [detect_column_types_frame attrs column_types unique_values].
    change (get_list (column_types_dict ?d) "categorical") with (categorical_cols d).
    change (get_list (column_types_dict ?d) "datetime") with (@nil string).
    change (get_list (column_types_dict ?d) "numeric") with (numeric_cols d).
    cbn [default from_option id date_loop].
    match goal with |- context [categorical_loop st ?d ?m columns max_filters ?cs gen_init] =>
      destruct (categorical_loop_exact st d m columns max_filters cs gen_init)
        as (s1 & Hrun & _);
      [intros col; apply detected_values_stored|];
      pose proof (categorical_loop_untouched d m columns max_filters cs gen_init Hst) as Hcat
    end.
    rewrite Hrun in Hcat |- *. cbn [fst snd] in *.
    by rewrite numeric_loop_untouched, Hcat.
  - intros Hnone. exists []. split; [|done].
    unfold generate_dynamic_filters. rewrite Hnone.
    destruct (empty (h !!! l)); [done|]. cbn [fst].
    by rewrite basic_loop_untouched.
Qed.

End DefaultsExtras.

Lemma pipeline_witness :
  exists filters r h',
    (generate_dynamic_filters decimal_float st_choosy
       (Some ((detect_column_types iso_datetime 0 [schema_frame]).2 !!! 0)) None 3).1
    = Ok filters /\
    apply_filters iso_datetime (Some 0) filters
      (detect_column_types iso_datetime 0 [schema_frame]).2
    = (Ok (Some r), h').
Proof.
  apply (classified_frame_filters_apply iso_datetime decimal_float st_choosy
           [schema_frame] 0 None 3).
  - simpl. lia.
  - repeat constructor.
  - apply NoDup_ListNoDup. repeat constructor; simpl; intuition discriminate.
  - repeat constructor.
Defined.

Lemma untouched_widgets_witness :
  exists filters,
    (generate_dynamic_filters decimal_float st_default
       (Some ((detect_column_types iso_datetime 0 [schema_frame]).2 !!! 0)) None 3).1
    = Ok filters /\
    apply_filters iso_datetime (Some 0) filters
      (detect_column_types iso_datetime 0 [schema_frame]).2
    = (Ok (Some 0), (detect_column_types iso_datetime 0 [schema_frame]).2).
Proof.
  apply (untouched_widgets_filter_nothing iso_datetime decimal_float st_default
           [schema_frame] 0 None 3).
  - split; [reflexivity|]. intros label min_value max_value step key. simpl.
    split; by intros ? ->.
  - simpl. lia.
Defined.

(** ** Further properties of the date ranges *)

Lemma fold_min_le (t : list Z) (x : Z) :
  let m := fold_left (fun best y => if (best <=? y)%Z then best else y) t x in
  (m <= x)%Z /\ Forall (fun y => (m <= y)%Z) t.
Proof.
  revert x. induction t as [|y t IH]; intros x; simpl; [split; [lia|constructor]|].
  destruct (IH (if (x <=? y)%Z then x else y)) as [Hm Hall].
  destruct (Z.leb_spec x y); (split; [lia|constructor; [lia|done]]).
Qed.

Lemma fold_max_ge (t : list Z) (x : Z) :
  let m := fold_left (fun best y => if (y <=? best)%Z then best else y) t x in
  (x <= m)%Z /\ Forall (fun y => (y <= m)%Z) t.
Proof.
  revert x. induction t as [|y t IH]; intros x; simpl; [split; [lia|constructor]|].
  destruct (IH (if (y <=? x)%Z then x else y)) as [Hm Hall].
  destruct (Z.leb_spec y x); (split; [lia|constructor; [lia|done]]).
Qed.

Lemma min_of_le (l : list Z) (lo : Z) :
  min_of Z.leb l = Some lo -> Forall (fun y => (lo <= y)%Z) l.
Proof.
  destruct l as [|x t]; [done|]. simpl. intros [= <-].
  destruct (fold_min_le t x). by constructor.
Qed.

Lemma max_of_ge (l : list Z) (hi : Z) :
  max_of Z.leb l = Some hi -> Forall (fun y => (y <= hi)%Z) l.
Proof.
  destruct l as [|x t]; [done|]. simpl. intros [= <-].
  destruct (fold_max_ge t x). by constructor.
Qed.

Lemma date_of_mono (t u : Z) : (t <= u)%Z -> (date_of t <= date_of u)%Z.
Proof. intros H. unfold date_of, ns_per_day. by apply Z.div_le_mono. Qed.

Lemma midnight_le (t : Z) : (timestamp_of_date (date_of t) <= t)%Z.
Proof.
  unfold timestamp_of_date, date_of, ns_per_day.
  rewrite Z.mul_comm. by apply Z.mul_div_le.
Qed.

Lemma before_midnight (t d : Z) :
  (date_of t < d)%Z -> (t < timestamp_of_date d)%Z.
Proof.
  unfold timestamp_of_date, date_of, ns_per_day. intros H.
  destruct (Z.lt_ge_cases t (d * 86400000000000)) as [|Hge]; [done|].
  rewrite Z.mul_comm in Hge.
  apply Z.div_le_lower_bound in Hge; lia.
Qed.

Lemma min_max_date_bounds (df : DataFrame) (col : string) (l : list (option Z))
    (dmin dmax : Z) :
  find_col (series df) col = Some (TimeCol l) ->
  min_max_date df col = Some (dmin, dmax) ->
  (dmin <= dmax)%Z /\
  Forall (fun t => (timestamp_of_date dmin <= t)%Z /\ (date_of t <= dmax)%Z) (present l).
Proof.
  intros Hc. unfold min_max_date. rewrite Hc.
  destruct (min_of Z.leb (present l)) as [lo|] eqn:Hlo; [|done].
  destruct (max_of Z.leb (present l)) as [hi|] eqn:Hhi; [|done].
  intros [= <- <-].
  assert (Hne : present l <> []) by (by intros E; rewrite E in Hlo).
  apply min_of_le in Hlo. apply max_of_ge in Hhi.
  assert (Hall : Forall (fun t => (lo <= t <= hi)%Z) (present l)).
  { rewrite Forall_forall in *. intros t Ht. split; [by apply Hlo|by apply Hhi]. }
  split.
  - destruct (present l) as [|x t]; [done|].
    apply Forall_cons in Hall as [[? ?] _]. apply date_of_mono. lia.
  - apply (Forall_impl _ _ _ Hall). intros t [? ?]. split.
    + pose proof (midnight_le lo). lia.
    + by apply date_of_mono.
Qed.

Lemma bound_key_start (col : string) :
  target_column (col +:+ "_start") = col /\ selection_rel (col +:+ "_start") = Some Ge.
Proof.
  unfold target_column, selection_rel.
  rewrite (endswith_append col "_start").
  rewrite (endswith_other _ _ "_min" (endswith_append col "_start")) by (simpl; lia).
  split; [|done]. apply (drop_last_append col "_start").
Qed.

Lemma bound_key_end (col : string) :
  target_column (col +:+ "_end") = col /\ selection_rel (col +:+ "_end") = Some Le.
Proof.
  unfold target_column, selection_rel.
  rewrite (endswith_not_start col "_end") by (simpl; (lia || done)).
  rewrite (endswith_other _ _ "_min" (endswith_append col "_end")) by (simpl; lia).
  rewrite (endswith_other _ _ "_max" (endswith_append col "_end")) by (simpl; lia).
  rewrite (endswith_append col "_end"). simpl.
  split; [|done]. apply (drop_last_append col "_end").
Qed.

Lemma cmp_cells_ext {A} (f g : A -> bool) (l : list (option A)) :
  Forall (fun a => f a = g a) (present l) -> cmp_cells f l = cmp_cells g l.
Proof.
  unfold cmp_cells. induction l as [|[a|] l IH]; simpl; intros H; [done| |].
  - apply Forall_cons in H as [-> H]. by rewrite IH.
  - by rewrite IH.
Qed.

Section DateExtras.

Context (parse_datetime : string -> option Z)
        (parse_float : string -> option (option Q)) (st : Streamlit).

(** X17: the range a date input starts with is not neutral once it is
    written back as [col_start] and [col_end]: the lower bound, midnight of
    the first day, keeps every row that has a date, but the upper bound,
    midnight of the last day, keeps only the rows of earlier days and those
    exactly at that midnight; later rows of the last day are left out. *)
Theorem default_date_range_cuts_last_day (df : DataFrame) (col : string)
    (l : list (option Z)) (dmin dmax : Z) :
  find_col (series df) col = Some (TimeCol l) ->
  min_max_date df col = Some (dmin, dmax) ->
  selection_mask parse_datetime df (col +:+ "_start", STime (timestamp_of_date dmin))
  = Ok (cmp_cells (fun _ => true) l) /\
  selection_mask parse_datetime df (col +:+ "_end", STime (timestamp_of_date dmax))
  = Ok (cmp_cells (fun t => (date_of t <? dmax)%Z || (t =? timestamp_of_date dmax)%Z) l).
Proof.
  intros Hc Hmm.
  destruct (min_max_date_bounds df col l dmin dmax Hc Hmm) as [_ Hall].
  unfold selection_mask, getitem. simpl.
  destruct (bound_key_start col) as [-> ->]. destruct (bound_key_end col) as [-> ->].
  rewrite Hc. simpl. split; f_equal; apply cmp_cells_ext;
    apply (Forall_impl _ _ _ Hall); intros t [Hlo Hhi]; simpl.
  - by apply Z.leb_le.
  - destruct (Z.ltb_spec (date_of t) dmax) as [Hlt|Hge]; simpl.
    + apply Z.leb_le. apply before_midnight in Hlt. lia.
    + assert (date_of t = dmax) as <- by lia.
      pose proof (midnight_le t).
      destruct (Z.eqb_spec t (timestamp_of_date (date_of t))) as [<-|Hne].
      * by apply Z.leb_le.
      * apply Z.leb_gt. lia.
Qed.

Lemma categorical_loop_date_inputs (data : DataFrame) (stored : gmap string (list scalar))
    (columns : option (list string)) (max_filters : Z) (cols : list string) (s : gen_state) :
  Forall date_input_ok (trace s) ->
  Forall date_input_ok (trace (categorical_loop st data stored columns max_filters cols s).1).
Proof.
  revert s. induction cols as [|col cols IH]; intros s Hs; [done|].
  simpl. repeat case_match; try done; try by apply IH.
  apply IH. simpl. apply Forall_app. split; [done|]. by repeat constructor.
Qed.

Lemma date_loop_date_inputs (data : DataFrame)
    (columns : option (list string)) (max_filters : Z) (cols : list string) (s : gen_state) :
  Forall date_input_ok (trace s) ->
  Forall date_input_ok (trace (date_loop st data columns max_filters cols s)).
Proof.
  revert s. induction cols as [|col cols IH]; intros s Hs; [done|].
  simpl. destruct (excluded columns col); [by apply IH|].
  destruct (max_filters <=? filter_count s)%Z; [done|].
  destruct (min_max_date data col) as [[min_date max_date]|] eqn:Hmm.
  - destruct (Z.eqb_spec min_date max_date) as [_|Hne]; simpl; [by apply IH|].
    apply IH. simpl. apply Forall_app. split; [done|].
    constructor; [constructor|]. constructor; [|constructor].
    simpl. split; [done|].
    assert (min_date <= max_date)%Z; [|lia].
    pose proof Hmm as Hmm'. unfold min_max_date in Hmm'.
    destruct (find_col (series data) col) as [[l|l|l]|] eqn:Hc; try done.
    by destruct (min_max_date_bounds data col l min_date max_date Hc Hmm).
  - apply IH. unfold log_error, log_write.
    destruct (min_max_nat data col); simpl; rewrite ?Forall_app;
      repeat split; try done; by repeat constructor.
Qed.

Lemma numeric_loop_date_inputs (data : DataFrame)
    (columns : option (list string)) (max_filters : Z) (cols : list string) (s : gen_state) :
  Forall date_input_ok (trace s) ->
  Forall date_input_ok (trace (numeric_loop parse_float st data columns max_filters cols s)).
Proof.
  revert s. induction cols as [|col cols IH]; intros s Hs; [done|].
  simpl. destruct (excluded columns col); [by apply IH|].
  destruct (max_filters <=? filter_count s)%Z; [done|].
  destruct (min_max_float parse_float data col) as [[min_val max_val]|].
  - destruct (float_ne min_val max_val); [|by apply IH].
    destruct (slider st _ _ _ _ _ _) as [min_selected max_selected].
    apply IH. simpl. apply Forall_app. split; [done|]. by repeat constructor.
  - apply IH. simpl. apply Forall_app. split; [done|]. by repeat constructor.
Qed.

Lemma basic_loop_date_inputs (cols : list (string * column)) (s : gen_state) :
  Forall date_input_ok (trace s) -> Forall date_input_ok (trace (basic_loop st cols s)).
Proof.
  revert s. induction cols as [|[col c] cols IH]; intros s Hs; [done|].
  simpl. case_match; [|by apply IH].
  apply IH. simpl. apply Forall_app. split; [done|]. by repeat constructor.
Qed.

(** X16: every date input shown starts at the full range it offers, and
    its first day is before its last: a column whose dates all fall on one
    day gets no widget. *)
Theorem date_inputs_are_well_formed (data : option DataFrame)
    (columns : option (list string)) (max_filters : Z) :
  Forall date_input_ok (generate_dynamic_filters parse_float st data columns max_filters).2.
Proof.
  unfold generate_dynamic_filters.
  destruct data as [df|]; [|constructor].
  destruct (empty df); [constructor|].
  destruct (column_types (attrs df)) as [types|].
  - pose proof (categorical_loop_date_inputs df (default ∅ (unique_values (attrs df)))
                  columns max_filters (get_list types "categorical") gen_init) as Hc.
    destruct (categorical_loop st df _ columns max_filters _ gen_init) as [s1 [e|]];
      simpl in *.
    + apply Hc. constructor.
    + apply numeric_loop_date_inputs, date_loop_date_inputs, Hc. constructor.
  - simpl. apply basic_loop_date_inputs. constructor.
Qed.

End DateExtras.

Lemma default_date_range_witness :
  selection_mask iso_datetime schema_frame ("Signed" +:+ "_start", STime (timestamp_of_date 0))
  = Ok (cmp_cells (fun _ => true) [Some 0%Z; Some 172800000000000%Z; None]) /\
  selection_mask iso_datetime schema_frame ("Signed" +:+ "_end", STime (timestamp_of_date 2))
  = Ok (cmp_cells (fun t => (date_of t <? 2)%Z || (t =? timestamp_of_date 2)%Z)
          [Some 0%Z; Some 172800000000000%Z; None]).
Proof.
  apply (default_date_range_cuts_last_day iso_datetime schema_frame "Signed"
           [Some 0%Z; Some 172800000000000%Z; None] 0 2).
  - reflexivity.
  - reflexivity.
Defined.
